(** * The peer-to-peer networking core of the TRI-V3 node

    A shallow embedding of [src/network]: the wire codec ([protocol.py]),
    the framed peer connection and the handshake ([connection_manager.py]),
    the message dispatcher ([message_handler.py]), the token buckets and
    the rate limiter ([rate_limiter.py]), the session layer
    ([security.py]), the sync trigger ([sync_manager.py]), the metrics
    ([metrics.py]), the error handler ([error_handler.py]) and the onion
    address check ([tor_network.py]).

    Conventions.
    - Python [float] and [int] clock values are rationals ([Q]); the only
      arithmetic the code does on them is [+], [-], [*], [min] and
      comparisons.
    - Python values that travel through [json] are values of type [json];
      [None] is [JNull].  A [dict] is an association list read by key.
    - A Python exception is a value of [exn]; a call that may raise
      returns a [result].
    - Library calls ([json], [cryptography], [time.time]) are parameters
      of the definitions that use them. *)

From Stdlib Require Import ZArith QArith Qminmax Lia Lqa String Ascii List.
From Stdlib.Strings Require Import Byte.
From stdpp Require Import base option gmap strings list pretty.

Set Warnings "-register-all".
Local Open Scope string_scope.

(** ** Python exceptions and results *)

(** [error_handler.py], [ErrorType] and [ErrorSeverity]. *)
Inductive ErrorType : Type :=
| CONNECTION_ERROR
| PROTOCOL_ERROR
| AUTHENTICATION_ERROR
| RATE_LIMIT_ERROR
| VALIDATION_ERROR
| SYNC_ERROR
| PEER_ERROR
| INTERNAL_ERROR.

Inductive ErrorSeverity : Type := LOW | MEDIUM | HIGH | CRITICAL.

(** The exception classes the networking core raises or catches.  All of
    them derive from [Exception]; [NetworkError] is the repository's own
    class ([error_handler.py]), the others are built in. *)
Inductive exn : Type :=
| ValueError (msg : string)
| KeyError (key : string)
| AttributeError (msg : string)
| TypeError (msg : string)
| IndexError (msg : string)
| OverflowError (msg : string)
| JSONDecodeError (msg : string)
| UnicodeDecodeError (msg : string)
| IncompleteReadError (got expected : nat)
| ConnectionError (msg : string)
| NetworkError (error_type : ErrorType) (severity : ErrorSeverity) (msg : string).

Definition squote : string := String (ascii_of_nat 39) EmptyString.

(** [str(e)]. *)
Definition exn_str (e : exn) : string :=
  match e with
  | ValueError m | AttributeError m | TypeError m | IndexError m
  | OverflowError m | JSONDecodeError m | UnicodeDecodeError m
  | ConnectionError m | NetworkError _ _ m => m
  | KeyError k => squote ++ k ++ squote
  | IncompleteReadError got expected =>
      pretty got ++ " bytes read on a total of " ++ pretty expected
      ++ " expected bytes"
  end.

Inductive result (A : Type) : Type :=
| Ok (a : A)
| Raise (e : exn).
Arguments Ok {A} a.
Arguments Raise {A} e.

Definition rbind {A B : Type} (r : result A) (k : A -> result B) : result B :=
  match r with
  | Ok a => k a
  | Raise e => Raise e
  end.

Notation "x <-! r ; k" := (rbind r (fun x => k))
  (at level 100, r at next level, right associativity,
   format "x  <-!  r ;  '/' k").

(** ** JSON values *)

Inductive json : Type :=
| JNull
| JBool (b : bool)
| JInt (n : Z)
| JFloat (q : Q)
| JString (s : string)
| JArray (items : list json)
| JObject (fields : list (string * json)).

Definition empty_dict : json := JObject [].

Fixpoint dict_get (k : string) (d : list (string * json)) : option json :=
  match d with
  | [] => None
  | (k', v) :: d' => if String.eqb k k' then Some v else dict_get k d'
  end.

(** [d[k] = v] on a dict: replace the value of an existing key in place,
    append a new key. *)
Fixpoint dict_set (k : string) (v : json) (d : list (string * json))
  : list (string * json) :=
  match d with
  | [] => [(k, v)]
  | (k', v') :: d' =>
      if String.eqb k k' then (k, v) :: d' else (k', v') :: dict_set k v d'
  end.

(** [obj.get(k)] on an arbitrary value: only a dict has the method. *)
Definition py_get (obj : json) (k : string) : result json :=
  match obj with
  | JObject d => Ok (default JNull (dict_get k d))
  | _ => Raise (AttributeError "object has no attribute 'get'")
  end.

(** [obj.get(k, dflt)]. *)
Definition py_get_default (obj : json) (k : string) (dflt : json) : result json :=
  match obj with
  | JObject d => Ok (default dflt (dict_get k d))
  | _ => Raise (AttributeError "object has no attribute 'get'")
  end.

(** [obj[k]] with a string key. *)
Definition py_getitem (obj : json) (k : string) : result json :=
  match obj with
  | JObject d =>
      match dict_get k d with
      | Some v => Ok v
      | None => Raise (KeyError k)
      end
  | _ => Raise (TypeError "indices must be integers")
  end.

(** Truth value of a Python object ([if not x]). *)
Definition py_truthy (v : json) : bool :=
  match v with
  | JNull => false
  | JBool b => b
  | JInt n => negb (Z.eqb n 0)
  | JFloat q => negb (Qeq_bool q 0)
  | JString s => negb (String.eqb s EmptyString)
  | JArray l => negb (Nat.eqb (length l) 0)
  | JObject d => negb (Nat.eqb (length d) 0)
  end.

(** [v == s] for a string constant [s]. *)
Definition py_eq_str (v : json) (s : string) : bool :=
  match v with
  | JString s' => String.eqb s' s
  | _ => false
  end.

(** What the code takes from the Python runtime: [json.dumps(v).encode()],
    [json.loads(b.decode())] (which raises [JSONDecodeError] or
    [UnicodeDecodeError]), [str(v)] and [repr(v)]. *)
Class PyRuntime : Type := {
  json_dumps : json -> list byte;
  json_loads : list byte -> result json;
  py_str : json -> string;
  py_repr : json -> string
}.

(** ** protocol.py *)

(** [class MessageType(Enum)]: the members the class body declares. *)
Inductive MessageType : Type :=
| HANDSHAKE
| BLOCK
| TRANSACTION
| PEER_DISCOVERY
| PEER_LIST
| HEARTBEAT
| CHAIN_REQUEST
| CHAIN_RESPONSE
| ERROR.

Definition MessageType_members : list MessageType :=
  [HANDSHAKE; BLOCK; TRANSACTION; PEER_DISCOVERY; PEER_LIST; HEARTBEAT;
   CHAIN_REQUEST; CHAIN_RESPONSE; ERROR].

(** [member.value]. *)
Definition value (t : MessageType) : string :=
  match t with
  | HANDSHAKE => "handshake"
  | BLOCK => "block"
  | TRANSACTION => "transaction"
  | PEER_DISCOVERY => "peer_discovery"
  | PEER_LIST => "peer_list"
  | HEARTBEAT => "heartbeat"
  | CHAIN_REQUEST => "chain_request"
  | CHAIN_RESPONSE => "chain_response"
  | ERROR => "error"
  end.

(** [member.name]. *)
Definition name (t : MessageType) : string :=
  match t with
  | HANDSHAKE => "HANDSHAKE"
  | BLOCK => "BLOCK"
  | TRANSACTION => "TRANSACTION"
  | PEER_DISCOVERY => "PEER_DISCOVERY"
  | PEER_LIST => "PEER_LIST"
  | HEARTBEAT => "HEARTBEAT"
  | CHAIN_REQUEST => "CHAIN_REQUEST"
  | CHAIN_RESPONSE => "CHAIN_RESPONSE"
  | ERROR => "ERROR"
  end.

(** [str(member)]. *)
Definition MessageType_str (t : MessageType) : string :=
  "MessageType." ++ name t.

(** The tag strings of the enumeration, in declaration order. *)
Definition MessageType_values : list string := map value MessageType_members.

(** [MessageType(s)] for a string [s]: the member whose value is [s]. *)
Definition MessageType_of_value (s : string) : option MessageType :=
  find (fun t => String.eqb (value t) s) MessageType_members.

(** [MessageType.NAME], the attribute lookup on the class. *)
Definition MessageType_attr (attr : string) : result MessageType :=
  match find (fun t => String.eqb (name t) attr) MessageType_members with
  | Some t => Ok t
  | None => Raise (AttributeError attr)
  end.

#[global] Instance MessageType_eq_dec : EqDecision MessageType.
Proof. solve_decision. Defined.

Definition MessageType_index (t : MessageType) : nat :=
  match t with
  | HANDSHAKE => 0 | BLOCK => 1 | TRANSACTION => 2 | PEER_DISCOVERY => 3
  | PEER_LIST => 4 | HEARTBEAT => 5 | CHAIN_REQUEST => 6
  | CHAIN_RESPONSE => 7 | ERROR => 8
  end.

#[global] Program Instance MessageType_countable : Countable MessageType :=
  inj_countable' MessageType_index (fun n => nth n MessageType_members ERROR) _.
Next Obligation. by intros []. Qed.

(** [@dataclass class Message].  The annotations are not enforced at run
    time, so each payload field holds whatever value it was given;
    [signature] defaults to [None]. *)
Record Message : Type := mkMessage {
  type : MessageType;
  data : json;
  sender : json;
  timestamp : json;
  signature : json
}.

(** A message as the annotations describe it: a dict for [data], a string
    for [sender], a number for [timestamp], an optional string for
    [signature]. *)
Definition is_dict (v : json) : bool :=
  match v with JObject _ => true | _ => false end.
Definition is_str (v : json) : bool :=
  match v with JString _ => true | _ => false end.
Definition is_number (v : json) : bool :=
  match v with JInt _ | JFloat _ => true | _ => false end.
Definition is_optional_str (v : json) : bool :=
  match v with JNull | JString _ => true | _ => false end.

Definition valid_message (m : Message) : bool :=
  is_dict (data m) && is_str (sender m) && is_number (timestamp m)
  && is_optional_str (signature m).

Definition VERSION : string := "1.0.0".
Definition MAX_MESSAGE_SIZE : Z := 1024 * 1024.

Section Protocol.
Context `{!PyRuntime}.

(** The dict [encode_message] hands to [json.dumps]. *)
Definition message_dict (message : Message) : json :=
  JObject [("type", JString (value (type message)));
           ("data", data message);
           ("sender", sender message);
           ("timestamp", timestamp message);
           ("signature", signature message);
           ("version", JString VERSION)].

Definition encode_message (message : Message) : list byte :=
  json_dumps (message_dict message).

(** [MessageType(v)] for an arbitrary decoded value. *)
Definition MessageType_call (v : json) : result MessageType :=
  match v with
  | JString s =>
      match MessageType_of_value s with
      | Some t => Ok t
      | None => Raise (ValueError (py_repr v ++ " is not a valid MessageType"))
      end
  | _ => Raise (ValueError (py_repr v ++ " is not a valid MessageType"))
  end.

(** The body of the [try] block of [decode_message]. *)
Definition decode_message_body (data : list byte) : result Message :=
  message_dict <-! json_loads data;
  version <-! py_get message_dict "version";
  if negb (py_eq_str version VERSION) then
    Raise (ValueError ("Unsupported protocol version: " ++ py_str version))
  else
    ty_field <-! py_getitem message_dict "type";
    ty <-! MessageType_call ty_field;
    data_field <-! py_getitem message_dict "data";
    sender_field <-! py_getitem message_dict "sender";
    timestamp_field <-! py_getitem message_dict "timestamp";
    signature_field <-! py_get message_dict "signature";
    Ok (mkMessage ty data_field sender_field timestamp_field signature_field).

(** [decode_message]: the two [except] clauses turn a [JSONDecodeError]
    and a [KeyError] into a [ValueError]; any other exception leaves the
    function as it is. *)
Definition decode_message (data : list byte) : result Message :=
  match decode_message_body data with
  | Raise (JSONDecodeError m) =>
      Raise (ValueError ("Invalid message format: " ++ m))
  | Raise (KeyError k) =>
      Raise (ValueError ("Missing required field: " ++ exn_str (KeyError k)))
  | r => r
  end.

Definition create_handshake (node_id : string) (ts : json) : Message :=
  mkMessage HANDSHAKE (JObject [("node_id", JString node_id)])
            (JString node_id) ts JNull.

Definition create_error_message (error node_id : string) (ts : json) : Message :=
  mkMessage ERROR (JObject [("error", JString error)]) (JString node_id) ts JNull.

End Protocol.

(** ** A reference Python runtime

    An executable instance of [PyRuntime], used to run the codec on
    concrete frames.  It writes and reads JSON text the way [json.dumps]
    and [json.loads] do for plain values: the separators are [", "] and
    [": "], a string escapes the quote and the backslash, an [int] is a
    decimal numeral, a [float] is written with a decimal point (exactly,
    when its value is a decimal fraction).  Text is a byte string. *)
Module RefJson.

Definition dquote : ascii := ascii_of_nat 34.
Definition backslash : ascii := ascii_of_nat 92.

Definition is_char (c : ascii) (s : string) : bool :=
  String.eqb (String c EmptyString) s.

Fixpoint escape (s : string) : string :=
  match s with
  | EmptyString => EmptyString
  | String c s' =>
      if Ascii.eqb c dquote then String backslash (String dquote (escape s'))
      else if Ascii.eqb c backslash
           then String backslash (String backslash (escape s'))
           else String c (escape s')
  end.

Definition dump_string (s : string) : string :=
  String dquote (escape s ++ String dquote EmptyString).

Definition digit_char (n : N) : ascii := ascii_of_N (48 + n).

(** The [k] least significant decimal digits of [n]. *)
Fixpoint fixed_digits (k : nat) (n : N) : string :=
  match k with
  | O => EmptyString
  | S k' =>
      fixed_digits k' (n / 10) ++ String (digit_char (n mod 10)) EmptyString
  end.

(** The least [k' >= k] below [k + fuel] with [d] dividing [10 ^ k']. *)
Fixpoint decimal_scale (fuel k : nat) (d : Z) : option nat :=
  match fuel with
  | O => None
  | S fuel' =>
      if (10 ^ Z.of_nat k mod d =? 0)%Z then Some k
      else decimal_scale fuel' (S k) d
  end.

Definition dump_float (q : Q) : string :=
  let d := Z.pos (Qden q) in
  let k := default 17%nat (decimal_scale 64 0 d) in
  let scaled := (Z.abs (Qnum q) * 10 ^ Z.of_nat k / d)%Z in
  let whole := (scaled / 10 ^ Z.of_nat k)%Z in
  let frac := Z.to_N (scaled mod 10 ^ Z.of_nat k) in
  (if (Qnum q <? 0)%Z then "-" else EmptyString)
  ++ pretty whole ++ "."
  ++ (if Nat.eqb k 0 then "0" else fixed_digits k frac).

Definition join (sep : string) (l : list string) : string :=
  match l with
  | [] => EmptyString
  | x :: l' => fold_left (fun acc y => acc ++ sep ++ y) l' x
  end.

Fixpoint dumps (v : json) : string :=
  match v with
  | JNull => "null"
  | JBool true => "true"
  | JBool false => "false"
  | JInt n => pretty n
  | JFloat q => dump_float q
  | JString s => dump_string s
  | JArray items => "[" ++ join ", " (map dumps items) ++ "]"
  | JObject fields =>
      "{" ++ join ", " (map (fun kv => dump_string (fst kv) ++ ": "
                                       ++ dumps (snd kv)) fields) ++ "}"
  end.

Definition is_ws (c : ascii) : bool :=
  let n := nat_of_ascii c in
  Nat.eqb n 32 || Nat.eqb n 9 || Nat.eqb n 10 || Nat.eqb n 13.

Definition is_digit (c : ascii) : bool :=
  let n := nat_of_ascii c in Nat.leb 48 n && Nat.leb n 57.

Fixpoint skip_ws (s : string) : string :=
  match s with
  | String c s' => if is_ws c then skip_ws s' else s
  | EmptyString => s
  end.

Fixpoint strip_prefix (p s : string) : option string :=
  match p, s with
  | EmptyString, _ => Some s
  | String a p', String b s' =>
      if Ascii.eqb a b then strip_prefix p' s' else None
  | String _ _, EmptyString => None
  end.

Definition unescape (c : ascii) : option ascii :=
  if Ascii.eqb c dquote then Some dquote
  else if Ascii.eqb c backslash then Some backslash
  else if is_char c "/" then Some c
  else if is_char c "n" then Some (ascii_of_nat 10)
  else if is_char c "t" then Some (ascii_of_nat 9)
  else if is_char c "r" then Some (ascii_of_nat 13)
  else if is_char c "b" then Some (ascii_of_nat 8)
  else if is_char c "f" then Some (ascii_of_nat 12)
  else None.

(** The characters of a string literal after its opening quote, and the
    text after its closing quote. *)
Fixpoint parse_chars (s : string) : option (string * string) :=
  match s with
  | EmptyString => None
  | String c s' =>
      if Ascii.eqb c dquote then Some (EmptyString, s')
      else if Ascii.eqb c backslash then
        match s' with
        | String e s'' =>
            match unescape e, parse_chars s'' with
            | Some ch, Some (str, rest) => Some (String ch str, rest)
            | _, _ => None
            end
        | EmptyString => None
        end
      else
        match parse_chars s' with
        | Some (str, rest) => Some (String c str, rest)
        | None => None
        end
  end.

(** A run of digits: its value on top of [acc], its length, the rest. *)
Fixpoint parse_digits (s : string) (acc : Z) (count : nat) : Z * nat * string :=
  match s with
  | String c s' =>
      if is_digit c
      then parse_digits s' (acc * 10 + (Z.of_nat (nat_of_ascii c) - 48))%Z (S count)
      else (acc, count, s)
  | EmptyString => (acc, count, s)
  end.

Definition parse_number (s : string) : option (json * string) :=
  let '(sign, body) :=
    match s with
    | String c s' => if is_char c "-" then ((-1)%Z, s') else (1%Z, s)
    | EmptyString => (1%Z, s)
    end in
  let '(whole, n, rest) := parse_digits body 0%Z 0 in
  if Nat.eqb n 0 then None
  else
    match rest with
    | String c rest' =>
        if is_char c "." then
          let '(all, k, rest'') := parse_digits rest' whole 0 in
          if Nat.eqb k 0 then None
          else
            match rest'' with
            | String c' _ =>
                if is_char c' "e" || is_char c' "E" then None
                else Some (JFloat (Qred ((sign * all)
                                         # Z.to_pos (10 ^ Z.of_nat k))), rest'')
            | EmptyString =>
                Some (JFloat (Qred ((sign * all)
                                    # Z.to_pos (10 ^ Z.of_nat k))), rest'')
            end
        else if is_char c "e" || is_char c "E" then None
        else Some (JInt (sign * whole), rest)
    | EmptyString => Some (JInt (sign * whole), rest)
    end.

Fixpoint parse_value (fuel : nat) (s : string) : option (json * string) :=
  match fuel with
  | O => None
  | S fuel' =>
      match skip_ws s with
      | EmptyString => None
      | String c s' as s0 =>
          if Ascii.eqb c dquote then
            match parse_chars s' with
            | Some (str, rest) => Some (JString str, rest)
            | None => None
            end
          else if is_char c "[" then
            match strip_prefix "]" (skip_ws s') with
            | Some rest => Some (JArray [], rest)
            | None =>
                match parse_elements fuel' s' with
                | Some (items, rest) => Some (JArray items, rest)
                | None => None
                end
            end
          else if is_char c "{" then
            match strip_prefix "}" (skip_ws s') with
            | Some rest => Some (JObject [], rest)
            | None =>
                match parse_members fuel' s' with
                | Some (members, rest) =>
                    Some (JObject (fold_left (fun d kv => dict_set (fst kv) (snd kv) d)
                                             members []), rest)
                | None => None
                end
            end
          else
            match strip_prefix "null" s0, strip_prefix "true" s0,
                  strip_prefix "false" s0 with
            | Some rest, _, _ => Some (JNull, rest)
            | _, Some rest, _ => Some (JBool true, rest)
            | _, _, Some rest => Some (JBool false, rest)
            | None, None, None => parse_number s0
            end
      end
  end
with parse_elements (fuel : nat) (s : string) : option (list json * string) :=
  match fuel with
  | O => None
  | S fuel' =>
      match parse_value fuel' s with
      | Some (v, rest) =>
          match skip_ws rest with
          | String c rest' =>
              if is_char c "," then
                match parse_elements fuel' rest' with
                | Some (vs, r) => Some (v :: vs, r)
                | None => None
                end
              else if is_char c "]" then Some ([v], rest')
              else None
          | EmptyString => None
          end
      | None => None
      end
  end
with parse_members (fuel : nat) (s : string)
  : option (list (string * json) * string) :=
  match fuel with
  | O => None
  | S fuel' =>
      match skip_ws s with
      | String q s1 =>
          if Ascii.eqb q dquote then
            match parse_chars s1 with
            | Some (k, s2) =>
                match strip_prefix ":" (skip_ws s2) with
                | Some s3 =>
                    match parse_value fuel' s3 with
                    | Some (v, rest) =>
                        match skip_ws rest with
                        | String c rest' =>
                            if is_char c "," then
                              match parse_members fuel' rest' with
                              | Some (ms, r) => Some ((k, v) :: ms, r)
                              | None => None
                              end
                            else if is_char c "}" then Some ([(k, v)], rest')
                            else None
                        | EmptyString => None
                        end
                    | None => None
                    end
                | None => None
                end
            | None => None
            end
          else None
      | EmptyString => None
      end
  end.

Definition loads (s : string) : result json :=
  match parse_value (2 * String.length s + 2) s with
  | Some (v, rest) =>
      match skip_ws rest with
      | EmptyString => Ok v
      | String _ _ => Raise (JSONDecodeError "Extra data")
      end
  | None => Raise (JSONDecodeError "Expecting value")
  end.

Definition str (v : json) : string :=
  match v with
  | JNull => "None"
  | JBool true => "True"
  | JBool false => "False"
  | JString s => s
  | _ => dumps v
  end.

Definition repr (v : json) : string :=
  match v with
  | JString s => squote ++ s ++ squote
  | _ => str v
  end.

Definition runtime : PyRuntime := {|
  json_dumps v := list_byte_of_string (dumps v);
  json_loads b := loads (string_of_list_byte b);
  py_str := str;
  py_repr := repr
|}.

End RefJson.

(** ** config.py *)

Module NetworkConfig.

(** The settings read from the environment when the class body runs. *)
Record env : Type := {
  DEFAULT_PORT : Z;
  MAX_PEERS : Z;
  PING_INTERVAL : Z;
  PEER_DISCOVERY_INTERVAL : Z;
  CONNECTION_TIMEOUT : Z;
  NODE_ID : string
}.

(** The values taken when the environment sets none of them. *)
Definition defaults : env := {|
  DEFAULT_PORT := 8333;
  MAX_PEERS := 10;
  PING_INTERVAL := 30;
  PEER_DISCOVERY_INTERVAL := 300;
  CONNECTION_TIMEOUT := 10;
  NODE_ID := EmptyString
|}.

Definition PROTOCOL_VERSION : string := "1.0.0".
Definition MAX_MESSAGE_SIZE : Z := 1024 * 1024.
Definition MIN_PEERS_FOR_SYNC : Z := 3.

(** The class declares no [MAX_BLOCKS_PER_REQUEST]: reading it is an
    [AttributeError]. *)
Definition MAX_BLOCKS_PER_REQUEST : result Z :=
  Raise (AttributeError "MAX_BLOCKS_PER_REQUEST").

Definition get_node_id (e : env) : string := NODE_ID e.

End NetworkConfig.

(** ** connection_manager.py: the framed peer connection *)

(** [int.from_bytes(bs, byteorder='big')]. *)
Definition int_from_bytes_big (bs : list byte) : Z :=
  fold_left (fun acc b => (acc * 256 + Z.of_N (Byte.to_N b))%Z) bs 0%Z.

(** The [k] low-order base-256 digits of [n], most significant first. *)
Fixpoint big_endian_digits (k : nat) (n : Z) : list byte :=
  match k with
  | O => []
  | S k' =>
      big_endian_digits k' (n / 256)
      ++ [default x00 (Byte.of_N (Z.to_N (n mod 256)))]
  end.

(** [n.to_bytes(k, byteorder='big')] for [n >= 0]. *)
Definition int_to_bytes_big (k : nat) (n : Z) : result (list byte) :=
  if (n <? 256 ^ Z.of_nat k)%Z then Ok (big_endian_digits k n)
  else Raise (OverflowError "int too big to convert").

(** An [asyncio.StreamReader]: the bytes the remote side sends before it
    closes the stream, the sizes [readexactly] was asked for (latest
    first) and the number of bytes handed to the caller so far. *)
Record StreamReader : Type := mkReader {
  incoming : list byte;
  requested : list nat;
  delivered : nat
}.

(** [await reader.readexactly(n)]: [n] bytes, or [IncompleteReadError]
    when the stream ends before [n] bytes arrive. *)
Definition readexactly (n : nat) (r : StreamReader)
  : result (list byte) * StreamReader :=
  if Nat.leb n (length (incoming r)) then
    (Ok (take n (incoming r)),
     mkReader (drop n (incoming r)) (n :: requested r) (delivered r + n))
  else
    (Raise (IncompleteReadError (length (incoming r)) n),
     mkReader [] (n :: requested r) (delivered r + length (incoming r))).

(** An [asyncio.StreamWriter]: the bytes written so far. *)
Record StreamWriter : Type := mkWriter {
  outgoing : list byte;
  closed : bool
}.

Definition write (bs : list byte) (w : StreamWriter) : StreamWriter :=
  mkWriter (outgoing w ++ bs) (closed w).

Record PeerConnection : Type := mkPeer {
  reader : StreamReader;
  writer : StreamWriter;
  node_id : string;
  last_seen : Q;
  is_active : bool
}.

Section Connection.
Context `{!PyRuntime}.

(** The body of the [try] block of [PeerConnection.receive_message]. *)
Definition receive_message_body (r : StreamReader)
  : result Message * StreamReader :=
  match readexactly 4 r with
  | (Raise e, r1) => (Raise e, r1)
  | (Ok length_bytes, r1) =>
      let length := int_from_bytes_big length_bytes in
      if (length >? NetworkConfig.MAX_MESSAGE_SIZE)%Z then
        (Raise (ValueError ("Message size " ++ pretty length
                            ++ " exceeds maximum "
                            ++ pretty NetworkConfig.MAX_MESSAGE_SIZE)), r1)
      else
        match readexactly (Z.to_nat length) r1 with
        | (Raise e, r2) => (Raise e, r2)
        | (Ok data, r2) => (decode_message data, r2)
        end
  end.

(** [PeerConnection.receive_message], on the connection's reader: an
    [IncompleteReadError] becomes [ConnectionError("Connection closed by
    peer")], every other exception [ConnectionError("Failed to receive
    message: ...")]. *)
Definition receive_message (r : StreamReader) : result Message * StreamReader :=
  match receive_message_body r with
  | (Raise (IncompleteReadError _ _), r') =>
      (Raise (ConnectionError "Connection closed by peer"), r')
  | (Raise e, r') =>
      (Raise (ConnectionError ("Failed to receive message: " ++ exn_str e)), r')
  | (Ok m, r') => (Ok m, r')
  end.

(** [PeerConnection.send_message], on the connection's writer. *)
Definition send_message (message : Message) (w : StreamWriter)
  : result unit * StreamWriter :=
  let data := encode_message message in
  match int_to_bytes_big 4 (Z.of_nat (length data)) with
  | Raise e =>
      (Raise (ConnectionError ("Failed to send message: " ++ exn_str e)), w)
  | Ok prefix => (Ok tt, write data (write prefix w))
  end.

End Connection.

(** ** message_handler.py: the dispatcher *)

(** The collaborators outside the networking core ([core.blockchain],
    [core.block], [core.transaction], [consensus.validator]): the store and
    what the handlers call on it.  A call returns its outcome and the store
    as the call left it. *)
Class ChainStore : Type := {
  Blockchain : Type;
  Block : Type;
  Transaction : Type;
  Block_init : json -> result Block;
  Transaction_init : json -> result Transaction;
  block_index : Block -> Z;
  add_block : Block -> Blockchain -> result unit * Blockchain;
  add_transaction : Transaction -> Blockchain -> result unit * Blockchain;
  to_dict : Blockchain -> result json;
  get_height : Blockchain -> Z
}.

(** A [Validator] object. *)
Record Validator `{!ChainStore} : Type := {
  validate_block : Block -> result bool;
  validate_transaction : Transaction -> result bool
}.

Section Dispatcher.
Context `{!ChainStore} (config : NetworkConfig.env).

(** A handler is called with the message and may change the store; it
    returns an optional reply or raises. *)
Definition Handler : Type :=
  Message -> Blockchain -> result (option Message) * Blockchain.

(** [try: body  except Exception as e: log; return None], the frame every
    handler of the class is written in. *)
Definition swallow (body : result (option Message) * Blockchain)
  : result (option Message) * Blockchain :=
  match body with
  | (Ok reply, chain) => (Ok reply, chain)
  | (Raise _, chain) => (Ok None, chain)
  end.

Definition own_id : json := JString (NetworkConfig.get_node_id config).

Definition handle_handshake : Handler := fun message chain =>
  swallow
    (match py_get (data message) "node_id" with
     | Raise e => (Raise e, chain)
     | Ok node_id =>
         if negb (py_truthy node_id)
         then (Raise (ValueError "Missing node_id in handshake message"), chain)
         else (Ok (Some (mkMessage HANDSHAKE (JObject [("node_id", own_id)])
                                   own_id (timestamp message) JNull)), chain)
     end).

Definition handle_block (validator : option Validator) : Handler :=
  fun message chain =>
  swallow
    (match Block_init (data message) with
     | Raise e => (Raise e, chain)
     | Ok block =>
         let verdict :=
           match validator with
           | None => Ok true
           | Some v => validate_block v block
           end in
         match verdict with
         | Raise e => (Raise e, chain)
         | Ok false => (Raise (ValueError "Invalid block"), chain)
         | Ok true =>
             match add_block block chain with
             | (Raise e, chain') => (Raise e, chain')
             | (Ok _, chain') => (Ok None, chain')
             end
         end
     end).

Definition handle_transaction (validator : option Validator) : Handler :=
  fun message chain =>
  swallow
    (match Transaction_init (data message) with
     | Raise e => (Raise e, chain)
     | Ok transaction =>
         let verdict :=
           match validator with
           | None => Ok true
           | Some v => validate_transaction v transaction
           end in
         match verdict with
         | Raise e => (Raise e, chain)
         | Ok false => (Raise (ValueError "Invalid transaction"), chain)
         | Ok true =>
             match add_transaction transaction chain with
             | (Raise e, chain') => (Raise e, chain')
             | (Ok _, chain') => (Ok None, chain')
             end
         end
     end).

Definition handle_peer_discovery : Handler := fun message chain =>
  swallow
    (match py_get_default (data message) "peers" (JArray []) with
     | Raise e => (Raise e, chain)
     | Ok _ =>
         (Ok (Some (mkMessage PEER_LIST (JObject [("peers", JArray [])])
                              own_id (timestamp message) JNull)), chain)
     end).

Definition handle_peer_list : Handler := fun message chain =>
  swallow
    (match py_get_default (data message) "peers" (JArray []) with
     | Raise e => (Raise e, chain)
     | Ok _ => (Ok None, chain)
     end).

Definition handle_heartbeat : Handler := fun message chain =>
  swallow
    (Ok (Some (mkMessage HEARTBEAT (JObject []) own_id
                         (timestamp message) JNull)), chain).

Definition handle_chain_request : Handler := fun message chain =>
  swallow
    (match to_dict chain with
     | Raise e => (Raise e, chain)
     | Ok d =>
         (Ok (Some (mkMessage CHAIN_RESPONSE (JObject [("chain", d)])
                              own_id (timestamp message) JNull)), chain)
     end).

Definition handle_chain_response : Handler := fun message chain =>
  swallow
    (match py_get (data message) "chain" with
     | Raise e => (Raise e, chain)
     | Ok chain_data =>
         if negb (py_truthy chain_data)
         then (Raise (ValueError "Missing chain data in response"), chain)
         else (Ok None, chain)
     end).

Definition handle_error : Handler := fun message chain =>
  swallow
    (match py_get (data message) "error" with
     | Raise e => (Raise e, chain)
     | Ok _ => (Ok None, chain)
     end).

(** [self.handlers] as [__init__] fills it. *)
Definition default_handlers (validator : option Validator)
  : gmap MessageType Handler :=
  <[HANDSHAKE := handle_handshake]>
  (<[BLOCK := handle_block validator]>
  (<[TRANSACTION := handle_transaction validator]>
  (<[PEER_DISCOVERY := handle_peer_discovery]>
  (<[PEER_LIST := handle_peer_list]>
  (<[HEARTBEAT := handle_heartbeat]>
  (<[CHAIN_REQUEST := handle_chain_request]>
  (<[CHAIN_RESPONSE := handle_chain_response]>
  (<[ERROR := handle_error]> ∅)))))))).

(** The [ERROR] reply [handle_message] builds from a caught exception. *)
Definition error_reply (text : string) (message : Message) : Message :=
  mkMessage ERROR (JObject [("error", JString text)]) own_id
            (timestamp message) JNull.

(** The body of the [try] block of [handle_message]. *)
Definition handle_message_body (handlers : gmap MessageType Handler)
  : Handler := fun message chain =>
  match handlers !! type message with
  | None =>
      (Raise (ValueError ("Unknown message type: "
                          ++ MessageType_str (type message))), chain)
  | Some handler => handler message chain
  end.

(** [MessageHandler.handle_message]. *)
Definition handle_message (handlers : gmap MessageType Handler)
  (message : Message) (chain : Blockchain) : option Message * Blockchain :=
  match handle_message_body handlers message chain with
  | (Ok reply, chain') => (reply, chain')
  | (Raise e, chain') => (Some (error_reply (exn_str e) message), chain')
  end.

End Dispatcher.

(** ** rate_limiter.py *)

(** [time.time()]: the clock is the sequence of values that successive
    reads return, with the number of reads made so far. *)
Record Clock : Type := mkClock {
  readings : nat -> Q;
  reads : nat
}.

Definition time_time (c : Clock) : Q * Clock :=
  (readings c (reads c), mkClock (readings c) (S (reads c))).

(** [x < y] on clock values. *)
Definition Qlt_bool (x y : Q) : bool := negb (Qle_bool y x).

Module rate_limiter.

Record TokenBucket : Type := mkBucket {
  capacity : Q;
  fill_rate : Q;
  tokens : Q;
  last_update : Q
}.

(** [TokenBucket(capacity, fill_rate)] created when the clock shows [now]
    ([__post_init__]). *)
Definition TokenBucket_at (now capacity fill_rate : Q) : TokenBucket :=
  mkBucket capacity fill_rate capacity now.

Definition TokenBucket_init (capacity fill_rate : Q) (c : Clock)
  : TokenBucket * Clock :=
  let '(now, c) := time_time c in
  (TokenBucket_at now capacity fill_rate, c).

(** [TokenBucket.consume(n)] when the clock shows [now]. *)
Definition consume_at (now n : Q) (b : TokenBucket) : bool * TokenBucket :=
  let elapsed := (now - last_update b)%Q in
  let refilled := Qmin (capacity b) (tokens b + elapsed * fill_rate b)%Q in
  if Qle_bool n refilled
  then (true, mkBucket (capacity b) (fill_rate b) (refilled - n)%Q now)
  else (false, mkBucket (capacity b) (fill_rate b) refilled now).

Definition consume (n : Q) (b : TokenBucket) (c : Clock)
  : bool * TokenBucket * Clock :=
  let '(now, c) := time_time c in
  (consume_at now n b, c).

(** [deque(maxlen=...)]: [append] drops the oldest entry of a full deque. *)
Definition request_history_maxlen : nat := 1000.

Definition deque_append {A : Type} (maxlen : nat) (x : A) (d : list A) : list A :=
  let d' := (d ++ [x])%list in
  if Nat.ltb maxlen (length d') then drop 1 d' else d'.

Record PeerLimits : Type := mkPeerLimits {
  node_id : string;
  message_bucket : TokenBucket;
  bandwidth_bucket : TokenBucket;
  request_history : list (Q * string * Z);
  blocked_until : Q
}.

Record RateLimiter : Type := mkRateLimiter {
  peers : gmap string PeerLimits;
  default_message_rate : Q;
  default_bandwidth_rate : Q;
  burst_multiplier : Q;
  request_window : Q;
  max_requests_per_window : nat;
  block_duration : Q;
  violation_threshold : Z;
  global_message_bucket : TokenBucket;
  global_bandwidth_bucket : TokenBucket
}.

Definition with_peers (ps : gmap string PeerLimits) (rl : RateLimiter)
  : RateLimiter :=
  mkRateLimiter ps (default_message_rate rl) (default_bandwidth_rate rl)
    (burst_multiplier rl) (request_window rl) (max_requests_per_window rl)
    (block_duration rl) (violation_threshold rl)
    (global_message_bucket rl) (global_bandwidth_bucket rl).

Definition with_global_message (b : TokenBucket) (rl : RateLimiter)
  : RateLimiter :=
  mkRateLimiter (peers rl) (default_message_rate rl) (default_bandwidth_rate rl)
    (burst_multiplier rl) (request_window rl) (max_requests_per_window rl)
    (block_duration rl) (violation_threshold rl)
    b (global_bandwidth_bucket rl).

Definition with_global_bandwidth (b : TokenBucket) (rl : RateLimiter)
  : RateLimiter :=
  mkRateLimiter (peers rl) (default_message_rate rl) (default_bandwidth_rate rl)
    (burst_multiplier rl) (request_window rl) (max_requests_per_window rl)
    (block_duration rl) (violation_threshold rl)
    (global_message_bucket rl) b.

Definition with_message_bucket (b : TokenBucket) (p : PeerLimits) : PeerLimits :=
  mkPeerLimits (node_id p) b (bandwidth_bucket p) (request_history p)
               (blocked_until p).

Definition with_bandwidth_bucket (b : TokenBucket) (p : PeerLimits) : PeerLimits :=
  mkPeerLimits (node_id p) (message_bucket p) b (request_history p)
               (blocked_until p).

Definition with_request_history (h : list (Q * string * Z)) (p : PeerLimits)
  : PeerLimits :=
  mkPeerLimits (node_id p) (message_bucket p) (bandwidth_bucket p) h
               (blocked_until p).

Definition with_blocked_until (t : Q) (p : PeerLimits) : PeerLimits :=
  mkPeerLimits (node_id p) (message_bucket p) (bandwidth_bucket p)
               (request_history p) t.

(** [RateLimiter()]. *)
Definition RateLimiter_init (c : Clock) : RateLimiter * Clock :=
  let default_message_rate := 100%Q in
  let default_bandwidth_rate := inject_Z (1024 * 1024) in
  let '(gm, c) := TokenBucket_init (default_message_rate * 10)
                                   (default_message_rate * 10) c in
  let '(gb, c) := TokenBucket_init (default_bandwidth_rate * 10)
                                   (default_bandwidth_rate * 10) c in
  (mkRateLimiter ∅ default_message_rate default_bandwidth_rate 2 60 1000 300 3
                 gm gb, c).

Definition add_peer (id : string) (rl : RateLimiter) (c : Clock)
  : RateLimiter * Clock :=
  match peers rl !! id with
  | Some _ => (rl, c)
  | None =>
      let '(mb, c) := TokenBucket_init
                        (default_message_rate rl * burst_multiplier rl)
                        (default_message_rate rl) c in
      let '(bb, c) := TokenBucket_init
                        (default_bandwidth_rate rl * burst_multiplier rl)
                        (default_bandwidth_rate rl) c in
      (with_peers (<[id := mkPeerLimits id mb bb [] 0]> (peers rl)) rl, c)
  end.

Definition remove_peer (id : string) (rl : RateLimiter) : RateLimiter :=
  with_peers (delete id (peers rl)) rl.

(** The second component of what [is_allowed] returns. *)
Inductive reason : Type :=
| Peer_not_registered
| Peer_blocked (seconds : Q)
| Global_message_rate_limit_exceeded
| Global_bandwidth_limit_exceeded
| Peer_message_rate_limit_exceeded
| Peer_bandwidth_limit_exceeded.

(** [_block_peer(peer)]. *)
Definition _block_peer (rl : RateLimiter) (peer : PeerLimits) (c : Clock)
  : PeerLimits * Clock :=
  let '(now, c) := time_time c in
  if Qlt_bool now (blocked_until peer)
  then (with_blocked_until (now + block_duration rl * 2)%Q peer, c)
  else (with_blocked_until (now + block_duration rl)%Q peer, c).

(** The [while] loop of [_check_request_frequency]: [popleft] while the
    oldest request is older than the window. *)
Fixpoint remove_old (window_start : Q) (h : list (Q * string * Z))
  : list (Q * string * Z) :=
  match h with
  | [] => []
  | (t, ty, sz) :: h' =>
      if Qlt_bool t window_start then remove_old window_start h' else h
  end.

(** [_check_request_frequency(peer)]. *)
Definition _check_request_frequency (rl : RateLimiter) (peer : PeerLimits)
  (c : Clock) : PeerLimits * Clock :=
  let '(now, c) := time_time c in
  let window_start := (now - request_window rl)%Q in
  let peer := with_request_history
                (remove_old window_start (request_history peer)) peer in
  if Nat.ltb (max_requests_per_window rl) (length (request_history peer))
  then _block_peer rl peer c
  else (peer, c).

(** [is_allowed(node_id, message_type, size)].  The peer's record and the
    buckets are objects changed in place: every change made before a
    [return] stays.  No statement of the [try] block raises on these
    types, so the [except] clause is never entered. *)
Definition is_allowed (id message_type : string) (size : Z)
  (rl : RateLimiter) (c : Clock)
  : bool * option reason * RateLimiter * Clock :=
  match peers rl !! id with
  | None => (false, Some Peer_not_registered, rl, c)
  | Some peer =>
      let '(now, c) := time_time c in
      if Qlt_bool now (blocked_until peer) then
        (false, Some (Peer_blocked (blocked_until peer - now)%Q), rl, c)
      else
        let '(ok, gm, c) := consume 1 (global_message_bucket rl) c in
        let rl := with_global_message gm rl in
        if negb ok then
          (false, Some Global_message_rate_limit_exceeded, rl, c)
        else
          let '(ok, gb, c) :=
            consume (inject_Z size) (global_bandwidth_bucket rl) c in
          let rl := with_global_bandwidth gb rl in
          if negb ok then
            (false, Some Global_bandwidth_limit_exceeded, rl, c)
          else
            let '(ok, mb, c) := consume 1 (message_bucket peer) c in
            let peer := with_message_bucket mb peer in
            if negb ok then
              (false, Some Peer_message_rate_limit_exceeded,
               with_peers (<[id := peer]> (peers rl)) rl, c)
            else
              let '(ok, bb, c) :=
                consume (inject_Z size) (bandwidth_bucket peer) c in
              let peer := with_bandwidth_bucket bb peer in
              if negb ok then
                (false, Some Peer_bandwidth_limit_exceeded,
                 with_peers (<[id := peer]> (peers rl)) rl, c)
              else
                let peer :=
                  with_request_history
                    (deque_append request_history_maxlen
                                  (now, message_type, size)
                                  (request_history peer)) peer in
                let '(peer, c) := _check_request_frequency rl peer c in
                (true, None, with_peers (<[id := peer]> (peers rl)) rl, c)
  end.

(** [update_limits(node_id, message_rate, bandwidth_rate)]. *)
Definition update_limits (id : string) (message_rate bandwidth_rate : option Q)
  (rl : RateLimiter) (c : Clock) : bool * RateLimiter * Clock :=
  match peers rl !! id with
  | None => (false, rl, c)
  | Some peer =>
      let '(peer, c) :=
        match message_rate with
        | Some r =>
            let '(b, c) := TokenBucket_init (r * burst_multiplier rl) r c in
            (with_message_bucket b peer, c)
        | None => (peer, c)
        end in
      let '(peer, c) :=
        match bandwidth_rate with
        | Some r =>
            let '(b, c) := TokenBucket_init (r * burst_multiplier rl) r c in
            (with_bandwidth_bucket b peer, c)
        | None => (peer, c)
        end in
      (true, with_peers (<[id := peer]> (peers rl)) rl, c)
  end.

(** The calls a client of the limiter makes. *)
Inductive call : Type :=
| Add_peer (id : string)
| Remove_peer (id : string)
| Is_allowed (id message_type : string) (size : Z)
| Update_limits (id : string) (message_rate bandwidth_rate : option Q).

Definition step (k : call) (s : RateLimiter * Clock) : RateLimiter * Clock :=
  let '(rl, c) := s in
  match k with
  | Add_peer id => add_peer id rl c
  | Remove_peer id => (remove_peer id rl, c)
  | Is_allowed id ty size =>
      let '(_, _, rl, c) := is_allowed id ty size rl c in (rl, c)
  | Update_limits id mr br =>
      let '(_, rl, c) := update_limits id mr br rl c in (rl, c)
  end.

(** The limiter after a sequence of calls, made in list order. *)
Definition run (ks : list call) (s : RateLimiter * Clock) : RateLimiter * Clock :=
  fold_left (fun s k => step k s) ks s.

End rate_limiter.

(** ** security.py *)

Module security.

(** What the code takes from the [cryptography] package:
    [serialization.load_pem_public_key], [private_key.exchange(ec.ECDH(), .)],
    [HKDF(SHA256, length, salt, info).derive], and an AES cipher in CBC
    mode run over a whole message ([update] followed by [finalize]), with
    key, IV and text in this order. *)
Class Crypto : Type := {
  PrivateKey : Type;
  PublicKey : Type;
  load_pem_public_key : list byte -> result PublicKey;
  exchange : PrivateKey -> PublicKey -> result (list byte);
  hkdf_derive : nat -> option (list byte) -> list byte -> list byte
                -> result (list byte);
  aes_cbc_encrypt : list byte -> list byte -> list byte -> result (list byte);
  aes_cbc_decrypt : list byte -> list byte -> list byte -> result (list byte)
}.

Section Security.
Context `{!Crypto}.

Record SecurityManager : Type := mkSecurityManager {
  private_key : PrivateKey;
  public_key : PublicKey;
  session_keys : gmap string (list byte);
  peer_keys : gmap string PublicKey
}.

Definition with_session_keys (ks : gmap string (list byte))
  (sm : SecurityManager) : SecurityManager :=
  mkSecurityManager (private_key sm) (public_key sm) ks (peer_keys sm).

Definition with_peer_keys (ks : gmap string PublicKey)
  (sm : SecurityManager) : SecurityManager :=
  mkSecurityManager (private_key sm) (public_key sm) (session_keys sm) ks.

(** The key derivation both [establish_session] and [rotate_session_key]
    spell out: ECDH with the node's private key, then HKDF-SHA256 to 32
    bytes with no salt and the info string [session_key]. *)
Definition derive_session_key (sm : SecurityManager) (peer_public_key : PublicKey)
  : result (list byte) :=
  shared_key <-! exchange (private_key sm) peer_public_key;
  hkdf_derive 32 None (list_byte_of_string "session_key") shared_key.

(** [establish_session(peer_id, peer_public_key_bytes)]: the peer's key is
    stored before the exchange, so it stays when a later step raises. *)
Definition establish_session (peer_id : string) (peer_public_key_bytes : list byte)
  (sm : SecurityManager) : bool * SecurityManager :=
  match load_pem_public_key peer_public_key_bytes with
  | Raise _ => (false, sm)
  | Ok peer_public_key =>
      let sm := with_peer_keys (<[peer_id := peer_public_key]> (peer_keys sm)) sm in
      match derive_session_key sm peer_public_key with
      | Raise _ => (false, sm)
      | Ok session_key =>
          (true, with_session_keys (<[peer_id := session_key]> (session_keys sm)) sm)
      end
  end.

Definition end_session (peer_id : string) (sm : SecurityManager) : SecurityManager :=
  with_peer_keys (delete peer_id (peer_keys sm))
    (with_session_keys (delete peer_id (session_keys sm)) sm).

(** [rotate_session_key(peer_id)]. *)
Definition rotate_session_key (peer_id : string) (sm : SecurityManager)
  : bool * SecurityManager :=
  match peer_keys sm !! peer_id with
  | None => (false, sm)
  | Some peer_public_key =>
      match derive_session_key sm peer_public_key with
      | Raise _ => (false, sm)
      | Ok new_session_key =>
          (true, with_session_keys
                   (<[peer_id := new_session_key]> (session_keys sm)) sm)
      end
  end.

(** [_add_padding(message)]. *)
Definition _add_padding (message : list byte) : list byte :=
  let padding_length := (16 - length message mod 16)%nat in
  (message ++ repeat (default x00 (Byte.of_nat padding_length)) padding_length)%list.

(** The slice [b[:-n]]: everything but the last [n] bytes; nothing at all
    when [n] is 0 (the slice is [b[:0]]) or exceeds the length. *)
Definition slice_to_minus (n : nat) (b : list byte) : list byte :=
  match n with
  | O => []
  | S _ => take (length b - n) b
  end.

(** [_remove_padding(padded_message)]: indexing an empty message raises. *)
Definition _remove_padding (padded_message : list byte) : result (list byte) :=
  match last padded_message with
  | None => Raise (IndexError "index out of range")
  | Some final =>
      let padding_length := Byte.to_nat final in
      Ok (slice_to_minus padding_length padded_message)
  end.

(** [encrypt_message(peer_id, message)]; [iv] is what [os.urandom(16)]
    returned. *)
Definition encrypt_message (iv : list byte) (peer_id : string)
  (message : list byte) (sm : SecurityManager) : option (list byte) :=
  match session_keys sm !! peer_id with
  | None => None
  | Some key =>
      match aes_cbc_encrypt key iv (_add_padding message) with
      | Raise _ => None
      | Ok ciphertext => Some (iv ++ ciphertext)%list
      end
  end.

(** [decrypt_message(peer_id, encrypted_message)]: every exception of the
    [try] block ends in [return None]. *)
Definition decrypt_message (peer_id : string) (encrypted_message : list byte)
  (sm : SecurityManager) : option (list byte) :=
  match session_keys sm !! peer_id with
  | None => None
  | Some key =>
      let iv := take 16 encrypted_message in
      let ciphertext := drop 16 encrypted_message in
      match aes_cbc_decrypt key iv ciphertext with
      | Raise _ => None
      | Ok padded_message =>
          match _remove_padding padded_message with
          | Raise _ => None
          | Ok message => Some message
          end
      end
  end.

(** PKCS#7 as the standard defines it: the final byte [n] is between 1
    and 16, at most the length, and the last [n] bytes all equal [n]. *)
Definition pkcs7_well_formed (padded_message : list byte) : bool :=
  match last padded_message with
  | None => false
  | Some final =>
      let n := Byte.to_nat final in
      Nat.leb 1 n && Nat.leb n 16 && Nat.leb n (length padded_message)
      && forallb (Byte.eqb final) (drop (length padded_message - n) padded_message)
  end.

End Security.

(** *** A reference cipher suite

    An executable instance of [Crypto] for running the session layer on
    concrete inputs: Diffie-Hellman in the integers modulo 251, a key
    derivation that stretches the shared secret, and CBC chaining over a
    16-byte block permutation that adds the key to the block bytewise. *)
Module Ref.

Definition byte_of_Z (z : Z) : byte :=
  default x00 (Byte.of_N (Z.to_N (z mod 256))).

Definition byte_Z (b : byte) : Z := Z.of_N (Byte.to_N b).

Definition xor_bytes (a b : list byte) : list byte :=
  zip_with (fun x y => byte_of_Z (Z.lxor (byte_Z x) (byte_Z y))) a b.

(** The block permutation and its inverse, on 16-byte blocks. *)
Definition encrypt_block (key block : list byte) : list byte :=
  zip_with (fun x k => byte_of_Z (byte_Z x + byte_Z k)) block (take 16 key).

Definition decrypt_block (key block : list byte) : list byte :=
  zip_with (fun x k => byte_of_Z (byte_Z x - byte_Z k)) block (take 16 key).

(** CBC over [blocks] 16-byte blocks, [prev] being the previous
    ciphertext block (the IV at first). *)
Fixpoint cbc_encrypt (blocks : nat) (key prev text : list byte) : list byte :=
  match blocks with
  | O => []
  | S blocks' =>
      let c := encrypt_block key (xor_bytes (take 16 text) prev) in
      (c ++ cbc_encrypt blocks' key c (drop 16 text))%list
  end.

Fixpoint cbc_decrypt (blocks : nat) (key prev text : list byte) : list byte :=
  match blocks with
  | O => []
  | S blocks' =>
      let c := take 16 text in
      (xor_bytes (decrypt_block key c) prev
       ++ cbc_decrypt blocks' key c (drop 16 text))%list
  end.

(** The library refuses an IV that is not one block long, a key of an
    unsupported size, and a text that is not a whole number of blocks. *)
Definition cbc (run : nat -> list byte -> list byte -> list byte -> list byte)
  (key iv text : list byte) : result (list byte) :=
  if negb (Nat.eqb (length key) 16 || Nat.eqb (length key) 24
           || Nat.eqb (length key) 32)
  then Raise (ValueError "Invalid key size for AES")
  else if negb (Nat.eqb (length iv) 16)
  then Raise (ValueError "Invalid IV size for CBC")
  else if negb (Nat.eqb (length text mod 16) 0)
  then Raise (ValueError "The length of the provided data is not a multiple of the block length")
  else Ok (run (length text / 16)%nat key iv text).

Definition modulus : Z := 251.
Definition generator : Z := 6.

Fixpoint stretch (n : nat) (seed : Z) : list byte :=
  match n with
  | O => []
  | S n' => byte_of_Z seed :: stretch n' (seed * 31 + 7)
  end.

Definition crypto : Crypto := {|
  PrivateKey := Z;
  PublicKey := Z;
  load_pem_public_key pem :=
    match pem with
    | [b] => Ok (byte_Z b)
    | _ => Raise (ValueError "Unable to load PEM file")
    end;
  exchange priv pub := Ok [byte_of_Z (pub ^ priv mod modulus)];
  hkdf_derive len salt info secret :=
    Ok (stretch len (int_from_bytes_big (secret ++ take 1 info)));
  aes_cbc_encrypt := cbc cbc_encrypt;
  aes_cbc_decrypt := cbc cbc_decrypt
|}.

End Ref.

End security.

(** ** sync_manager.py *)

Module sync_manager.

Record SyncState : Type := mkSyncState {
  is_syncing : bool;
  last_sync : Q;
  sync_height : Z;
  target_height : Z;
  sync_peers : list string
}.

(** [SyncState()]. *)
Definition SyncState_init : SyncState := mkSyncState false 0 0 0 [].

Definition with_is_syncing (b : bool) (s : SyncState) : SyncState :=
  mkSyncState b (last_sync s) (sync_height s) (target_height s) (sync_peers s).

Definition with_sync_height (h : Z) (s : SyncState) : SyncState :=
  mkSyncState (is_syncing s) (last_sync s) h (target_height s) (sync_peers s).

Definition with_target_height (h : Z) (s : SyncState) : SyncState :=
  mkSyncState (is_syncing s) (last_sync s) (sync_height s) h (sync_peers s).

Section Sync.
Context `{!PyRuntime} `{!ChainStore} (config : NetworkConfig.env).

(** [should_sync()], with [connection_manager.peers] as [peers]. *)
Definition should_sync (state : SyncState) (peers : gmap string PeerConnection)
  (c : Clock) : bool * Clock :=
  let '(now, c) := time_time c in
  if Qlt_bool (now - last_sync state)
              (inject_Z (NetworkConfig.PEER_DISCOVERY_INTERVAL config))
  then (false, c)
  else if (Z.of_nat (size peers) <? NetworkConfig.MIN_PEERS_FOR_SYNC)%Z
  then (false, c)
  else (true, c).

(** The condition one round of [periodic_sync] tests before it starts
    [sync_blockchain]: [not self.state.is_syncing and self.should_sync()]. *)
Definition periodic_sync_starts (state : SyncState)
  (peers : gmap string PeerConnection) (c : Clock) : bool * Clock :=
  if negb (is_syncing state) then should_sync state peers c else (false, c).

(** What the loop of [sync_blocks_from_peer] works on: the sync state,
    the session [peer = self.connection_manager.peers.get(peer_id)], the
    store and the clock. *)
Record World : Type := mkWorld {
  state : SyncState;
  peer : PeerConnection;
  blockchain : Blockchain;
  clock : Clock
}.

Definition with_state (s : SyncState) (w : World) : World :=
  mkWorld s (peer w) (blockchain w) (clock w).

Definition with_peer (p : PeerConnection) (w : World) : World :=
  mkWorld (state w) p (blockchain w) (clock w).

Definition with_blockchain (b : Blockchain) (w : World) : World :=
  mkWorld (state w) (peer w) b (clock w).

Definition with_clock (c : Clock) (w : World) : World :=
  mkWorld (state w) (peer w) (blockchain w) c.

Definition with_reader (r : StreamReader) (p : PeerConnection) : PeerConnection :=
  mkPeer r (writer p) (node_id p) (last_seen p) (is_active p).

Definition with_writer (wr : StreamWriter) (p : PeerConnection) : PeerConnection :=
  mkPeer (reader p) wr (node_id p) (last_seen p) (is_active p).

(** What a [for] loop iterates over. *)
Definition py_iter (v : json) : result (list json) :=
  match v with
  | JArray items => Ok items
  | JObject fields => Ok (map (fun kv => JString (fst kv)) fields)
  | JString s =>
      Ok (map (fun a => JString (String a EmptyString)) (list_ascii_of_string s))
  | _ => Raise (TypeError "object is not iterable")
  end.

(** The [for block_data in blocks_data] loop: stops at the first
    exception, with the blocks added before it kept. *)
Fixpoint process_blocks (validator : option Validator) (blocks_data : list json)
  (current_height : Z) (w : World) : result Z * World :=
  match blocks_data with
  | [] => (Ok current_height, w)
  | block_data :: rest =>
      match Block_init block_data with
      | Raise e => (Raise e, w)
      | Ok block =>
          let verdict :=
            match validator with
            | None => Ok true
            | Some v => validate_block v block
            end in
          match verdict with
          | Raise e => (Raise e, w)
          | Ok false =>
              (Raise (ValueError ("Invalid block at height "
                                  ++ pretty (block_index block))), w)
          | Ok true =>
              match add_block block (blockchain w) with
              | (Raise e, chain') => (Raise e, with_blockchain chain' w)
              | (Ok _, chain') =>
                  let w := with_blockchain chain' w in
                  let w := with_state (with_sync_height (block_index block)
                                                        (state w)) w in
                  process_blocks validator rest (block_index block) w
              end
          end
      end
  end.

(** One round of the [while] loop of [sync_blocks_from_peer].  The
    arguments of [Message(...)] are evaluated in the order written:
    [MessageType.BLOCK_REQUEST] first, then the [data] dict with
    [NetworkConfig.MAX_BLOCKS_PER_REQUEST], the sender, the clock. *)
Definition sync_round (validator : option Validator) (target : Z)
  (current_height : Z) (w : World) : result Z * World :=
  match MessageType_attr "BLOCK_REQUEST" with
  | Raise e => (Raise e, w)
  | Ok request_type =>
      match NetworkConfig.MAX_BLOCKS_PER_REQUEST with
      | Raise e => (Raise e, w)
      | Ok max_blocks =>
          let '(now, c) := time_time (clock w) in
          let w := with_clock c w in
          let message :=
            mkMessage request_type
              (JObject [("start_height", JInt (current_height + 1));
                        ("end_height",
                         JInt (Z.min (current_height + max_blocks) target))])
              (JString (NetworkConfig.get_node_id config)) (JFloat now) JNull in
          match send_message message (writer (peer w)) with
          | (Raise e, wr) => (Raise e, with_peer (with_writer wr (peer w)) w)
          | (Ok _, wr) =>
              let w := with_peer (with_writer wr (peer w)) w in
              match receive_message (reader (peer w)) with
              | (Raise e, rd) => (Raise e, with_peer (with_reader rd (peer w)) w)
              | (Ok response, rd) =>
                  let w := with_peer (with_reader rd (peer w)) w in
                  match MessageType_attr "BLOCK_RESPONSE" with
                  | Raise e => (Raise e, w)
                  | Ok response_type =>
                      if negb (bool_decide (type response = response_type))
                      then (Raise (ValueError "Invalid response from peer"), w)
                      else
                        match py_get_default (data response) "blocks" (JArray []) with
                        | Raise e => (Raise e, w)
                        | Ok blocks_data =>
                            match py_iter blocks_data with
                            | Raise e => (Raise e, w)
                            | Ok items =>
                                process_blocks validator items current_height w
                            end
                        end
                  end
              end
          end
      end
  end.

(** The [while current_height < target_height and self.state.is_syncing]
    loop, cut off after [rounds] rounds. *)
Fixpoint sync_loop (rounds : nat) (validator : option Validator)
  (target : Z) (current_height : Z) (w : World) : result unit * World :=
  if (current_height <? target)%Z && is_syncing (state w) then
    match rounds with
    | O => (Ok tt, w)
    | S rounds' =>
        match sync_round validator target current_height w with
        | (Raise e, w') => (Raise e, w')
        | (Ok height, w') => sync_loop rounds' validator target height w'
        end
    end
  else (Ok tt, w).

(** [sync_blocks_from_peer(peer_id, target_height)] on the sync state, the
    connection manager's sessions, the store and the clock: an exception
    from the loop is logged and clears [is_syncing]. *)
Definition sync_blocks_from_peer (rounds : nat) (validator : option Validator)
  (peer_id : string) (target : Z) (st : SyncState)
  (peers : gmap string PeerConnection) (chain : Blockchain) (c : Clock)
  : SyncState * gmap string PeerConnection * Blockchain * Clock :=
  match peers !! peer_id with
  | None => (st, peers, chain, c)
  | Some session =>
      let current_height := get_height chain in
      let st := with_target_height target (with_sync_height current_height st) in
      let '(outcome, w) :=
        sync_loop rounds validator target current_height
                  (mkWorld st session chain c) in
      let st' :=
        match outcome with
        | Ok _ => state w
        | Raise _ => with_is_syncing false (state w)
        end in
      (st', <[peer_id := peer w]> peers, blockchain w, clock w)
  end.

End Sync.

End sync_manager.

(** ** connection_manager.py: the handshake *)

Section Handshake.
Context `{!PyRuntime} (config : NetworkConfig.env).

(** The [HANDSHAKE] message [perform_handshake] builds when the clock
    shows [now]. *)
Definition own_handshake (now : Q) : Message :=
  mkMessage HANDSHAKE
    (JObject [("node_id", JString (NetworkConfig.get_node_id config))])
    (JString (NetworkConfig.get_node_id config)) (JFloat now) JNull.

(** The body of the [try] block of [ConnectionManager.perform_handshake],
    on the reader and the writer of the new connection. *)
Definition perform_handshake_body (r : StreamReader) (w : StreamWriter)
  (c : Clock) : result Message * StreamReader * StreamWriter * Clock :=
  let '(now, c) := time_time c in
  let data := encode_message (own_handshake now) in
  match int_to_bytes_big 4 (Z.of_nat (length data)) with
  | Raise e => (Raise e, r, w, c)
  | Ok prefix =>
      let w := write data (write prefix w) in
      match readexactly 4 r with
      | (Raise e, r1) => (Raise e, r1, w, c)
      | (Ok length_bytes, r1) =>
          let length := int_from_bytes_big length_bytes in
          if (length >? NetworkConfig.MAX_MESSAGE_SIZE)%Z then
            (Raise (ValueError ("Handshake size " ++ pretty length
                                ++ " exceeds maximum "
                                ++ pretty NetworkConfig.MAX_MESSAGE_SIZE)),
             r1, w, c)
          else
            match readexactly (Z.to_nat length) r1 with
            | (Raise e, r2) => (Raise e, r2, w, c)
            | (Ok data, r2) => (decode_message data, r2, w, c)
            end
      end
  end.

(** [perform_handshake(reader, writer)]: every exception is logged and
    ends in [return None]. *)
Definition perform_handshake (r : StreamReader) (w : StreamWriter) (c : Clock)
  : option Message * StreamReader * StreamWriter * Clock :=
  match perform_handshake_body r w c with
  | (Ok m, r', w', c') => (Some m, r', w', c')
  | (Raise _, r', w', c') => (None, r', w', c')
  end.

End Handshake.

(** ** metrics.py *)

Module metrics.

(** [prometheus_client], as far as [NetworkMetrics] uses it.  A labelled
    [Counter] is the table of its children's values, a labelled
    [Histogram] the table of its children's observations (latest last);
    [labels(...)] creates the child on first use, [Counter.inc] refuses a
    negative amount.  The unlabelled [Gauge] is its value. *)
Definition Counter : Type := gmap (list string) Q.
Definition Histogram : Type := gmap (list string) (list Q).

Definition Counter_inc (labels : list string) (amount : Q) (ctr : Counter)
  : result unit * Counter :=
  let child := default 0%Q (ctr !! labels) in
  if Qlt_bool amount 0 then
    (Raise (ValueError
              "Counters can only be incremented by non-negative amounts."),
     <[labels := child]> ctr)
  else (Ok tt, <[labels := (child + amount)%Q]> ctr).

Definition Histogram_observe (labels : list string) (amount : Q)
  (h : Histogram) : Histogram :=
  <[labels := (default [] (h !! labels) ++ [amount])%list]> h.

Record PeerMetrics : Type := mkPeerMetrics {
  node_id : string;
  connected_at : Q;
  messages_sent : Z;
  messages_received : Z;
  bytes_sent : Z;
  bytes_received : Z;
  latency_samples : list Q;
  errors : Z;
  last_seen : Q
}.

(** [deque(maxlen=100)], oldest sample first. *)
Definition latency_samples_maxlen : nat := 100.

(** [PeerMetrics(node_id=..., connected_at=...)]: the remaining fields
    take their defaults, [last_seen] from a clock read of its own. *)
Definition PeerMetrics_init (id : string) (connected : Q) (c : Clock)
  : PeerMetrics * Clock :=
  let '(now, c) := time_time c in
  (mkPeerMetrics id connected 0 0 0 0 [] 0 now, c).

Record NetworkMetrics : Type := mkNetworkMetrics {
  peers : gmap string PeerMetrics;
  connected_peers : Q;
  messages_total : Counter;
  bytes_total : Counter;
  message_size : Histogram;
  message_latency : Histogram;
  peer_errors : Counter
}.

Definition NetworkMetrics_init : NetworkMetrics :=
  mkNetworkMetrics ∅ 0 ∅ ∅ ∅ ∅ ∅.

Definition with_peers (ps : gmap string PeerMetrics) (nm : NetworkMetrics)
  : NetworkMetrics :=
  mkNetworkMetrics ps (connected_peers nm) (messages_total nm) (bytes_total nm)
                   (message_size nm) (message_latency nm) (peer_errors nm).

Definition with_connected_peers (g : Q) (nm : NetworkMetrics) : NetworkMetrics :=
  mkNetworkMetrics (peers nm) g (messages_total nm) (bytes_total nm)
                   (message_size nm) (message_latency nm) (peer_errors nm).

Definition with_messages_total (ctr : Counter) (nm : NetworkMetrics)
  : NetworkMetrics :=
  mkNetworkMetrics (peers nm) (connected_peers nm) ctr (bytes_total nm)
                   (message_size nm) (message_latency nm) (peer_errors nm).

Definition with_bytes_total (ctr : Counter) (nm : NetworkMetrics)
  : NetworkMetrics :=
  mkNetworkMetrics (peers nm) (connected_peers nm) (messages_total nm) ctr
                   (message_size nm) (message_latency nm) (peer_errors nm).

Definition with_histograms (size latency : Histogram) (nm : NetworkMetrics)
  : NetworkMetrics :=
  mkNetworkMetrics (peers nm) (connected_peers nm) (messages_total nm)
                   (bytes_total nm) size latency (peer_errors nm).

Definition with_peer_errors (ctr : Counter) (nm : NetworkMetrics)
  : NetworkMetrics :=
  mkNetworkMetrics (peers nm) (connected_peers nm) (messages_total nm)
                   (bytes_total nm) (message_size nm) (message_latency nm) ctr.

(** [add_peer(node_id)]. *)
Definition add_peer (id : string) (nm : NetworkMetrics) (c : Clock)
  : NetworkMetrics * Clock :=
  match peers nm !! id with
  | Some _ => (nm, c)
  | None =>
      let '(connected, c) := time_time c in
      let '(peer, c) := PeerMetrics_init id connected c in
      (with_connected_peers (connected_peers nm + 1)%Q
         (with_peers (<[id := peer]> (peers nm)) nm), c)
  end.

(** [remove_peer(node_id)]. *)
Definition remove_peer (id : string) (nm : NetworkMetrics) : NetworkMetrics :=
  match peers nm !! id with
  | Some _ =>
      with_connected_peers (connected_peers nm - 1)%Q
        (with_peers (delete id (peers nm)) nm)
  | None => nm
  end.

(** The Prometheus part of [record_message_sent] and
    [record_message_received]: the four calls in the order of the source;
    a call that raises ends the sequence. *)
Definition record_prometheus (message_type direction : string) (size : Z)
  (latency : Q) (nm : NetworkMetrics) : result unit * NetworkMetrics :=
  match Counter_inc [message_type; direction] 1 (messages_total nm) with
  | (Raise e, ctr) => (Raise e, with_messages_total ctr nm)
  | (Ok _, ctr) =>
      let nm := with_messages_total ctr nm in
      match Counter_inc [direction] (inject_Z size) (bytes_total nm) with
      | (Raise e, ctr) => (Raise e, with_bytes_total ctr nm)
      | (Ok _, ctr) =>
          let nm := with_bytes_total ctr nm in
          (Ok tt,
           with_histograms
             (Histogram_observe [message_type] (inject_Z size) (message_size nm))
             (Histogram_observe [message_type] latency (message_latency nm))
             nm)
      end
  end.

(** [record_message_sent(node_id, message_type, size, latency)]. *)
Definition record_message_sent (id message_type : string) (size : Z)
  (latency : Q) (nm : NetworkMetrics) (c : Clock)
  : result unit * NetworkMetrics * Clock :=
  match peers nm !! id with
  | None => (Ok tt, nm, c)
  | Some peer =>
      let '(now, c) := time_time c in
      let peer :=
        mkPeerMetrics (node_id peer) (connected_at peer)
          (messages_sent peer + 1) (messages_received peer)
          (bytes_sent peer + size) (bytes_received peer)
          (latency_samples peer) (errors peer) now in
      let nm := with_peers (<[id := peer]> (peers nm)) nm in
      let '(r, nm) := record_prometheus message_type "sent" size latency nm in
      (r, nm, c)
  end.

(** [record_message_received(node_id, message_type, size, latency)]. *)
Definition record_message_received (id message_type : string) (size : Z)
  (latency : Q) (nm : NetworkMetrics) (c : Clock)
  : result unit * NetworkMetrics * Clock :=
  match peers nm !! id with
  | None => (Ok tt, nm, c)
  | Some peer =>
      let '(now, c) := time_time c in
      let peer :=
        mkPeerMetrics (node_id peer) (connected_at peer)
          (messages_sent peer) (messages_received peer + 1)
          (bytes_sent peer) (bytes_received peer + size)
          (rate_limiter.deque_append latency_samples_maxlen latency
             (latency_samples peer))
          (errors peer) now in
      let nm := with_peers (<[id := peer]> (peers nm)) nm in
      let '(r, nm) := record_prometheus message_type "received" size latency nm in
      (r, nm, c)
  end.

(** [record_error(node_id, error_type)]. *)
Definition record_error (id error_type : string) (nm : NetworkMetrics)
  : result unit * NetworkMetrics :=
  match peers nm !! id with
  | None => (Ok tt, nm)
  | Some peer =>
      let peer :=
        mkPeerMetrics (node_id peer) (connected_at peer)
          (messages_sent peer) (messages_received peer)
          (bytes_sent peer) (bytes_received peer)
          (latency_samples peer) (errors peer + 1) (last_seen peer) in
      let nm := with_peers (<[id := peer]> (peers nm)) nm in
      let '(r, ctr) := Counter_inc [id; error_type] 1 (peer_errors nm) in
      (r, with_peer_errors ctr nm)
  end.

(** [sum(samples) / len(samples) if samples else 0]. *)
Definition average (samples : list Q) : json :=
  match samples with
  | [] => JInt 0
  | _ => JFloat (fold_left Qplus samples 0 / inject_Z (Z.of_nat (length samples)))%Q
  end.

(** [get_peer_stats(node_id)]: [None] for an unknown peer. *)
Definition get_peer_stats (id : string) (nm : NetworkMetrics) (c : Clock)
  : option json * Clock :=
  match peers nm !! id with
  | None => (None, c)
  | Some peer =>
      let avg_latency := average (latency_samples peer) in
      let '(now1, c) := time_time c in
      let '(now2, c) := time_time c in
      (Some (JObject [("node_id", JString (node_id peer));
                      ("connected_duration", JFloat (now1 - connected_at peer)%Q);
                      ("messages_sent", JInt (messages_sent peer));
                      ("messages_received", JInt (messages_received peer));
                      ("bytes_sent", JInt (bytes_sent peer));
                      ("bytes_received", JInt (bytes_received peer));
                      ("average_latency", avg_latency);
                      ("errors", JInt (errors peer));
                      ("last_seen", JFloat (now2 - last_seen peer)%Q)]), c)
  end.

(** One call on a [NetworkMetrics]. *)
Inductive call : Type :=
| Add_peer (id : string)
| Remove_peer (id : string)
| Record_message_sent (id message_type : string) (size : Z) (latency : Q)
| Record_message_received (id message_type : string) (size : Z) (latency : Q)
| Record_error (id error_type : string).

(** The metrics and the clock after one call; a call that raises leaves
    them as they were when it raised. *)
Definition step (k : call) (nm : NetworkMetrics) (c : Clock)
  : NetworkMetrics * Clock :=
  match k with
  | Add_peer id => add_peer id nm c
  | Remove_peer id => (remove_peer id nm, c)
  | Record_message_sent id ty size latency =>
      let '(_, nm, c) := record_message_sent id ty size latency nm c in (nm, c)
  | Record_message_received id ty size latency =>
      let '(_, nm, c) := record_message_received id ty size latency nm c in (nm, c)
  | Record_error id ty => (snd (record_error id ty nm), c)
  end.

Fixpoint run (calls : list call) (nm : NetworkMetrics) (c : Clock)
  : NetworkMetrics * Clock :=
  match calls with
  | [] => (nm, c)
  | k :: calls' => let '(nm, c) := step k nm c in run calls' nm c
  end.

End metrics.

(** ** error_handler.py *)

Module error_handler.

Definition ErrorType_members : list ErrorType :=
  [CONNECTION_ERROR; PROTOCOL_ERROR; AUTHENTICATION_ERROR; RATE_LIMIT_ERROR;
   VALIDATION_ERROR; SYNC_ERROR; PEER_ERROR; INTERNAL_ERROR].

Definition ErrorType_name (t : ErrorType) : string :=
  match t with
  | CONNECTION_ERROR => "CONNECTION_ERROR"
  | PROTOCOL_ERROR => "PROTOCOL_ERROR"
  | AUTHENTICATION_ERROR => "AUTHENTICATION_ERROR"
  | RATE_LIMIT_ERROR => "RATE_LIMIT_ERROR"
  | VALIDATION_ERROR => "VALIDATION_ERROR"
  | SYNC_ERROR => "SYNC_ERROR"
  | PEER_ERROR => "PEER_ERROR"
  | INTERNAL_ERROR => "INTERNAL_ERROR"
  end.

(** The values [auto()] gives the members. *)
Definition ErrorType_value (t : ErrorType) : Z :=
  match t with
  | CONNECTION_ERROR => 1
  | PROTOCOL_ERROR => 2
  | AUTHENTICATION_ERROR => 3
  | RATE_LIMIT_ERROR => 4
  | VALIDATION_ERROR => 5
  | SYNC_ERROR => 6
  | PEER_ERROR => 7
  | INTERNAL_ERROR => 8
  end.

Definition ErrorType_eqb (a b : ErrorType) : bool :=
  (ErrorType_value a =? ErrorType_value b)%Z.

Definition ErrorSeverity_name (s : ErrorSeverity) : string :=
  match s with
  | LOW => "LOW"
  | MEDIUM => "MEDIUM"
  | HIGH => "HIGH"
  | CRITICAL => "CRITICAL"
  end.

(** [a >= b] on two members of [ErrorSeverity]: the class derives from
    [Enum], which defines no ordering, so the comparison raises. *)
Definition ErrorSeverity_ge (a b : ErrorSeverity) : result bool :=
  Raise (TypeError ("'>=' not supported between instances of "
                    ++ "'ErrorSeverity' and 'ErrorSeverity'")).

(** The exception object: the fields [__init__] sets. *)
Record NetworkError : Type := mkNetworkError {
  error_type : ErrorType;
  severity : ErrorSeverity;
  message : string;
  details : json;
  timestamp : Q
}.

(** [NetworkError(error_type, severity, message, details)]. *)
Definition NetworkError_init (error_type : ErrorType) (severity : ErrorSeverity)
  (message : string) (details : json) (c : Clock) : NetworkError * Clock :=
  let details := if py_truthy details then details else JObject [] in
  let '(now, c) := time_time c in
  (mkNetworkError error_type severity message details now, c).

(** A registered handler: what calling it on an error does, and its
    [__name__]. *)
Record handler : Type := mkHandler {
  __name__ : string;
  run_handler : NetworkError -> result unit
}.

(** What the handler's own logger is given. *)
Inductive log_record : Type :=
| Network_error_occurred (error_type severity message : string) (details : json)
                         (peer_id : option string)
| Error_in_error_handler (handler error : string)
| Failed_to_handle_error (error : string).

Record ErrorHandler : Type := mkErrorHandler {
  metrics : metrics.NetworkMetrics;
  error_counts : list (ErrorType * Z);
  error_history : list NetworkError;
  max_history_size : nat;
  error_handlers : list (ErrorType * list handler);
  logger : list log_record
}.

(** Dicts keyed by [ErrorType], in insertion order. *)
Fixpoint by_type_get {A : Type} (t : ErrorType) (d : list (ErrorType * A))
  : option A :=
  match d with
  | [] => None
  | (t', v) :: d' => if ErrorType_eqb t t' then Some v else by_type_get t d'
  end.

Fixpoint by_type_set {A : Type} (t : ErrorType) (v : A)
  (d : list (ErrorType * A)) : list (ErrorType * A) :=
  match d with
  | [] => [(t, v)]
  | (t', v') :: d' =>
      if ErrorType_eqb t t' then (t, v) :: d' else (t', v') :: by_type_set t v d'
  end.

(** [register_handler(error_type, handler)]. *)
Definition register_handler (t : ErrorType) (h : handler) (eh : ErrorHandler)
  : ErrorHandler :=
  let handlers :=
    match by_type_get t (error_handlers eh) with
    | None => by_type_set t [] (error_handlers eh)
    | Some _ => error_handlers eh
    end in
  let handlers :=
    by_type_set t (default [] (by_type_get t handlers) ++ [h])%list handlers in
  mkErrorHandler (metrics eh) (error_counts eh) (error_history eh)
                 (max_history_size eh) handlers (logger eh).

(** The default handlers. *)
Definition _handle_connection_error (error : NetworkError) : result unit :=
  b <-! ErrorSeverity_ge (severity error) HIGH; Ok tt.
Definition _handle_protocol_error (error : NetworkError) : result unit :=
  b <-! ErrorSeverity_ge (severity error) MEDIUM; Ok tt.
Definition _handle_auth_error (error : NetworkError) : result unit :=
  b <-! ErrorSeverity_ge (severity error) HIGH; Ok tt.
Definition _handle_rate_limit_error (error : NetworkError) : result unit :=
  Ok tt.
Definition _handle_validation_error (error : NetworkError) : result unit :=
  b <-! ErrorSeverity_ge (severity error) MEDIUM; Ok tt.
Definition _handle_sync_error (error : NetworkError) : result unit :=
  b <-! ErrorSeverity_ge (severity error) HIGH; Ok tt.
Definition _handle_peer_error (error : NetworkError) : result unit :=
  b <-! ErrorSeverity_ge (severity error) HIGH; Ok tt.
Definition _handle_internal_error (error : NetworkError) : result unit :=
  b <-! ErrorSeverity_ge (severity error) CRITICAL; Ok tt.

Definition _register_default_handlers (eh : ErrorHandler) : ErrorHandler :=
  let eh := register_handler CONNECTION_ERROR
              (mkHandler "_handle_connection_error" _handle_connection_error) eh in
  let eh := register_handler PROTOCOL_ERROR
              (mkHandler "_handle_protocol_error" _handle_protocol_error) eh in
  let eh := register_handler AUTHENTICATION_ERROR
              (mkHandler "_handle_auth_error" _handle_auth_error) eh in
  let eh := register_handler RATE_LIMIT_ERROR
              (mkHandler "_handle_rate_limit_error" _handle_rate_limit_error) eh in
  let eh := register_handler VALIDATION_ERROR
              (mkHandler "_handle_validation_error" _handle_validation_error) eh in
  let eh := register_handler SYNC_ERROR
              (mkHandler "_handle_sync_error" _handle_sync_error) eh in
  let eh := register_handler PEER_ERROR
              (mkHandler "_handle_peer_error" _handle_peer_error) eh in
  register_handler INTERNAL_ERROR
    (mkHandler "_handle_internal_error" _handle_internal_error) eh.

(** [ErrorHandler(metrics)]. *)
Definition ErrorHandler_init (m : metrics.NetworkMetrics) : ErrorHandler :=
  _register_default_handlers
    (mkErrorHandler m
       (map (fun t => (t, 0%Z)) ErrorType_members)
       [] 1000
       (map (fun t => (t, [])) ErrorType_members)
       []).

(** [repr] of a member, as [str(KeyError(member))] shows it. *)
Definition ErrorType_repr (t : ErrorType) : string :=
  "<ErrorType." ++ ErrorType_name t ++ ": " ++ pretty (ErrorType_value t) ++ ">".

(** [if peer_id:] on an [Optional[str]]. *)
Definition peer_id_given (peer_id : option string) : option string :=
  match peer_id with
  | Some id => if String.eqb id EmptyString then None else Some id
  | None => None
  end.

(** The [for handler in ...] loop of [handle_error]: a handler that
    raises is logged and the loop goes on. *)
Definition call_handlers (error : NetworkError) (handlers : list handler)
  (log : list log_record) : list log_record :=
  fold_left
    (fun log h =>
       match run_handler h error with
       | Ok _ => log
       | Raise e => (log ++ [Error_in_error_handler (__name__ h) (exn_str e)])%list
       end)
    handlers log.

(** [handle_error(error, peer_id)].  The only statements of the [try]
    block that can raise are the update of the counter, on a type the
    table has no entry for, and the call into the metrics; the [except]
    clause logs the failure and the state is left as it was then. *)
Definition handle_error (error : NetworkError) (peer_id : option string)
  (eh : ErrorHandler) : ErrorHandler :=
  match by_type_get (error_type error) (error_counts eh) with
  | None =>
      mkErrorHandler (metrics eh) (error_counts eh) (error_history eh)
        (max_history_size eh) (error_handlers eh)
        (logger eh ++ [Failed_to_handle_error
                         (ErrorType_repr (error_type error))])%list
  | Some n =>
      let counts := by_type_set (error_type error) (n + 1)%Z (error_counts eh) in
      let history := (error_history eh ++ [error])%list in
      let history :=
        if Nat.ltb (max_history_size eh) (length history) then drop 1 history
        else history in
      let '(recorded, m) :=
        match peer_id_given peer_id with
        | Some id =>
            metrics.record_error id (ErrorType_name (error_type error))
                                 (metrics eh)
        | None => (Ok tt, metrics eh)
        end in
      match recorded with
      | Raise e =>
          mkErrorHandler m counts history (max_history_size eh)
            (error_handlers eh)
            (logger eh ++ [Failed_to_handle_error (exn_str e)])%list
      | Ok _ =>
          let log :=
            (logger eh
             ++ [Network_error_occurred
                   (ErrorType_name (error_type error))
                   (ErrorSeverity_name (severity error))
                   (message error) (details error) peer_id])%list in
          mkErrorHandler m counts history (max_history_size eh)
            (error_handlers eh)
            (call_handlers error
               (default [] (by_type_get (error_type error) (error_handlers eh)))
               log)
      end
  end.

(** One entry of [recent_errors]. *)
Definition error_summary (error : NetworkError) : json :=
  JObject [("type", JString (ErrorType_name (error_type error)));
           ("severity", JString (ErrorSeverity_name (severity error)));
           ("message", JString (message error));
           ("timestamp", JFloat (timestamp error))].

(** [get_error_stats()]. *)
Definition get_error_stats (eh : ErrorHandler) : json :=
  JObject
    [("total_errors",
      JInt (fold_left Z.add (map snd (error_counts eh)) 0%Z));
     ("error_counts",
      JObject (fold_left
                 (fun d '(t, count) => dict_set (ErrorType_name t) (JInt count) d)
                 (error_counts eh) []));
     ("recent_errors",
      JArray (map error_summary
                  (rev (drop (length (error_history eh) - 10)
                             (error_history eh)))))].

(** [clear_error_history()]. *)
Definition clear_error_history (eh : ErrorHandler) : ErrorHandler :=
  mkErrorHandler (metrics eh)
    (map (fun t => (t, 0%Z)) ErrorType_members)
    [] (max_history_size eh) (error_handlers eh) (logger eh).

(** A sequence of [handle_error] calls. *)
Definition handle_errors (calls : list (NetworkError * option string))
  (eh : ErrorHandler) : ErrorHandler :=
  fold_left (fun eh '(error, peer_id) => handle_error error peer_id eh) calls eh.

End error_handler.

(** ** tor_network.py: the address check *)

Module tor_network.





End tor_network.

(** ** Reference collaborators and derived notions used in the statements *)

(** A reference store for running the dispatcher and the sync loop: the
    chain is the list of the indices of its blocks, a block is its index,
    and [add_block] accepts the block that extends the chain by one. *)
Module RefChain.

Definition block_of_dict (d : json) : result Z :=
  match py_getitem d "index" with
  | Ok (JInt n) => Ok n
  | Ok _ => Raise (TypeError "index must be an integer")
  | Raise (KeyError _) =>
      Raise (TypeError "missing required argument: 'index'")
  | Raise _ => Raise (TypeError "argument after ** must be a mapping")
  end.

Definition append_block (b : Z) (chain : list Z) : result unit * list Z :=
  if (b =? Z.of_nat (length chain) + 1)%Z then (Ok tt, (chain ++ [b])%list)
  else (Raise (ValueError "Invalid block index"), chain).

Definition store : ChainStore := {|
  Blockchain := list Z;
  Block := Z;
  Transaction := json;
  Block_init := block_of_dict;
  Transaction_init d := if is_dict d then Ok d
                        else Raise (TypeError "argument after ** must be a mapping");
  block_index b := b;
  add_block := append_block;
  add_transaction tx chain := (Ok tt, chain);
  to_dict chain := Ok (JObject [("height", JInt (Z.of_nat (length chain)))]);
  get_height chain := Z.of_nat (length chain)
|}.

End RefChain.

(** The exceptions that stand for a protocol error: the taxonomy's
    [PROTOCOL_ERROR] carried by a [NetworkError], and the [ValueError] the
    codec raises for a frame it refuses. *)
Definition is_protocol_error (e : exn) : bool :=
  match e with
  | NetworkError PROTOCOL_ERROR _ _ => true
  | ValueError _ => true
  | _ => false
  end.

(** A bucket after a sequence of [consume(n)] calls, each given as the
    clock value it reads and the amount [n]. *)
Definition consume_sequence (calls : list (Q * Q)) (b : rate_limiter.TokenBucket)
  : rate_limiter.TokenBucket :=
  fold_left (fun b call => snd (rate_limiter.consume_at (fst call) (snd call) b))
            calls b.

(** The clock values [ts] never go back, starting from [t0]. *)
Fixpoint nondecreasing_from (t0 : Q) (ts : list Q) : Prop :=
  match ts with
  | [] => True
  | t :: ts' => (t0 <= t)%Q /\ nondecreasing_from t ts'
  end.

(** A clock that shows the same value at every read. *)
Definition frozen_clock (t : Q) : Clock := mkClock (fun _ => t) 0.

(** A clock that advances by [dt] at every read, from [t]. *)
Definition ticking_clock (t dt : Q) : Clock :=
  mkClock (fun i => (t + inject_Z (Z.of_nat i) * dt)%Q) 0.

(** The answers of the [is_allowed] calls of a sequence of calls, in
    order. *)
Fixpoint answers (ks : list rate_limiter.call)
  (s : rate_limiter.RateLimiter * Clock)
  : list (bool * option rate_limiter.reason) :=
  match ks with
  | [] => []
  | rate_limiter.Is_allowed id ty size :: ks' =>
      let '(ok, why, rl, c) := rate_limiter.is_allowed id ty size (fst s) (snd s) in
      (ok, why) :: answers ks' (rl, c)
  | k :: ks' => answers ks' (rate_limiter.step k s)
  end.

(** What the limiter's calls keep: the threshold is the constructor's
    1000, no peer has a block set, and no history is longer than the
    deque's bound. *)
Definition never_blocked (rl : rate_limiter.RateLimiter) : Prop :=
  rate_limiter.max_requests_per_window rl = 1000
  /\ map_Forall (fun _ p => rate_limiter.blocked_until p = 0%Q
                            /\ length (rate_limiter.request_history p) <= 1000)
                (rate_limiter.peers rl).


(** What every call on a [NetworkMetrics] keeps: the gauge counts the
    tracked peers, a record is filed under its own [node_id], and a
    latency window holds at most [latency_samples_maxlen] samples. *)
Definition metrics_ok (nm : metrics.NetworkMetrics) : Prop :=
  (metrics.connected_peers nm
   == inject_Z (Z.of_nat (size (metrics.peers nm))))%Q
  /\ forall id p, metrics.peers nm !! id = Some p ->
       metrics.node_id p = id
       /\ length (metrics.latency_samples p) <= metrics.latency_samples_maxlen.

(** The call that records a received message, given as its type, its
    size and its latency. *)
Definition received_call (id : string) (m : string * Z * Q) : metrics.call :=
  metrics.Record_message_received id (fst (fst m)) (snd (fst m)) (snd m).

(** ** Sample inputs *)

(** A valid message with a nested payload and a fractional timestamp. *)
Definition sample_message : Message :=
  mkMessage BLOCK
    (JObject [("index", JInt 5);
              ("tags", JArray [JString "a"; JNull; JBool true; JFloat (-3 # 8)]);
              ("meta", JObject [])])
    (JString "node-1") (JFloat (3400000001 # 2)) JNull.

Definition sample_heartbeat : Message :=
  mkMessage HEARTBEAT (JObject []) (JString "node-1") (JInt 1700000000) JNull.

(** The frame a peer sends to ask for blocks 1 to 3. *)
Definition block_request_frame : list byte :=
  @json_dumps RefJson.runtime
    (JObject [("type", JString "block_request");
              ("data", JObject [("start_height", JInt 1); ("end_height", JInt 3)]);
              ("sender", JString "node-1");
              ("timestamp", JFloat (3400000001 # 2));
              ("signature", JNull);
              ("version", JString VERSION)]).

(** A handler table with one handler, for [BLOCK], that raises. *)
Definition raising_handler : @Handler RefChain.store :=
  fun _ chain => (Raise (ValueError "Invalid block"), chain).

Definition sample_handlers : gmap MessageType (@Handler RefChain.store) :=
  <[BLOCK := raising_handler]> ∅.

(** A limiter with one peer, registered at time 1700000000 on a clock
    that advances 5 ms at every read. *)
Definition sample_limiter : rate_limiter.RateLimiter * Clock :=
  rate_limiter.run [rate_limiter.Add_peer "P"]
    (rate_limiter.RateLimiter_init (ticking_clock 1700000000 (1 # 200))).

(** The same limiter after the peer's message rate was set to 0. *)
Definition throttled_limiter : rate_limiter.RateLimiter * Clock :=
  rate_limiter.run [rate_limiter.Update_limits "P" (Some 0%Q) None] sample_limiter.

(** The frame [send_message] writes for [sample_heartbeat]. *)
Definition sample_frame : list byte :=
  outgoing (snd (@send_message RefJson.runtime sample_heartbeat
                   (mkWriter [] false))).

(** The limiter of [sample_limiter] after [_block_peer] ran on its peer. *)
Definition blocked_limiter : rate_limiter.RateLimiter * Clock :=
  let '(rl, c) := sample_limiter in
  match rate_limiter.peers rl !! "P" with
  | Some p =>
      let '(p', c') := rate_limiter._block_peer rl p c in
      (rate_limiter.with_peers (<["P" := p']> (rate_limiter.peers rl)) rl, c')
  | None => (rl, c)
  end.

(** A reference session: a node with private key 7 meets a peer whose
    public key is [6 ^ 11 mod 251]. *)
Definition sample_manager : @security.SecurityManager security.Ref.crypto :=
  @security.mkSecurityManager security.Ref.crypto 7%Z (6 ^ 7 mod 251)%Z ∅ ∅.

Definition sample_peer_pem : list byte :=
  [security.Ref.byte_of_Z (6 ^ 11 mod 251)].

Definition sample_session : @security.SecurityManager security.Ref.crypto :=
  snd (@security.establish_session security.Ref.crypto "P" sample_peer_pem
         sample_manager).

Definition sample_key : list byte :=
  default [] (@security.session_keys security.Ref.crypto sample_session !! "P").

Definition sample_iv : list byte := repeat x2a 16.

(** A decrypted text that ends in a zero byte, one that ends in
    [1; 2; 3], and the blobs that decrypt to them under the session key. *)
Definition zero_padded_text : list byte := (repeat x41 15 ++ [x00])%list.
Definition mixed_padded_text : list byte :=
  (repeat x41 13 ++ [x01; x02; x03])%list.

Definition blob_of (padded : list byte) : list byte :=
  (sample_iv ++ security.Ref.cbc_encrypt (length padded / 16) sample_key
                                         sample_iv padded)%list.

(** Three sessions, as [connection_manager.peers] holds them. *)
Definition idle_session (id : string) : PeerConnection :=
  mkPeer (mkReader [] [] 0) (mkWriter [] false) id 0 true.

Definition three_peers : gmap string PeerConnection :=
  <["a" := idle_session "a"]>
    (<["b" := idle_session "b"]> (<["c" := idle_session "c"]> ∅)).

(** A sync state in the middle of a run that started at time 0. *)
Definition syncing_state : sync_manager.SyncState :=
  sync_manager.mkSyncState true 0 0 5 ["a"; "b"; "c"].

(** A heartbeat of an older protocol version, a heartbeat without
    [sender], and a frame whose JSON text is an array. *)
Definition old_version_fields : list (string * json) :=
  [("type", JString "heartbeat"); ("data", JObject []);
   ("sender", JString "node-1"); ("timestamp", JInt 1700000000);
   ("signature", JNull); ("version", JString "0.9.0")].

Definition old_version_frame : list byte :=
  @json_dumps RefJson.runtime (JObject old_version_fields).

Definition senderless_fields : list (string * json) :=
  [("type", JString "heartbeat"); ("data", JObject []);
   ("timestamp", JInt 1700000000); ("version", JString VERSION)].

Definition senderless_frame : list byte :=
  @json_dumps RefJson.runtime (JObject senderless_fields).

Definition array_frame : list byte :=
  @json_dumps RefJson.runtime (JArray [JInt 1; JInt 2]).

(** The length prefix of a payload. *)
Definition prefix_of (payload : list byte) : list byte :=
  big_endian_digits 4 (Z.of_nat (length payload)).

(** A validator that accepts the blocks with an index up to 10, and the
    message that carries block 1. *)
Definition sample_validator : @Validator RefChain.store :=
  {| validate_block := fun b : @Block RefChain.store => Ok (b <=? 10)%Z;
     validate_transaction := fun _ => Ok true |}.

Definition first_block_message : Message :=
  mkMessage BLOCK (JObject [("index", JInt 1)]) (JString "node-2")
            (JInt 1700000000) JNull.

(** A new [NetworkMetrics] after [add_peer] of one peer at time 0. *)
Definition sample_metrics : metrics.NetworkMetrics :=
  fst (metrics.add_peer "a" metrics.NetworkMetrics_init (frozen_clock 0)).

Definition sample_peer_metrics : metrics.PeerMetrics :=
  metrics.mkPeerMetrics "a" 0 0 0 0 0 [] 0 0.

(** A connection error of low severity. *)
Definition sample_error : error_handler.NetworkError :=
  error_handler.mkNetworkError CONNECTION_ERROR LOW "connection refused"
    (JObject []) 1700000000.

(** The reply of the built-in handlers to [sample_heartbeat]. *)
Definition heartbeat_reply : Message :=
  default sample_heartbeat
    (fst (@handle_message RefChain.store NetworkConfig.defaults
            (@default_handlers RefChain.store NetworkConfig.defaults None)
            sample_heartbeat [])).

(** * Properties *)

(** ** The codec *)

Section ProtocolFacts.
Context `{!PyRuntime}.

Lemma MessageType_of_value_value (t : MessageType) :
  MessageType_of_value (value t) = Some t.
Proof. by destruct t. Qed.

Lemma MessageType_call_value (t : MessageType) :
  MessageType_call (JString (value t)) = Ok t.
Proof. unfold MessageType_call. by rewrite MessageType_of_value_value. Qed.

(** A frame whose object carries the right version and a [type] string
    outside the enumeration is refused with a [ValueError]. *)
Lemma decode_message_unknown_type (frame : list byte)
  (fields : list (string * json)) (tag : string) :
  json_loads frame = Ok (JObject fields) ->
  dict_get "version" fields = Some (JString VERSION) ->
  dict_get "type" fields = Some (JString tag) ->
  MessageType_of_value tag = None ->
  decode_message frame
  = Raise (ValueError (py_repr (JString tag) ++ " is not a valid MessageType")).
Proof.
  intros Hload Hver Hty Hnone.
  unfold decode_message, decode_message_body.
  rewrite Hload. cbn [rbind py_get py_getitem].
  rewrite Hver, Hty. cbn [default py_eq_str negb rbind]. 
  replace (String.eqb VERSION VERSION) with true by reflexivity.
  cbn [negb rbind MessageType_call]. by rewrite Hnone.
Qed.

(** A frame that the JSON library reads as the wire object of a message
    decodes to that message. *)
Lemma decode_message_of_dict (frame : list byte) (m : Message) :
  json_loads frame = Ok (message_dict m) ->
  decode_message frame = Ok m.
Proof.
  intros Hjson.
  unfold decode_message, decode_message_body.
  rewrite Hjson. cbn [rbind message_dict py_get py_getitem dict_get].
  cbn -[MessageType_of_value value].
  rewrite MessageType_of_value_value.
  by destruct m.
Qed.

(** C4. For every message whose wire object the JSON library writes and
    reads back unchanged (a JSON-representable message: its type is a
    member of the enumeration by typing, its payload fields are JSON
    values), decoding the encoded message gives the message back. *)
Theorem decode_encode_roundtrip (m : Message) :
  json_loads (json_dumps (message_dict m)) = Ok (message_dict m) ->
  decode_message (encode_message m) = Ok m.
Proof.
  intros Hjson. unfold encode_message.
  apply decode_message_of_dict. exact Hjson.
Qed.

End ProtocolFacts.

(** The round trip on [sample_message], through the reference runtime. *)
Lemma decode_encode_roundtrip_witness :
  valid_message sample_message = true
  /\ @decode_message RefJson.runtime (@encode_message RefJson.runtime sample_message)
     = Ok sample_message.
Proof.
  split; [reflexivity |].
  apply (@decode_encode_roundtrip RefJson.runtime sample_message).
  vm_compute. reflexivity.
Defined.

(** ** The framed connection *)

Section ConnectionFacts.
Context `{!PyRuntime}.

Lemma readexactly_prefix (a b : list byte) (req : list nat) (del : nat) :
  readexactly (length a) (mkReader (a ++ b) req del)
  = (Ok a, mkReader b (length a :: req) (del + length a)).
Proof.
  unfold readexactly. cbn [incoming requested delivered].
  rewrite length_app.
  replace (Nat.leb (length a) (length a + length b)) with true
    by (symmetry; apply Nat.leb_le; lia).
  by rewrite take_app_length, drop_app_length.
Qed.

(** C6, as the code has it. A frame whose declared length exceeds
    [MAX_MESSAGE_SIZE] is refused by [receive_message] right after the
    four length bytes: the only read asked of the transport is the one
    for the prefix, the payload stays unread in the stream, and the
    caller gets a [ConnectionError] whose text quotes the size check. *)
Theorem oversized_frame_rejected_before_payload
  (b0 b1 b2 b3 : byte) (payload : list byte) (req : list nat) (del : nat) :
  (int_from_bytes_big [b0; b1; b2; b3] > NetworkConfig.MAX_MESSAGE_SIZE)%Z ->
  receive_message (mkReader (b0 :: b1 :: b2 :: b3 :: payload) req del)
  = (Raise (ConnectionError
              ("Failed to receive message: Message size "
               ++ pretty (int_from_bytes_big [b0; b1; b2; b3])
               ++ " exceeds maximum " ++ pretty NetworkConfig.MAX_MESSAGE_SIZE)),
     mkReader payload (4%nat :: req) (del + 4)).
Proof.
  intros Hbig.
  unfold receive_message, receive_message_body.
  pose proof (readexactly_prefix [b0; b1; b2; b3] payload req del) as Hread.
  cbn [length app] in Hread. rewrite Hread.
  apply Z.gtb_gt in Hbig. rewrite Hbig. reflexivity.
Qed.

End ConnectionFacts.

(** The 2 MiB frame of the specification's scenario, followed by eight
    payload bytes. *)
Lemma oversized_frame_rejected_before_payload_witness :
  @receive_message RefJson.runtime
    (mkReader (x00 :: x20 :: x00 :: x00 :: repeat x00 8) [] 0)
  = (Raise (ConnectionError
              "Failed to receive message: Message size 2097152 exceeds maximum 1048576"),
     mkReader (repeat x00 8) [4%nat] 4).
Proof.
  exact (@oversized_frame_rejected_before_payload RefJson.runtime
           x00 x20 x00 x00 (repeat x00 8) [] 0%nat eq_refl).
Defined.

(** C6, the claim as stated fails: the 2 MiB frame of the specification's
    scenario is refused with a [ConnectionError], the class also raised
    for a closed connection, and not with a protocol error. *)
Lemma oversized_frame_error_is_connection_error :
  exists (msg : string) (rd : StreamReader),
    @receive_message RefJson.runtime
      (mkReader (x00 :: x20 :: x00 :: x00 :: repeat x00 8) [] 0)
    = (Raise (ConnectionError msg), rd)
    /\ is_protocol_error (ConnectionError msg) = false
    /\ incoming rd = repeat x00 8.
Proof.
  eexists _, _. split; [vm_compute; reflexivity |]. split; reflexivity.
Qed.

Section FrameFacts.
Context `{!PyRuntime}.

Lemma int_from_bytes_big_snoc (bs : list byte) (b : byte) :
  int_from_bytes_big (bs ++ [b])
  = (int_from_bytes_big bs * 256 + Z.of_N (Byte.to_N b))%Z.
Proof. unfold int_from_bytes_big. by rewrite fold_left_app. Qed.

Lemma length_big_endian_digits (k : nat) (n : Z) :
  length (big_endian_digits k n) = k.
Proof.
  revert n. induction k as [| k IH]; intros n; [done |].
  cbn [big_endian_digits]. rewrite length_app, IH. cbn. lia.
Qed.

Lemma int_from_big_endian_digits (k : nat) (n : Z) :
  (0 <= n)%Z ->
  int_from_bytes_big (big_endian_digits k n) = (n mod 256 ^ Z.of_nat k)%Z.
Proof.
  revert n. induction k as [| k IH]; intros n Hn.
  - cbn. by rewrite Z.mod_1_r.
  - cbn [big_endian_digits]. rewrite int_from_bytes_big_snoc.
    rewrite IH by (apply Z.div_pos; lia).
    assert (Hlow : (0 <= n mod 256 < 256)%Z) by (apply Z.mod_pos_bound; lia).
    destruct (Byte.of_N (Z.to_N (n mod 256))) as [b |] eqn:Hb.
    2:{ apply Byte.of_N_None_iff in Hb. lia. }
    cbn [default from_option]. unfold id.
    apply Byte.to_of_N in Hb. rewrite Hb, Z2N.id by lia.
    rewrite Nat2Z.inj_succ, Z.pow_succ_r by lia.
    rewrite Z.rem_mul_r by lia. lia.
Qed.

(** What [send_message] writes, [receive_message] reads back: a message
    whose wire object the JSON library reads back unchanged, and whose
    encoding is within [MAX_MESSAGE_SIZE], arrives as it was sent, and
    the stream is consumed up to the end of the frame. *)
Lemma receive_send_roundtrip (m : Message) (rest : list byte) :
  json_loads (json_dumps (message_dict m)) = Ok (message_dict m) ->
  (Z.of_nat (length (encode_message m)) <= NetworkConfig.MAX_MESSAGE_SIZE)%Z ->
  exists frame,
    send_message m (mkWriter [] false) = (Ok tt, mkWriter frame false)
    /\ receive_message (mkReader (frame ++ rest) [] 0)
       = (Ok m, mkReader rest [length (encode_message m); 4%nat]
                         (4 + length (encode_message m))).
Proof.
  intros Hjson Hsize.
  set (data := encode_message m) in *.
  assert (Hmax : NetworkConfig.MAX_MESSAGE_SIZE = 1048576%Z) by reflexivity.
  unfold send_message. fold data. unfold int_to_bytes_big.
  replace (Z.of_nat (length data) <? 256 ^ Z.of_nat 4)%Z with true
    by (symmetry; apply Z.ltb_lt; change (256 ^ Z.of_nat 4)%Z with 4294967296%Z; lia).
  eexists. split; [reflexivity |].
  cbn [write outgoing closed app].
  set (prefix := big_endian_digits 4 (Z.of_nat (length data))).
  assert (Hplen : length prefix = 4%nat) by apply length_big_endian_digits.
  assert (Hpval : int_from_bytes_big prefix = Z.of_nat (length data)).
  { subst prefix. rewrite int_from_big_endian_digits by lia.
    apply Z.mod_small. change (256 ^ Z.of_nat 4)%Z with 4294967296%Z. lia. }
  unfold receive_message, receive_message_body.
  rewrite <- app_assoc.
  pose proof (readexactly_prefix prefix (data ++ rest) [] 0) as Hread.
  rewrite Hplen in Hread. rewrite Hread. rewrite Hpval.
  replace (Z.of_nat (length data) >? NetworkConfig.MAX_MESSAGE_SIZE)%Z with false
    by (symmetry; rewrite Z.gtb_ltb; apply Z.ltb_ge; lia).
  rewrite Nat2Z.id.
  rewrite (readexactly_prefix data rest [4%nat] (0 + 4)).
  subst data. unfold encode_message.
  rewrite (decode_message_of_dict _ m Hjson). reflexivity.
Qed.

End FrameFacts.

Section MoreConnectionFacts.
Context `{!PyRuntime}.

(** A frame is accepted only if its declared length is at most
    [MAX_MESSAGE_SIZE]: when [receive_message] returns a message, the
    stream began with four bytes whose big-endian value is within the
    bound, and exactly the prefix and that many payload bytes were read. *)
Lemma accepted_frame_within_bound (r r' : StreamReader) (m : Message) :
  receive_message r = (Ok m, r') ->
  (int_from_bytes_big (take 4 (incoming r)) <= NetworkConfig.MAX_MESSAGE_SIZE)%Z
  /\ delivered r'
     = (delivered r + 4
        + Z.to_nat (int_from_bytes_big (take 4 (incoming r))))%nat.
Proof.
  unfold receive_message, receive_message_body, readexactly.
  destruct (Nat.leb 4 (length (incoming r))) eqn:H4.
  2:{ intros [=]. }
  cbn [incoming requested delivered].
  set (L := int_from_bytes_big (take 4 (incoming r))).
  destruct (Z.gtb_spec L NetworkConfig.MAX_MESSAGE_SIZE) as [Hgt | Hle].
  { intros [=]. }
  destruct (Nat.leb (Z.to_nat L) (length (drop 4 (incoming r)))) eqn:HL.
  2:{ intros [=]. }
  cbn [incoming requested delivered].
  destruct (decode_message _) as [m' | e] eqn:Hdec.
  - intros [= <- <-]. cbn [delivered]. split; [lia | done].
  - destruct e; intros [=].
Qed.

End MoreConnectionFacts.

(** The frame of [sample_heartbeat] is accepted, and its prefix is within
    the bound. *)
Lemma accepted_frame_within_bound_witness :
  (int_from_bytes_big (take 4 sample_frame) <= NetworkConfig.MAX_MESSAGE_SIZE)%Z.
Proof.
  refine (proj1 (@accepted_frame_within_bound RefJson.runtime
                   (mkReader sample_frame [] 0)
                   (snd (@receive_message RefJson.runtime
                           (mkReader sample_frame [] 0)))
                   sample_heartbeat _)).
  vm_compute. reflexivity.
Defined.

(** [sample_message] sent and received through the reference runtime,
    with one more byte waiting in the stream. *)
Lemma receive_send_roundtrip_witness :
  exists frame,
    @send_message RefJson.runtime sample_message (mkWriter [] false)
    = (Ok tt, mkWriter frame false)
    /\ @receive_message RefJson.runtime (mkReader (frame ++ [x00]) [] 0)
       = (Ok sample_message,
          mkReader [x00]
            [length (@encode_message RefJson.runtime sample_message); 4%nat]
            (4 + length (@encode_message RefJson.runtime sample_message))).
Proof.
  apply (@receive_send_roundtrip RefJson.runtime sample_message [x00]).
  - vm_compute. reflexivity.
  - vm_compute. discriminate.
Defined.

(** ** The message types *)

Section SyncLoopFacts.
Context `{!PyRuntime} `{!ChainStore} (config : NetworkConfig.env).

Import sync_manager.

(** The first round of the block fetch stops at [MessageType.BLOCK_REQUEST]:
    nothing is sent, read or stored. *)
Lemma sync_round_raises (validator : option Validator) (target h : Z) (w : World) :
  sync_round config validator target h w
  = (Raise (AttributeError "BLOCK_REQUEST"), w).
Proof. reflexivity. Qed.

Lemma sync_blocks_from_peer_aborts (rounds : nat) (validator : option Validator)
  (peer_id : string) (target : Z) (st : SyncState)
  (peers : gmap string PeerConnection) (chain : Blockchain) (c : Clock)
  (session : PeerConnection) :
  peers !! peer_id = Some session ->
  (get_height chain < target)%Z ->
  is_syncing st = true ->
  sync_blocks_from_peer config (S rounds) validator peer_id target st peers chain c
  = (mkSyncState false (last_sync st) (get_height chain) target (sync_peers st),
     peers, chain, c).
Proof.
  intros Hpeer Hlt Hsync.
  unfold sync_blocks_from_peer. rewrite Hpeer.
  cbn [sync_loop state with_target_height with_sync_height is_syncing].
  apply Z.ltb_lt in Hlt. rewrite Hlt, Hsync. cbn [andb].
  rewrite sync_round_raises.
  cbn. by rewrite insert_id.
Qed.

End SyncLoopFacts.

(** C3, what the code does. The enumeration has nine members: the tags
    [block_request] and [block_response] are not among them. So the
    decoder refuses every frame of the right version whose type is one of
    the two, and the first round of the sync manager's block fetch stops at
    [MessageType.BLOCK_REQUEST] with an [AttributeError]: the run ends
    with [is_syncing] cleared and nothing sent. *)
Theorem block_tags_missing_from_message_type :
  MessageType_values
  = ["handshake"; "block"; "transaction"; "peer_discovery"; "peer_list";
     "heartbeat"; "chain_request"; "chain_response"; "error"]
  /\ MessageType_of_value "block_request" = None
  /\ MessageType_of_value "block_response" = None
  /\ @decode_message RefJson.runtime block_request_frame
     = Raise (ValueError "'block_request' is not a valid MessageType")
  /\ (forall (rt : PyRuntime) (frame : list byte) (fields : list (string * json))
             (tag : string),
        tag = "block_request" \/ tag = "block_response" ->
        json_loads frame = Ok (JObject fields) ->
        dict_get "version" fields = Some (JString VERSION) ->
        dict_get "type" fields = Some (JString tag) ->
        exists msg, decode_message frame = Raise (ValueError msg))
  /\ MessageType_attr "BLOCK_REQUEST" = Raise (AttributeError "BLOCK_REQUEST")
  /\ (forall (rt : PyRuntime) (cs : ChainStore) (config : NetworkConfig.env)
             (rounds : nat) (validator : option Validator) (peer_id : string)
             (target : Z) (st : sync_manager.SyncState)
             (peers : gmap string PeerConnection) (chain : Blockchain)
             (c : Clock) (session : PeerConnection),
        peers !! peer_id = Some session ->
        (get_height chain < target)%Z ->
        sync_manager.is_syncing st = true ->
        sync_manager.sync_blocks_from_peer config (S rounds) validator peer_id
                                           target st peers chain c
        = (sync_manager.mkSyncState false (sync_manager.last_sync st)
             (get_height chain) target (sync_manager.sync_peers st),
           peers, chain, c)).
Proof.
  split; [reflexivity |]. split; [reflexivity |]. split; [reflexivity |].
  split; [vm_compute; reflexivity |].
  split.
  - intros rt frame fields tag Htag Hload Hver Hty.
    eexists. eapply decode_message_unknown_type; eauto.
    by destruct Htag as [-> | ->].
  - split; [reflexivity |].
    intros. by eapply sync_blocks_from_peer_aborts.
Qed.

(** ** The dispatcher *)

Section DispatcherFacts.
Context `{!ChainStore} (config : NetworkConfig.env).

Lemma swallow_never_raises (body : result (option Message) * Blockchain) :
  exists reply chain, swallow body = (Ok reply, chain).
Proof. destruct body as [[reply | e] chain]; cbn; eauto. Qed.

Lemma lookup_default_handlers (validator : option Validator) (t : MessageType) :
  default_handlers config validator !! t
  = Some (match t with
          | HANDSHAKE => handle_handshake config
          | BLOCK => handle_block validator
          | TRANSACTION => handle_transaction validator
          | PEER_DISCOVERY => handle_peer_discovery config
          | PEER_LIST => handle_peer_list
          | HEARTBEAT => handle_heartbeat config
          | CHAIN_REQUEST => handle_chain_request config
          | CHAIN_RESPONSE => handle_chain_response
          | ERROR => handle_error
          end).
Proof. unfold default_handlers. destruct t; by simplify_map_eq. Qed.

(** With the table [__init__] installs, every message type has a handler
    and no handler lets an exception out: each catches its own and
    returns [None]. *)
Lemma default_handlers_never_raise (validator : option Validator)
  (message : Message) (chain : Blockchain) :
  exists handler reply chain',
    default_handlers config validator !! type message = Some handler
    /\ handler message chain = (Ok reply, chain').
Proof.
  rewrite lookup_default_handlers.
  assert (Hbody : exists body,
             match type message with
             | HANDSHAKE => handle_handshake config
             | BLOCK => handle_block validator
             | TRANSACTION => handle_transaction validator
             | PEER_DISCOVERY => handle_peer_discovery config
             | PEER_LIST => handle_peer_list
             | HEARTBEAT => handle_heartbeat config
             | CHAIN_REQUEST => handle_chain_request config
             | CHAIN_RESPONSE => handle_chain_response
             | ERROR => handle_error
             end message chain = swallow body)
    by (destruct (type message); eexists; reflexivity).
  destruct Hbody as [body Hbody].
  destruct (swallow_never_raises body) as (reply & chain' & Hok).
  eexists _, reply, chain'. split; [reflexivity |]. by rewrite Hbody.
Qed.

(** C7. When the handler registered for the type of a message raises,
    [handle_message] returns an [ERROR] reply whose [error] field is the
    text of the exception, and the store is as the handler left it; when
    no handler is registered for the type, it returns an [ERROR] reply
    too, saying the type is unknown. *)
Theorem dispatcher_error_replies (handlers : gmap MessageType (Handler))
  (message : Message) (chain : Blockchain) :
  (forall (handler : Handler) (e : exn) (chain' : Blockchain),
     handlers !! type message = Some handler ->
     handler message chain = (Raise e, chain') ->
     handle_message config handlers message chain
     = (Some (error_reply config (exn_str e) message), chain')
     /\ type (error_reply config (exn_str e) message) = ERROR
     /\ py_getitem (data (error_reply config (exn_str e) message)) "error"
        = Ok (JString (exn_str e)))
  /\ (handlers !! type message = None ->
      handle_message config handlers message chain
      = (Some (error_reply config
                 ("Unknown message type: " ++ MessageType_str (type message))
                 message), chain)).
Proof.
  split.
  - intros handler e chain' Hlook Hraise.
    unfold handle_message, handle_message_body, Handler in *.
    by rewrite Hlook, Hraise.
  - intros Hnone.
    unfold handle_message, handle_message_body, Handler in *.
    by rewrite Hnone.
Qed.

End DispatcherFacts.

(** A table whose [BLOCK] handler raises, and a message of a type the
    table has no handler for. *)
Lemma dispatcher_error_replies_witness :
  @handle_message RefChain.store NetworkConfig.defaults sample_handlers
     sample_message []
  = (Some (@error_reply NetworkConfig.defaults "Invalid block" sample_message), [])
  /\ @handle_message RefChain.store NetworkConfig.defaults sample_handlers
       sample_heartbeat []
     = (Some (@error_reply NetworkConfig.defaults
                "Unknown message type: MessageType.HEARTBEAT" sample_heartbeat), []).
Proof.
  split.
  - apply (proj1 (@dispatcher_error_replies RefChain.store NetworkConfig.defaults
                    sample_handlers sample_message [])
                 raising_handler (ValueError "Invalid block") []).
    + vm_compute. reflexivity.
    + reflexivity.
  - apply (proj2 (@dispatcher_error_replies RefChain.store NetworkConfig.defaults
                    sample_handlers sample_heartbeat [])).
    vm_compute. reflexivity.
Defined.

(** With the handlers [__init__] installs, a block the store refuses is
    dropped without a reply. *)
Example refused_block_gets_no_reply :
  @handle_message RefChain.store NetworkConfig.defaults
     (@default_handlers RefChain.store NetworkConfig.defaults None)
     sample_message []
  = (None, []).
Proof. vm_compute. reflexivity. Qed.

(** ** Token buckets *)

Section BucketFacts.
Import rate_limiter.
Local Open Scope Q_scope.

Lemma Qle_bool_false (x y : Q) : Qle_bool x y = false -> y < x.
Proof.
  intros H. apply Qnot_le_lt. intros Hle.
  apply Qle_bool_iff in Hle. congruence.
Qed.

Lemma Qlt_bool_true (x y : Q) : Qlt_bool x y = true <-> x < y.
Proof.
  unfold Qlt_bool. split.
  - intros H. apply Qle_bool_false. by destruct (Qle_bool y x).
  - intros H. destruct (Qle_bool y x) eqn:E; [| done].
    apply Qle_bool_iff in E. exfalso. eapply Qlt_not_le; eauto.
Qed.

Lemma Qlt_bool_false (x y : Q) : Qlt_bool x y = false <-> y <= x.
Proof.
  unfold Qlt_bool. rewrite Bool.negb_false_iff. apply Qle_bool_iff.
Qed.

Lemma consume_at_params (now n : Q) (b : TokenBucket) :
  capacity (snd (consume_at now n b)) = capacity b
  /\ fill_rate (snd (consume_at now n b)) = fill_rate b
  /\ last_update (snd (consume_at now n b)) = now.
Proof. unfold consume_at. by destruct (Qle_bool _ _). Qed.

(** One [consume] keeps the tokens within bounds when the clock has not
    gone back since the last update. *)
Lemma consume_at_bounds (now n : Q) (b : TokenBucket) :
  0 <= fill_rate b -> 0 <= n -> last_update b <= now ->
  0 <= tokens b <= capacity b ->
  0 <= tokens (snd (consume_at now n b)) <= capacity b.
Proof.
  intros Hrate Hn Hnow [Hlo Hhi].
  assert (Hgain : 0 <= (now - last_update b) * fill_rate b).
  { apply Qmult_le_0_compat; [lra | done]. }
  unfold consume_at.
  set (refilled := Qmin (capacity b) (tokens b + (now - last_update b) * fill_rate b)).
  assert (Hr1 : refilled <= capacity b) by apply Q.le_min_l.
  assert (Hr0 : 0 <= refilled).
  { apply Q.min_glb; lra. }
  destruct (Qle_bool n refilled) eqn:E; cbn [snd tokens].
  - apply Qle_bool_iff in E. lra.
  - lra.
Qed.

Lemma consume_sequence_bounds (calls : list (Q * Q)) (b : TokenBucket) :
  0 <= fill_rate b ->
  nondecreasing_from (last_update b) (map fst calls) ->
  Forall (fun call => 0 <= snd call) calls ->
  0 <= tokens b <= capacity b ->
  0 <= tokens (consume_sequence calls b) <= capacity b.
Proof.
  revert b. induction calls as [| [now n] calls IH]; intros b Hrate Htimes Hn Hb.
  - exact Hb.
  - cbn [map fst nondecreasing_from] in Htimes. destruct Htimes as [Hnow Htimes].
    inversion Hn as [| ? ? Hn0 Hn']; subst. cbn [snd] in Hn0.
    unfold consume_sequence. cbn [fold_left fst snd].
    fold (consume_sequence calls (snd (consume_at now n b))).
    destruct (consume_at_params now n b) as (Hcap & Hfill & Hlast).
    rewrite <- Hcap. apply IH.
    + by rewrite Hfill.
    + by rewrite Hlast.
    + done.
    + rewrite Hcap. by apply consume_at_bounds.
Qed.

(** C5, with the conditions the code needs. A bucket created with a
    capacity [C >= 0] and a fill rate [>= 0] keeps [0 <= tokens <= C] after
    any sequence of [consume(n)] calls with [n >= 0] made at clock values
    that never go back (starting from the creation time). *)
Theorem bucket_tokens_within_capacity (t0 C rate : Q) (calls : list (Q * Q)) :
  0 <= C -> 0 <= rate ->
  nondecreasing_from t0 (map fst calls) ->
  Forall (fun call => 0 <= snd call) calls ->
  0 <= tokens (consume_sequence calls (TokenBucket_at t0 C rate)) <= C.
Proof.
  intros HC Hrate Htimes Hn.
  apply (consume_sequence_bounds calls (TokenBucket_at t0 C rate)); cbn; try done.
  split; [done | apply Qle_refl].
Qed.

End BucketFacts.

(** A per-peer message bucket through a burst, a refusal and a refill. *)
Lemma bucket_tokens_within_capacity_witness :
  (0 <= rate_limiter.tokens
          (consume_sequence [(1, 150); (1, 60); (3 # 2, 100); (4, 0)]
             (rate_limiter.TokenBucket_at 0 200 100))
   <= 200)%Q.
Proof.
  apply (bucket_tokens_within_capacity 0 200 100
           [(1, 150); (1, 60); (3 # 2, 100); (4, 0)])%Q.
  - vm_compute. discriminate.
  - vm_compute. discriminate.
  - cbn. repeat split; vm_compute; discriminate.
  - repeat constructor; vm_compute; discriminate.
Defined.

(** C5, the claim as stated fails without the two sign conditions: a
    bucket with capacity 10 and fill rate -1, created at time 0, holds -10
    tokens after [consume(0)] at time 20; a bucket with capacity -1 holds
    -1 tokens from its creation. *)
Lemma bucket_tokens_negative_without_sign_conditions :
  (rate_limiter.tokens
     (consume_sequence [(20, 0)] (rate_limiter.TokenBucket_at 0 10 (-1)))
   == -10)%Q
  /\ ~ (0 <= rate_limiter.tokens
              (consume_sequence [(20, 0)] (rate_limiter.TokenBucket_at 0 10 (-1))))%Q
  /\ ~ (0 <= rate_limiter.tokens
              (consume_sequence [] (rate_limiter.TokenBucket_at 0 (-1) 1)))%Q.
Proof. split; [reflexivity |]. split; vm_compute; intros H; apply H; reflexivity. Qed.

(** ** The rate limiter *)

Section LimiterFacts.
Import rate_limiter.

Lemma length_deque_append {A : Type} (maxlen : nat) (x : A) (d : list A) :
  length d <= maxlen -> length (deque_append maxlen x d) <= maxlen.
Proof.
  intros Hd. unfold deque_append.
  destruct (Nat.ltb maxlen (length (d ++ [x]))) eqn:E.
  - rewrite length_drop, length_app. cbn. lia.
  - apply Nat.ltb_ge in E. done.
Qed.

Lemma length_remove_old (window_start : Q) (h : list (Q * string * Z)) :
  length (remove_old window_start h) <= length h.
Proof.
  induction h as [| [[t ty] sz] h IH]; cbn; [lia |].
  destruct (Qlt_bool t window_start); cbn; lia.
Qed.

Lemma check_request_frequency_no_block (rl : RateLimiter) (p : PeerLimits)
  (c : Clock) :
  max_requests_per_window rl = 1000 ->
  length (request_history p) <= 1000 ->
  blocked_until (fst (_check_request_frequency rl p c)) = blocked_until p
  /\ length (request_history (fst (_check_request_frequency rl p c))) <= 1000.
Proof.
  intros Hmax Hlen. unfold _check_request_frequency.
  cbn [time_time]. 
  set (h := remove_old _ _).
  assert (Hh : length h <= 1000)
    by (subst h; etrans; [apply length_remove_old | done]).
  cbn [with_request_history request_history]. rewrite Hmax.
  replace (Nat.ltb 1000 (length h)) with false
    by (symmetry; apply Nat.ltb_ge; done).
  cbn. done.
Qed.

Lemma never_blocked_insert (id : string) (p : PeerLimits) (rl : RateLimiter) :
  never_blocked rl ->
  blocked_until p = 0%Q -> length (request_history p) <= 1000 ->
  never_blocked (with_peers (<[id := p]> (peers rl)) rl).
Proof.
  intros [Hmax Hall] Hb Hl. split; [done |].
  cbn [with_peers peers]. by apply map_Forall_insert_2.
Qed.

Lemma is_allowed_never_blocked (id ty : string) (size : Z) (rl : RateLimiter)
  (c : Clock) :
  never_blocked rl ->
  never_blocked (snd (fst (is_allowed id ty size rl c))).
Proof.
  intros Hinv. pose proof Hinv as [Hmax Hall].
  unfold is_allowed.
  destruct (peers rl !! id) as [p |] eqn:Hp; [| done].
  destruct (Hall _ _ Hp) as [Hb Hl].
  cbn [time_time].
  destruct (Qlt_bool _ (blocked_until p)); [done |].
  unfold consume. cbn [time_time].
  destruct (consume_at _ 1 (global_message_bucket rl)) as [ok1 gm].
  destruct ok1; cbn [negb]; [| by split].
  cbn [with_global_message global_bandwidth_bucket readings reads].
  destruct (consume_at _ (inject_Z size) (global_bandwidth_bucket rl)) as [ok2 gb].
  destruct ok2; cbn [negb]; [| by split].
  destruct (consume_at _ 1 (message_bucket p)) as [ok3 mb].
  destruct ok3; cbn [negb].
  2:{ cbn [fst snd]. apply (never_blocked_insert id _ (with_global_bandwidth gb (with_global_message gm rl))); [by split | done | done]. }
  cbn [with_message_bucket bandwidth_bucket readings reads].
  destruct (consume_at _ (inject_Z size) (bandwidth_bucket p)) as [ok4 bb].
  destruct ok4; cbn [negb].
  2:{ cbn [fst snd]. apply (never_blocked_insert id _ (with_global_bandwidth gb (with_global_message gm rl))); [by split | done | done]. }
  match goal with
  | |- context [_check_request_frequency ?r ?q ?k] =>
      pose proof (check_request_frequency_no_block r q k Hmax) as Hchk;
      destruct (_check_request_frequency r q k) as [p' c'] eqn:Echk
  end.
  cbn [fst snd] in *.
  destruct Hchk as [Hb' Hl'].
  { cbn. by apply length_deque_append. }
  apply (never_blocked_insert id _ (with_global_bandwidth gb (with_global_message gm rl))); [by split | | done].
  rewrite Hb'. done.
Qed.

Lemma step_never_blocked (k : call) (s : RateLimiter * Clock) :
  never_blocked (fst s) -> never_blocked (fst (step k s)).
Proof.
  destruct s as [rl c]. cbn [fst]. intros Hinv. pose proof Hinv as [Hmax Hall].
  destruct k as [id | id | id ty size | id mr br]; cbn [step].
  - unfold add_peer. destruct (peers rl !! id); [done |].
    cbn. apply never_blocked_insert; [done | done | cbn; lia].
  - split; [done |]. cbn. by apply map_Forall_delete.
  - pose proof (is_allowed_never_blocked id ty size rl c Hinv) as H.
    by destruct (is_allowed id ty size rl c) as [[[ok r] rl'] c'].
  - unfold update_limits.
    destruct (peers rl !! id) as [p |] eqn:Hp; [| done].
    destruct (Hall _ _ Hp) as [Hb Hl].
    destruct mr, br; cbn; by apply never_blocked_insert.
Qed.

Lemma run_never_blocked (ks : list call) (s : RateLimiter * Clock) :
  never_blocked (fst s) -> never_blocked (fst (run ks s)).
Proof.
  revert s. induction ks as [| k ks IH]; intros s Hinv; [done |].
  cbn. apply IH. by apply step_never_blocked.
Qed.

Lemma init_never_blocked (c : Clock) : never_blocked (fst (RateLimiter_init c)).
Proof. split; [done |]. cbn. apply map_Forall_empty. Qed.

End LimiterFacts.

Section ClockFacts.
Import rate_limiter.

Lemma readings_TokenBucket_init (capacity fill_rate : Q) (c : Clock) :
  readings (snd (TokenBucket_init capacity fill_rate c)) = readings c.
Proof. reflexivity. Qed.

Lemma readings_consume (n : Q) (b : TokenBucket) (c : Clock) :
  readings (snd (consume n b c)) = readings c.
Proof. reflexivity. Qed.

Lemma readings_check_request_frequency (rl : RateLimiter) (p : PeerLimits)
  (c : Clock) :
  readings (snd (_check_request_frequency rl p c)) = readings c.
Proof.
  unfold _check_request_frequency, _block_peer. cbn [time_time].
  destruct (Nat.ltb _ _); [| done].
  cbn [time_time]. by destruct (Qlt_bool _ _).
Qed.

Lemma readings_is_allowed (id ty : string) (size : Z) (rl : RateLimiter)
  (c : Clock) :
  readings (snd (is_allowed id ty size rl c)) = readings c.
Proof.
  unfold is_allowed.
  destruct (peers rl !! id) as [p |]; [| done].
  cbn [time_time].
  destruct (Qlt_bool _ (blocked_until p)); [done |].
  unfold consume. cbn [time_time].
  destruct (consume_at _ 1 (global_message_bucket rl)) as [[] gm];
    cbn [negb]; [| done].
  destruct (consume_at _ (inject_Z size) _) as [[] gb]; cbn [negb]; [| done].
  destruct (consume_at _ 1 (message_bucket p)) as [[] mb]; cbn [negb]; [| done].
  destruct (consume_at _ (inject_Z size) _) as [[] bb]; cbn [negb]; [| done].
  match goal with
  | |- context [_check_request_frequency ?r ?q ?k] =>
      pose proof (readings_check_request_frequency r q k) as Hchk;
      destruct (_check_request_frequency r q k) as [p' c']
  end.
  exact Hchk.
Qed.

Lemma readings_step (k : call) (s : RateLimiter * Clock) :
  readings (snd (step k s)) = readings (snd s).
Proof.
  destruct s as [rl c]. destruct k as [id | id | id ty size | id mr br]; cbn [step snd].
  - unfold add_peer. by destruct (peers rl !! id).
  - done.
  - pose proof (readings_is_allowed id ty size rl c) as H.
    by destruct (is_allowed id ty size rl c) as [[[ok r] rl'] c'].
  - unfold update_limits. destruct (peers rl !! id); [| done].
    by destruct mr, br.
Qed.

(** With no block ever set, a clock that shows no negative time never
    gets the answer "blocked". *)
Lemma answers_never_blocked (ks : list call) (s : RateLimiter * Clock) :
  never_blocked (fst s) ->
  (forall i, (0 <= readings (snd s) i)%Q) ->
  Forall (fun a => forall secs, snd a <> Some (Peer_blocked secs)) (answers ks s).
Proof.
  revert s. induction ks as [| k ks IH]; intros s Hinv Hclock; [constructor |].
  assert (Hnext : never_blocked (fst (step k s))
                  /\ forall i, (0 <= readings (snd (step k s)) i)%Q).
  { split; [by apply step_never_blocked |].
    intros i. by rewrite readings_step. }
  destruct Hnext as [Hinv' Hclock'].
  destruct k as [id | id | id ty size | id mr br];
    cbn [answers]; try (by apply IH).
  destruct s as [rl c]. cbn [fst snd] in *.
  cbn [step] in Hinv', Hclock'.
  assert (Hwhy : forall secs, snd (fst (fst (is_allowed id ty size rl c)))
                              <> Some (Peer_blocked secs)).
  { intros secs. unfold is_allowed.
    destruct (peers rl !! id) as [p |] eqn:Hp; [| done].
    destruct Hinv as [_ Hall]. destruct (Hall _ _ Hp) as [Hb _].
    cbn [time_time]. rewrite Hb.
    replace (Qlt_bool (readings c (reads c)) 0) with false
      by (symmetry; apply Qlt_bool_false, Hclock).
    unfold consume. cbn [time_time].
    destruct (consume_at _ 1 (global_message_bucket rl)) as [[] gm];
      cbn [negb]; [| done].
    destruct (consume_at _ (inject_Z size) _) as [[] gb]; cbn [negb]; [| done].
    destruct (consume_at _ 1 (message_bucket p)) as [[] mb]; cbn [negb]; [| done].
    destruct (consume_at _ (inject_Z size) _) as [[] bb]; cbn [negb]; [| done].
    by destruct (_check_request_frequency _ _ _). }
  destruct (is_allowed id ty size rl c) as [[[ok why] rl'] c'].
  cbn [fst snd] in *. constructor; [exact Hwhy |]. by apply IH.
Qed.

End ClockFacts.

Section MoreLimiterFacts.
Import rate_limiter.

(** A peer whose block has not expired is denied, and the limiter is
    left as it was. *)
Lemma blocked_peer_is_denied (id ty : string) (size : Z) (rl : RateLimiter)
  (c : Clock) (p : PeerLimits) :
  peers rl !! id = Some p ->
  (readings c (reads c) < blocked_until p)%Q ->
  is_allowed id ty size rl c
  = (false, Some (Peer_blocked (blocked_until p - readings c (reads c))%Q), rl,
     mkClock (readings c) (S (reads c))).
Proof.
  intros Hp Hblocked. unfold is_allowed. rewrite Hp. cbn [time_time].
  apply Qlt_bool_true in Hblocked. by rewrite Hblocked.
Qed.

End MoreLimiterFacts.

(** The peer of [blocked_limiter] asks again 5 ms after the block was set. *)
Lemma blocked_peer_is_denied_witness :
  exists secs,
    fst (fst (rate_limiter.is_allowed "P" "block" 100 (fst blocked_limiter)
                                      (snd blocked_limiter)))
    = (false, Some (rate_limiter.Peer_blocked secs)).
Proof.
  assert (H : exists p,
             rate_limiter.peers (fst blocked_limiter) !! "P" = Some p
             /\ (readings (snd blocked_limiter) (reads (snd blocked_limiter))
                 < rate_limiter.blocked_until p)%Q).
  { eexists. split; vm_compute; reflexivity. }
  destruct H as (p & Hp & Hlt).
  eexists.
  rewrite (blocked_peer_is_denied "P" "block" 100 _ _ p Hp Hlt). reflexivity.
Defined.

Section LimiterClaims.
Import rate_limiter.

(** C2, what the code does. The request history is a deque bounded at
    1000 entries and the block is set only when the history holds more
    than 1000: whatever calls are made, at whatever clock values, no
    peer's [blocked_until] ever leaves 0 and no history exceeds 1000
    entries, and on a clock that shows no negative time no call is ever
    answered "blocked".  In the scenario of the claim, 1002 small
    messages of a registered peer sent within 31 seconds are all
    allowed. *)
Theorem request_window_never_blocks :
  (forall (c0 : Clock) (ks : list call),
     map_Forall (fun _ p => blocked_until p = 0%Q
                            /\ length (request_history p) <= 1000)
                (peers (fst (run ks (RateLimiter_init c0)))))
  /\ (forall (c0 : Clock) (ks : list call),
        (forall i, (0 <= readings c0 i)%Q) ->
        Forall (fun a => forall secs, snd a <> Some (Peer_blocked secs))
               (answers ks (RateLimiter_init c0)))
  /\ answers (repeat (Is_allowed "P" "block" 100) 1002) sample_limiter
     = repeat (true, None) 1002
  /\ (let c := snd (run (repeat (Is_allowed "P" "block" 100) 1002) sample_limiter) in
      readings c (reads c) < 1700000000 + 31)%Q.
Proof.
  split.
  - intros c0 ks.
    apply (run_never_blocked ks (RateLimiter_init c0)), init_never_blocked.
  - split.
    + intros c0 ks Hclock.
      apply answers_never_blocked; [apply init_never_blocked | exact Hclock].
    + split; vm_compute; reflexivity.
Qed.

(** C10. When [is_allowed] denies a call at the per-peer stage (the
    peer's message bucket or bandwidth bucket fails to consume), the two
    global buckets are what a successful [consume] left: the global
    message bucket was refilled and debited 1 token, the global
    bandwidth bucket was refilled and debited [size] tokens, and the
    limiter returned keeps both debits.  [t1] and [t2] are the clock
    values the two global [consume] calls read, the second and third
    reads of the call. *)
Theorem peer_denial_keeps_global_debit (id ty : string) (size : Z)
  (rl rl' : RateLimiter) (c c' : Clock) (why : reason) :
  is_allowed id ty size rl c = (false, Some why, rl', c') ->
  why = Peer_message_rate_limit_exceeded
  \/ why = Peer_bandwidth_limit_exceeded ->
  let t1 := readings c (S (reads c)) in
  let t2 := readings c (S (S (reads c))) in
  let gm := global_message_bucket rl in
  let gb := global_bandwidth_bucket rl in
  consume_at t1 1 gm = (true, global_message_bucket rl')
  /\ consume_at t2 (inject_Z size) gb = (true, global_bandwidth_bucket rl')
  /\ tokens (global_message_bucket rl')
     = (Qmin (capacity gm) (tokens gm + (t1 - last_update gm) * fill_rate gm) - 1)%Q
  /\ tokens (global_bandwidth_bucket rl')
     = (Qmin (capacity gb) (tokens gb + (t2 - last_update gb) * fill_rate gb)
        - inject_Z size)%Q.
Proof.
  intros Hdenied Hwhy t1 t2 gm gb.
  assert (Hcore : consume_at t1 1 gm = (true, global_message_bucket rl')
                  /\ consume_at t2 (inject_Z size) gb
                     = (true, global_bandwidth_bucket rl')).
  { revert Hdenied. unfold is_allowed.
    destruct (peers rl !! id) as [p |];
      [| intros [= <- _ _]; destruct Hwhy; discriminate].
    cbn [time_time].
    destruct (Qlt_bool _ (blocked_until p));
      [intros [= <- _ _]; destruct Hwhy; discriminate |].
    unfold consume. cbn [time_time readings reads].
    fold t1 gm.
    destruct (consume_at t1 1 gm) as [ok1 gm1].
    destruct ok1; cbn [negb];
      [| intros [= <- _ _]; destruct Hwhy; discriminate].
    cbn [with_global_message global_bandwidth_bucket]. fold gb t2.
    destruct (consume_at t2 (inject_Z size) gb) as [ok2 gb1].
    destruct ok2; cbn [negb];
      [| intros [= <- _ _]; destruct Hwhy; discriminate].
    destruct (consume_at _ 1 (message_bucket p)) as [ok3 mb].
    destruct ok3; cbn [negb]; [| by intros [= _ <- _]].
    cbn [with_message_bucket bandwidth_bucket].
    destruct (consume_at _ (inject_Z size) (bandwidth_bucket p)) as [ok4 bb].
    destruct ok4; cbn [negb]; [| by intros [= _ <- _]].
    destruct (_check_request_frequency _ _ _). discriminate. }
  destruct Hcore as [Hm Hb]. split; [done |]. split; [done |].
  revert Hm Hb. unfold consume_at.
  destruct (Qle_bool 1 _); [| discriminate].
  destruct (Qle_bool (inject_Z size) _); [| discriminate].
  intros [= <-] [= <-]. done.
Qed.

End LimiterClaims.

(** A peer whose message rate is 0 is denied at the per-peer stage: the
    global buckets, full before the call, are one message and 100 bytes
    short after it. *)
Lemma peer_denial_keeps_global_debit_witness :
  let r := rate_limiter.is_allowed "P" "block" 100 (fst throttled_limiter)
                                   (snd throttled_limiter) in
  fst (fst r) = (false, Some rate_limiter.Peer_message_rate_limit_exceeded)
  /\ rate_limiter.tokens (rate_limiter.global_message_bucket (snd (fst r)))
     = (1000 - 1)%Q
  /\ rate_limiter.tokens (rate_limiter.global_bandwidth_bucket (snd (fst r)))
     = (inject_Z (1024 * 1024) * 10 - inject_Z 100)%Q.
Proof.
  intros r.
  assert (Hanswer : fst (fst r)
                    = (false, Some rate_limiter.Peer_message_rate_limit_exceeded))
    by (vm_compute; reflexivity).
  split; [exact Hanswer |].
  assert (Hr : r = (false, Some rate_limiter.Peer_message_rate_limit_exceeded,
                    snd (fst r), snd r)).
  { destruct r as [[[ok why] rl'] c']. cbn [fst snd] in *. by injection Hanswer as -> ->. }
  pose proof (peer_denial_keeps_global_debit "P" "block" 100
                (fst throttled_limiter) (snd (fst r)) (snd throttled_limiter)
                (snd r) rate_limiter.Peer_message_rate_limit_exceeded
                Hr (or_introl eq_refl)) as H.
  cbv zeta in H. destruct H as (_ & _ & Hm & Hb).
  split; [rewrite Hm | rewrite Hb]; vm_compute; reflexivity.
Defined.

(** ** The session layer *)

Section SecurityFacts.
Import security.
Context `{!Crypto}.

Lemma establish_session_stores (peer_id : string) (pem : list byte)
  (sm sm1 : SecurityManager) :
  establish_session peer_id pem sm = (true, sm1) ->
  exists (pub : PublicKey) (k1 : list byte),
    peer_keys sm1 !! peer_id = Some pub
    /\ session_keys sm1 !! peer_id = Some k1
    /\ private_key sm1 = private_key sm
    /\ derive_session_key sm1 pub = Ok k1.
Proof.
  unfold establish_session.
  destruct (load_pem_public_key pem) as [pub | e]; [| discriminate].
  destruct (derive_session_key _ pub) as [k1 | e] eqn:Hk; [| discriminate].
  intros [= <-]. exists pub, k1.
  cbn [with_session_keys with_peer_keys peer_keys session_keys private_key].
  rewrite !lookup_insert_eq. repeat split; done.
Qed.

(** C1, what the code does. After a successful [establish_session] for a
    peer, [rotate_session_key] succeeds and leaves the security manager
    as it was: it derives the key again from the same private key and the
    same stored peer key, so the key it stores is the old key, and every
    blob decrypts after the rotation exactly as before it. *)
Theorem rotate_session_key_keeps_key (peer_id : string) (pem : list byte)
  (sm sm1 : SecurityManager) :
  establish_session peer_id pem sm = (true, sm1) ->
  rotate_session_key peer_id sm1 = (true, sm1)
  /\ (forall sm2, rotate_session_key peer_id sm1 = (true, sm2) ->
        session_keys sm2 !! peer_id = session_keys sm1 !! peer_id
        /\ forall blob, decrypt_message peer_id blob sm2
                        = decrypt_message peer_id blob sm1).
Proof.
  intros Hest.
  destruct (establish_session_stores _ _ _ _ Hest) as (pub & k1 & Hpub & Hk1 & _ & Hd).
  assert (Hrot : rotate_session_key peer_id sm1 = (true, sm1)).
  { unfold rotate_session_key. rewrite Hpub, Hd.
    rewrite insert_id by done. by destruct sm1. }
  split; [done |].
  intros sm2 Hsm2. rewrite Hrot in Hsm2. by injection Hsm2 as <-.
Qed.

Lemma slice_to_minus_app (message : list byte) (n : nat) (pad : list byte) :
  length pad = n -> n <> 0%nat ->
  slice_to_minus n (message ++ pad) = message.
Proof.
  intros <- Hn. unfold slice_to_minus.
  destruct (length pad) eqn:E; [done |].
  rewrite length_app, E.
  replace (length message + S n - S n)%nat with (length message) by lia.
  by rewrite take_app_length.
Qed.

(** PKCS#7 law: removing the padding that [_add_padding] added gives the
    message back. *)
Lemma remove_add_padding (message : list byte) :
  _remove_padding (_add_padding message) = Ok message.
Proof.
  unfold _remove_padding, _add_padding.
  set (n := (16 - length message mod 16)%nat).
  assert (Hn : (1 <= n <= 16)%nat).
  { subst n. pose proof (Nat.mod_upper_bound (length message) 16). lia. }
  destruct (Byte.of_nat n) as [b |] eqn:Hb.
  2:{ exfalso. pose proof (Byte.of_nat_None_iff n) as Hnone.
      apply Hnone in Hb. lia. }
  cbn [default from_option]. unfold id.
  destruct n as [| n']; [lia |].
  replace (repeat b (S n')) with (repeat b n' ++ [b])%list
    by (rewrite <- repeat_cons; done).
  rewrite app_assoc, last_snoc.
  apply Byte.to_of_nat in Hb. rewrite Hb.
  f_equal. rewrite <- app_assoc.
  apply slice_to_minus_app; [| done].
  rewrite length_app, repeat_length. cbn. lia.
Qed.

(** C9, as the code has it. With a session key for the peer,
    [decrypt_message] takes the first 16 bytes of the blob as the IV,
    decrypts the rest, and cuts as many bytes off the end as the final
    byte says (all of them when that byte is 0 or exceeds the length): it
    returns a plaintext for every non-empty decrypted text, whether or
    not the padding is well-formed, and fails only when the cipher raises
    or the decrypted text is empty. *)
Theorem decrypt_message_strips_unchecked (peer_id : string) (blob key : list byte)
  (sm : SecurityManager) :
  session_keys sm !! peer_id = Some key ->
  (forall padded final,
     aes_cbc_decrypt key (take 16 blob) (drop 16 blob) = Ok padded ->
     last padded = Some final ->
     decrypt_message peer_id blob sm
     = Some (slice_to_minus (Byte.to_nat final) padded))
  /\ (aes_cbc_decrypt key (take 16 blob) (drop 16 blob) = Ok [] ->
      decrypt_message peer_id blob sm = None)
  /\ (forall e, aes_cbc_decrypt key (take 16 blob) (drop 16 blob) = Raise e ->
      decrypt_message peer_id blob sm = None).
Proof.
  intros Hkey. unfold decrypt_message. rewrite Hkey.
  split; [| split].
  - intros padded final Hdec Hlast. rewrite Hdec.
    unfold _remove_padding. by rewrite Hlast.
  - intros Hdec. by rewrite Hdec.
  - intros e Hdec. by rewrite Hdec.
Qed.

(** For every cipher suite: a blob made of a 16-byte IV and a ciphertext
    that decrypts to a non-empty text is accepted, whatever the padding
    of that text looks like. *)
Lemma unchecked_padding_for_every_cipher (peer_id : string)
  (key iv ciphertext padded : list byte) (final : byte) (sm : SecurityManager) :
  session_keys sm !! peer_id = Some key ->
  length iv = 16%nat ->
  aes_cbc_decrypt key iv ciphertext = Ok padded ->
  last padded = Some final ->
  decrypt_message peer_id (iv ++ ciphertext) sm
  = Some (slice_to_minus (Byte.to_nat final) padded).
Proof.
  intros Hkey Hiv Hdec Hlast. unfold decrypt_message. rewrite Hkey.
  rewrite <- Hiv at 1 2. rewrite take_app_length, drop_app_length, Hdec.
  unfold _remove_padding. by rewrite Hlast.
Qed.

End SecurityFacts.

(** The rotation on the reference session. *)
Lemma rotate_session_key_keeps_key_witness :
  @security.rotate_session_key security.Ref.crypto "P" sample_session
  = (true, sample_session)
  /\ (forall blob,
        @security.decrypt_message security.Ref.crypto "P" blob
          (snd (@security.rotate_session_key security.Ref.crypto "P" sample_session))
        = @security.decrypt_message security.Ref.crypto "P" blob sample_session).
Proof.
  destruct (@rotate_session_key_keeps_key security.Ref.crypto "P" sample_peer_pem
              sample_manager sample_session) as [Hrot Hsame].
  - vm_compute. reflexivity.
  - split; [exact Hrot |].
    intros blob. rewrite Hrot. reflexivity.
Defined.

(** A message encrypted before the rotation still decrypts after it. *)
Example message_survives_rotation :
  exists blob,
    @security.encrypt_message security.Ref.crypto sample_iv "P"
      (list_byte_of_string "first message") sample_session
    = Some blob
    /\ @security.decrypt_message security.Ref.crypto "P" blob
         (snd (@security.rotate_session_key security.Ref.crypto "P" sample_session))
       = Some (list_byte_of_string "first message").
Proof. eexists. split; vm_compute; reflexivity. Qed.

(** The blob of the zero-padded text decrypts to the empty plaintext. *)
Lemma decrypt_message_strips_unchecked_witness :
  @security.decrypt_message security.Ref.crypto "P" (blob_of zero_padded_text)
    sample_session
  = Some [].
Proof.
  apply (proj1 (@decrypt_message_strips_unchecked security.Ref.crypto "P"
                  (blob_of zero_padded_text) sample_key sample_session
                  ltac:(vm_compute; reflexivity))
               zero_padded_text x00);
    vm_compute; reflexivity.
Defined.

(** The blob of the text that ends in 1, 2, 3 loses its last three bytes. *)
Lemma unchecked_padding_for_every_cipher_witness :
  @security.decrypt_message security.Ref.crypto "P" (blob_of mixed_padded_text)
    sample_session
  = Some (repeat x41 13).
Proof.
  apply (@unchecked_padding_for_every_cipher security.Ref.crypto "P" sample_key
           sample_iv
           (security.Ref.cbc_encrypt 1 sample_key sample_iv mixed_padded_text)
           mixed_padded_text x03 sample_session);
    vm_compute; reflexivity.
Defined.

(** C9, the claim as stated fails: a blob whose decrypted text ends in a
    zero byte, and a blob whose decrypted text ends in the bytes 1, 2, 3,
    have malformed padding, and [decrypt_message] returns a plaintext for
    both (the empty one, and the text without its last three bytes). *)
Lemma decrypt_message_accepts_malformed_padding :
  @security.aes_cbc_decrypt security.Ref.crypto sample_key
     (take 16 (blob_of zero_padded_text)) (drop 16 (blob_of zero_padded_text))
  = Ok zero_padded_text
  /\ security.pkcs7_well_formed zero_padded_text = false
  /\ @security.decrypt_message security.Ref.crypto "P" (blob_of zero_padded_text)
       sample_session
     = Some []
  /\ @security.aes_cbc_decrypt security.Ref.crypto sample_key
       (take 16 (blob_of mixed_padded_text)) (drop 16 (blob_of mixed_padded_text))
     = Ok mixed_padded_text
  /\ security.pkcs7_well_formed mixed_padded_text = false
  /\ @security.decrypt_message security.Ref.crypto "P" (blob_of mixed_padded_text)
       sample_session
     = Some (repeat x41 13).
Proof. repeat split; vm_compute; reflexivity. Qed.

(** ** The sync trigger *)

Section SyncFacts.
Import sync_manager.
Context (config : NetworkConfig.env).
Local Open Scope Q_scope.

(** C8, as the code has it. [should_sync()] returns true if and only if
    the interval has passed since the last sync and the connection
    manager holds at least [MIN_PEERS_FOR_SYNC] sessions; it does not
    look at [is_syncing].  The round of [periodic_sync] that calls it
    starts a sync if and only if, in addition, [is_syncing] is false. *)
Theorem should_sync_iff (state : SyncState) (peers : gmap string PeerConnection)
  (c : Clock) :
  (fst (should_sync config state peers c) = true
   <-> inject_Z (NetworkConfig.PEER_DISCOVERY_INTERVAL config)
       <= readings c (reads c) - last_sync state
       /\ (NetworkConfig.MIN_PEERS_FOR_SYNC <= Z.of_nat (size peers))%Z)
  /\ (fst (periodic_sync_starts config state peers c) = true
      <-> inject_Z (NetworkConfig.PEER_DISCOVERY_INTERVAL config)
          <= readings c (reads c) - last_sync state
          /\ (NetworkConfig.MIN_PEERS_FOR_SYNC <= Z.of_nat (size peers))%Z
          /\ is_syncing state = false).
Proof.
  assert (Hshould :
    fst (should_sync config state peers c) = true
    <-> inject_Z (NetworkConfig.PEER_DISCOVERY_INTERVAL config)
        <= readings c (reads c) - last_sync state
        /\ (NetworkConfig.MIN_PEERS_FOR_SYNC <= Z.of_nat (size peers))%Z).
  { unfold should_sync. cbn [time_time].
    destruct (Qlt_bool _ _) eqn:Ht.
    - apply Qlt_bool_true in Ht. cbn [fst]. split; [discriminate |].
      intros [Hle _]. exfalso. eapply Qlt_not_le; eauto.
    - apply Qlt_bool_false in Ht.
      destruct (Z.ltb_spec (Z.of_nat (size peers)) NetworkConfig.MIN_PEERS_FOR_SYNC);
        cbn [fst].
      + split; [discriminate |]. intros [_ Hge]. lia.
      + split; [intros _; split; [done | lia] | done]. }
  split; [exact Hshould |].
  unfold periodic_sync_starts. destruct (is_syncing state); cbn [negb fst].
  - split; [discriminate |]. by intros (_ & _ & ?).
  - rewrite Hshould. tauto.
Qed.

End SyncFacts.

(** C8, the claim as stated fails: in the middle of a sync run
    ([is_syncing] is true), with three sessions and the interval passed,
    [should_sync()] returns true. *)
Lemma should_sync_true_while_syncing :
  sync_manager.is_syncing syncing_state = true
  /\ fst (sync_manager.should_sync NetworkConfig.defaults syncing_state three_peers
            (frozen_clock 1000))
     = true.
Proof. split; vm_compute; reflexivity. Qed.

(** ** More on the codec *)

Section CodecFacts.
Context `{!PyRuntime}.

Lemma py_eq_str_true (v : json) (s : string) :
  py_eq_str v s = true <-> v = JString s.
Proof.
  destruct v; cbn; try (split; [discriminate | congruence]).
  rewrite String.eqb_eq. split; congruence.
Qed.

(** The version is checked before anything else in the frame: a JSON
    object whose [version] is missing or is not the string [1.0.0] is
    refused with a [ValueError] that quotes the version found, whatever
    its other fields are. *)
Lemma decode_message_version_gate (frame : list byte)
  (fields : list (string * json)) :
  json_loads frame = Ok (JObject fields) ->
  dict_get "version" fields <> Some (JString VERSION) ->
  decode_message frame
  = Raise (ValueError ("Unsupported protocol version: "
                       ++ py_str (default JNull (dict_get "version" fields)))).
Proof.
  intros Hload Hver.
  unfold decode_message, decode_message_body. rewrite Hload.
  cbn [rbind py_get].
  destruct (py_eq_str (default JNull (dict_get "version" fields)) VERSION) eqn:E.
  - exfalso. apply py_eq_str_true in E.
    destruct (dict_get "version" fields) as [v |]; cbn in E; [| discriminate].
    apply Hver. by rewrite E.
  - reflexivity.
Qed.

(** A JSON object of the right version that lacks [type], or has a valid
    [type] and lacks [data], [sender] or [timestamp], is refused with a
    [ValueError] that names the first missing field. *)
Lemma decode_message_missing_field (frame : list byte)
  (fields : list (string * json)) (k : string) :
  json_loads frame = Ok (JObject fields) ->
  dict_get "version" fields = Some (JString VERSION) ->
  dict_get k fields = None ->
  k = "type"
  \/ ((exists t, dict_get "type" fields = Some (JString (value t)))
      /\ (k = "data"
          \/ (is_Some (dict_get "data" fields)
              /\ (k = "sender"
                  \/ (is_Some (dict_get "sender" fields) /\ k = "timestamp"))))) ->
  decode_message frame
  = Raise (ValueError ("Missing required field: " ++ squote ++ k ++ squote)).
Proof.
  intros Hload Hver Hk Hfirst.
  unfold decode_message, decode_message_body. rewrite Hload.
  cbn [rbind py_get py_getitem]. rewrite Hver.
  cbn [default from_option py_eq_str]. 
  replace (String.eqb VERSION VERSION) with true by reflexivity.
  cbn [negb id].
  destruct Hfirst as [-> | [[t Ht] Hrest]].
  { by rewrite Hk. }
  rewrite Ht. cbn [rbind]. rewrite MessageType_call_value. cbn [rbind].
  destruct Hrest as [-> | [[d Hd] Hrest]].
  { by rewrite Hk. }
  rewrite Hd. cbn [rbind].
  destruct Hrest as [-> | [[s Hs] ->]].
  { by rewrite Hk. }
  rewrite Hs. cbn [rbind]. by rewrite Hk.
Qed.

(** What [decode_message] accepts: a frame decodes to a message exactly
    when it is a JSON object of version [1.0.0] whose [type] is the tag of
    the message's type and whose [data], [sender] and [timestamp] are the
    message's; [signature] is optional and read as [None] when absent. *)
Lemma decode_message_accepts (frame : list byte) (m : Message) :
  decode_message frame = Ok m
  <-> exists fields,
        json_loads frame = Ok (JObject fields)
        /\ dict_get "version" fields = Some (JString VERSION)
        /\ dict_get "type" fields = Some (JString (value (type m)))
        /\ dict_get "data" fields = Some (data m)
        /\ dict_get "sender" fields = Some (sender m)
        /\ dict_get "timestamp" fields = Some (timestamp m)
        /\ signature m = default JNull (dict_get "signature" fields).
Proof.
  split.
  - unfold decode_message, decode_message_body.
    destruct (json_loads frame) as [obj | e] eqn:Hload; cbn [rbind].
    2:{ destruct e; discriminate. }
    destruct obj as [| | | | | | fields]; cbn [py_get rbind]; try discriminate.
    destruct (py_eq_str (default JNull (dict_get "version" fields)) VERSION) eqn:Hv;
      cbn [negb]; [| discriminate].
    apply py_eq_str_true in Hv.
    assert (Hver : dict_get "version" fields = Some (JString VERSION)).
    { destruct (dict_get "version" fields); cbn in Hv; [by rewrite Hv | discriminate]. }
    cbn [py_getitem].
    destruct (dict_get "type" fields) as [ty |] eqn:Hty; cbn [rbind]; [| discriminate].
    unfold MessageType_call.
    destruct ty; cbn [rbind]; try discriminate.
    destruct (MessageType_of_value s) as [t |] eqn:Ht; cbn [rbind]; [| discriminate].
    destruct (dict_get "data" fields) as [d |] eqn:Hd; cbn [rbind]; [| discriminate].
    destruct (dict_get "sender" fields) as [sd |] eqn:Hs; cbn [rbind]; [| discriminate].
    destruct (dict_get "timestamp" fields) as [ts |] eqn:Hts; cbn [rbind];
      [| discriminate].
    intros [= <-]. exists fields. cbn [type data sender timestamp signature].
    repeat split; try done.
    unfold MessageType_of_value in Ht. apply find_some in Ht as [_ Ht].
    apply String.eqb_eq in Ht. by rewrite Ht.
  - intros (fields & Hload & Hver & Hty & Hd & Hs & Hts & Hsig).
    unfold decode_message, decode_message_body. rewrite Hload.
    cbn [rbind py_get py_getitem]. rewrite Hver, Hty, Hd, Hs, Hts.
    cbn [default from_option py_eq_str].
    replace (String.eqb VERSION VERSION) with true by reflexivity.
    cbn [negb id rbind]. rewrite MessageType_call_value. cbn [rbind].
    destruct m. cbn in *. by rewrite Hsig.
Qed.

(** A frame whose JSON text is not an object (an array, a string, a
    number, [null]) is not refused with the codec's [ValueError]: the
    [.get] on it raises an [AttributeError], which no [except] clause of
    [decode_message] catches. *)
Lemma decode_message_not_an_object (frame : list byte) (v : json) :
  json_loads frame = Ok v ->
  is_dict v = false ->
  exists msg, decode_message frame = Raise (AttributeError msg).
Proof.
  intros Hload Hv. unfold decode_message, decode_message_body. rewrite Hload.
  destruct v; try discriminate Hv; eexists; reflexivity.
Qed.

End CodecFacts.

(** A heartbeat of version 0.9.0 is refused, and the error quotes the
    version. *)
Lemma decode_message_version_gate_witness :
  @decode_message RefJson.runtime old_version_frame
  = Raise (ValueError "Unsupported protocol version: 0.9.0").
Proof.
  apply (@decode_message_version_gate RefJson.runtime old_version_frame
           old_version_fields).
  - vm_compute. reflexivity.
  - vm_compute. discriminate.
Defined.

(** A heartbeat without [sender] is refused, and the error names the
    field. *)
Lemma decode_message_missing_field_witness :
  @decode_message RefJson.runtime senderless_frame
  = Raise (ValueError "Missing required field: 'sender'").
Proof.
  apply (@decode_message_missing_field RefJson.runtime senderless_frame
           senderless_fields "sender").
  - vm_compute. reflexivity.
  - reflexivity.
  - reflexivity.
  - right. split; [exists HEARTBEAT; reflexivity |].
    right. split; [eexists; reflexivity |]. left. reflexivity.
Defined.

(** The frame [[1, 2]] leaves [decode_message] with an
    [AttributeError]. *)
Lemma decode_message_not_an_object_witness :
  exists msg,
    @decode_message RefJson.runtime array_frame = Raise (AttributeError msg).
Proof.
  apply (@decode_message_not_an_object RefJson.runtime array_frame
           (JArray [JInt 1; JInt 2])).
  - vm_compute. reflexivity.
  - reflexivity.
Defined.

(** ** More on the framed connection *)

Section FramingFacts.
Context `{!PyRuntime}.

(** The length prefix [send_message] writes. *)
Lemma send_message_frame (m : Message) (w : StreamWriter) :
  (Z.of_nat (length (encode_message m)) < 2 ^ 32)%Z ->
  exists prefix,
    length prefix = 4%nat
    /\ int_from_bytes_big prefix = Z.of_nat (length (encode_message m))
    /\ send_message m w
       = (Ok tt, mkWriter (outgoing w ++ prefix ++ encode_message m) (closed w)).
Proof.
  intros Hsize.
  exists (big_endian_digits 4 (Z.of_nat (length (encode_message m)))).
  split; [apply length_big_endian_digits |]. split.
  - rewrite int_from_big_endian_digits by lia.
    apply Z.mod_small. change (256 ^ Z.of_nat 4)%Z with (2 ^ 32)%Z. lia.
  - unfold send_message, int_to_bytes_big.
    replace (Z.of_nat (length (encode_message m)) <? 256 ^ Z.of_nat 4)%Z with true
      by (symmetry; apply Z.ltb_lt; change (256 ^ Z.of_nat 4)%Z with (2 ^ 32)%Z; lia).
    unfold write. cbn [outgoing closed]. by rewrite <- app_assoc.
Qed.

(** Reading one whole frame from the head of the stream. *)
Lemma receive_message_body_frame (prefix payload rest : list byte)
  (req : list nat) (del : nat) :
  length prefix = 4%nat ->
  int_from_bytes_big prefix = Z.of_nat (length payload) ->
  (Z.of_nat (length payload) <= NetworkConfig.MAX_MESSAGE_SIZE)%Z ->
  receive_message_body (mkReader (prefix ++ payload ++ rest) req del)
  = (decode_message payload,
     mkReader rest (length payload :: 4%nat :: req) (del + 4 + length payload)).
Proof.
  intros Hplen Hpval Hsize. unfold receive_message_body.
  pose proof (readexactly_prefix prefix (payload ++ rest) req del) as Hread.
  rewrite Hplen in Hread. rewrite Hread, Hpval.
  replace (Z.of_nat (length payload) >? NetworkConfig.MAX_MESSAGE_SIZE)%Z with false
    by (symmetry; rewrite Z.gtb_ltb; apply Z.ltb_ge; lia).
  rewrite Nat2Z.id.
  by rewrite (readexactly_prefix payload rest (4%nat :: req) (del + 4)).
Qed.

(** A well-framed payload that does not decode is consumed whole: the
    caller gets a [ConnectionError] and the stream stands at the first
    byte after the frame. *)
Lemma undecodable_frame_is_consumed (prefix payload rest : list byte)
  (req : list nat) (del : nat) (e : exn) :
  length prefix = 4%nat ->
  int_from_bytes_big prefix = Z.of_nat (length payload) ->
  (Z.of_nat (length payload) <= NetworkConfig.MAX_MESSAGE_SIZE)%Z ->
  decode_message payload = Raise e ->
  exists msg,
    receive_message (mkReader (prefix ++ payload ++ rest) req del)
    = (Raise (ConnectionError msg),
       mkReader rest (length payload :: 4%nat :: req) (del + 4 + length payload)).
Proof.
  intros Hplen Hpval Hsize Hdec. unfold receive_message.
  rewrite (receive_message_body_frame prefix payload rest req del) by done.
  rewrite Hdec. destruct e; eexists; reflexivity.
Qed.

(** A stream that ends before the frame is complete (inside the length
    prefix, or inside a payload of an admissible length) gives
    [ConnectionError("Connection closed by peer")], with everything that
    had arrived consumed. *)
Lemma receive_message_short_stream (r : StreamReader) :
  (length (incoming r) < 4)%nat
  \/ ((4 <= length (incoming r))%nat
      /\ (int_from_bytes_big (take 4 (incoming r))
          <= NetworkConfig.MAX_MESSAGE_SIZE)%Z
      /\ (Z.of_nat (length (incoming r))
          < 4 + int_from_bytes_big (take 4 (incoming r)))%Z) ->
  fst (receive_message r) = Raise (ConnectionError "Connection closed by peer")
  /\ incoming (snd (receive_message r)) = [].
Proof.
  intros Hshort. unfold receive_message, receive_message_body, readexactly.
  destruct Hshort as [Hlt | (H4 & Hmax & Hlt)].
  - replace (Nat.leb 4 (length (incoming r))) with false
      by (symmetry; apply Nat.leb_gt; lia).
    done.
  - replace (Nat.leb 4 (length (incoming r))) with true
      by (symmetry; apply Nat.leb_le; lia).
    cbn [incoming requested delivered].
    set (L := int_from_bytes_big (take 4 (incoming r))) in *.
    replace (L >? NetworkConfig.MAX_MESSAGE_SIZE)%Z with false
      by (symmetry; rewrite Z.gtb_ltb; apply Z.ltb_ge; lia).
    replace (Nat.leb (Z.to_nat L) (length (drop 4 (incoming r)))) with false.
    + done.
    + symmetry. apply Nat.leb_gt. rewrite length_drop. lia.
Qed.

(** Within a session, frames arrive in the order they were sent: after
    [send_message(m1)] and [send_message(m2)], the first
    [receive_message] on the bytes written returns [m1], the second
    returns [m2], and the stream is then empty. *)
Lemma frames_arrive_in_order (m1 m2 : Message) :
  json_loads (json_dumps (message_dict m1)) = Ok (message_dict m1) ->
  json_loads (json_dumps (message_dict m2)) = Ok (message_dict m2) ->
  (Z.of_nat (length (encode_message m1)) <= NetworkConfig.MAX_MESSAGE_SIZE)%Z ->
  (Z.of_nat (length (encode_message m2)) <= NetworkConfig.MAX_MESSAGE_SIZE)%Z ->
  exists w1 w2 r1 r2,
    send_message m1 (mkWriter [] false) = (Ok tt, w1)
    /\ send_message m2 w1 = (Ok tt, w2)
    /\ receive_message (mkReader (outgoing w2) [] 0) = (Ok m1, r1)
    /\ receive_message r1 = (Ok m2, r2)
    /\ incoming r2 = [].
Proof.
  intros Hj1 Hj2 Hs1 Hs2.
  assert (Hmax : NetworkConfig.MAX_MESSAGE_SIZE = 1048576%Z) by reflexivity.
  destruct (send_message_frame m1 (mkWriter [] false)) as (p1 & Hp1 & Hv1 & Hsend1);
    [lia |].
  destruct (send_message_frame m2 (mkWriter ([] ++ p1 ++ encode_message m1) false))
    as (p2 & Hp2 & Hv2 & Hsend2); [lia |].
  cbn [outgoing closed app] in Hsend1, Hsend2.
  eexists _, _, _, _. split; [exact Hsend1 |]. split; [exact Hsend2 |].
  cbn [outgoing]. rewrite <- !app_assoc.
  unfold receive_message.
  rewrite (receive_message_body_frame p1 (encode_message m1)
             (p2 ++ encode_message m2) [] 0) by done.
  unfold encode_message at 1. rewrite (decode_message_of_dict _ m1 Hj1).
  split; [reflexivity |].
  rewrite <- (app_nil_r (encode_message m2)) at 1.
  rewrite (receive_message_body_frame p2 (encode_message m2) []) by done.
  unfold encode_message at 1. rewrite (decode_message_of_dict _ m2 Hj2).
  split; reflexivity.
Qed.

End FramingFacts.

(** The framed array [[1, 2]], followed by one more byte: the frame is
    consumed and the byte is left. *)
Lemma undecodable_frame_is_consumed_witness :
  exists msg,
    @receive_message RefJson.runtime
       (mkReader (prefix_of array_frame ++ array_frame ++ [x00])%list [] 0)
    = (Raise (ConnectionError msg),
       mkReader [x00] [length array_frame; 4%nat] (0 + 4 + length array_frame)).
Proof.
  apply (@undecodable_frame_is_consumed RefJson.runtime (prefix_of array_frame)
           array_frame [x00] [] 0
           (AttributeError "object has no attribute 'get'")).
  - vm_compute. reflexivity.
  - vm_compute. reflexivity.
  - vm_compute. discriminate.
  - vm_compute. reflexivity.
Defined.

(** A stream that ends after two bytes. *)
Lemma receive_message_short_stream_witness :
  fst (@receive_message RefJson.runtime (mkReader [x00; x00] [] 0))
  = Raise (ConnectionError "Connection closed by peer")
  /\ incoming (snd (@receive_message RefJson.runtime (mkReader [x00; x00] [] 0)))
     = [].
Proof.
  apply (@receive_message_short_stream RefJson.runtime (mkReader [x00; x00] [] 0)).
  left. cbn. lia.
Defined.

(** [sample_message], then [sample_heartbeat]. *)
Lemma frames_arrive_in_order_witness :
  exists w1 w2 r1 r2,
    @send_message RefJson.runtime sample_message (mkWriter [] false) = (Ok tt, w1)
    /\ @send_message RefJson.runtime sample_heartbeat w1 = (Ok tt, w2)
    /\ @receive_message RefJson.runtime (mkReader (outgoing w2) [] 0)
       = (Ok sample_message, r1)
    /\ @receive_message RefJson.runtime r1 = (Ok sample_heartbeat, r2)
    /\ incoming r2 = [].
Proof.
  apply (@frames_arrive_in_order RefJson.runtime sample_message sample_heartbeat).
  - vm_compute. reflexivity.
  - vm_compute. reflexivity.
  - vm_compute. discriminate.
  - vm_compute. discriminate.
Defined.

(** ** More on the dispatcher *)

Section DefaultHandlerFacts.
Context `{!ChainStore} (config : NetworkConfig.env).

Lemma handle_message_default (validator : option Validator) (message : Message)
  (chain : Blockchain) :
  handle_message config (default_handlers config validator) message chain
  = match match type message with
          | HANDSHAKE => handle_handshake config
          | BLOCK => handle_block validator
          | TRANSACTION => handle_transaction validator
          | PEER_DISCOVERY => handle_peer_discovery config
          | PEER_LIST => handle_peer_list
          | HEARTBEAT => handle_heartbeat config
          | CHAIN_REQUEST => handle_chain_request config
          | CHAIN_RESPONSE => handle_chain_response
          | ERROR => handle_error
          end message chain with
    | (Ok reply, chain') => (reply, chain')
    | (Raise e, chain') => (Some (error_reply config (exn_str e) message), chain')
    end.
Proof.
  unfold handle_message, handle_message_body.
  pose proof (lookup_default_handlers config validator (type message)) as Hlook.
  unfold Handler in *. by rewrite Hlook.
Qed.

(** With the handlers [__init__] installs, only a [BLOCK] or a
    [TRANSACTION] message can change the store: every other message
    leaves it as it was. *)
Lemma only_blocks_and_transactions_touch_the_store
  (validator : option Validator) (message : Message) (chain : Blockchain) :
  type message <> BLOCK -> type message <> TRANSACTION ->
  snd (handle_message config (default_handlers config validator) message chain)
  = chain.
Proof.
  intros Hb Ht. rewrite handle_message_default.
  destruct (type message); try done.
  - unfold handle_handshake.
    destruct (py_get (data message) "node_id") as [v | e]; cbn; [| done].
    by destruct (py_truthy v).
  - unfold handle_peer_discovery.
    by destruct (py_get_default (data message) "peers" (JArray [])).
  - unfold handle_peer_list.
    by destruct (py_get_default (data message) "peers" (JArray [])).
  - unfold handle_chain_request. by destruct (to_dict chain).
  - unfold handle_chain_response.
    destruct (py_get (data message) "chain") as [v | e]; cbn; [| done].
    by destruct (py_truthy v).
  - unfold handle_error. by destruct (py_get (data message) "error").
Qed.

(** With the handlers [__init__] installs, a reply is always sent in the
    node's own name, echoes the timestamp of the request, is unsigned,
    and has the type that answers the request: [HANDSHAKE] for
    [HANDSHAKE], [PEER_LIST] for [PEER_DISCOVERY], [HEARTBEAT] for
    [HEARTBEAT], [CHAIN_RESPONSE] for [CHAIN_REQUEST]; no other message
    is answered, and no reply is an [ERROR]. *)
Lemma default_reply_shape (validator : option Validator) (message reply : Message)
  (chain : Blockchain) :
  fst (handle_message config (default_handlers config validator) message chain)
  = Some reply ->
  sender reply = JString (NetworkConfig.get_node_id config)
  /\ timestamp reply = timestamp message
  /\ signature reply = JNull
  /\ ((type message = HANDSHAKE /\ type reply = HANDSHAKE)
      \/ (type message = PEER_DISCOVERY /\ type reply = PEER_LIST)
      \/ (type message = HEARTBEAT /\ type reply = HEARTBEAT)
      \/ (type message = CHAIN_REQUEST /\ type reply = CHAIN_RESPONSE)).
Proof.
  rewrite handle_message_default.
  destruct (type message) eqn:Hty.
  - unfold handle_handshake.
    destruct (py_get (data message) "node_id") as [v | e]; cbn; [| done].
    destruct (py_truthy v); cbn; [| done].
    intros [= <-]. cbn. tauto.
  - unfold handle_block.
    destruct (Block_init (data message)) as [b | e]; cbn; [| done].
    destruct validator as [v |].
    + destruct (validate_block v b) as [[] | e]; cbn; try done.
      by destruct (add_block b chain) as [[] ?].
    + by destruct (add_block b chain) as [[] ?].
  - unfold handle_transaction.
    destruct (Transaction_init (data message)) as [tx | e]; cbn; [| done].
    destruct validator as [v |].
    + destruct (validate_transaction v tx) as [[] | e]; cbn; try done.
      by destruct (add_transaction tx chain) as [[] ?].
    + by destruct (add_transaction tx chain) as [[] ?].
  - unfold handle_peer_discovery.
    destruct (py_get_default (data message) "peers" (JArray [])); cbn; [| done].
    intros [= <-]. cbn. tauto.
  - unfold handle_peer_list.
    by destruct (py_get_default (data message) "peers" (JArray [])).
  - unfold handle_heartbeat. cbn. intros [= <-]. cbn. tauto.
  - unfold handle_chain_request. destruct (to_dict chain); cbn; [| done].
    intros [= <-]. cbn. tauto.
  - unfold handle_chain_response.
    destruct (py_get (data message) "chain") as [v | e]; cbn; [| done].
    by destruct (py_truthy v).
  - unfold handle_error. by destruct (py_get (data message) "error").
Qed.

(** With a validator installed, the store changes on a [BLOCK] message
    only through [add_block] of the block built from the payload, and
    only after the validator accepted that block; no [BLOCK] message is
    answered, whether the block was stored, refused or malformed. *)
Lemma block_stored_only_if_validated (v : Validator) (message : Message)
  (chain : Blockchain) :
  type message = BLOCK ->
  fst (handle_message config (default_handlers config (Some v)) message chain)
  = None
  /\ (snd (handle_message config (default_handlers config (Some v)) message chain)
      = chain
      \/ exists block,
           Block_init (data message) = Ok block
           /\ validate_block v block = Ok true
           /\ snd (handle_message config (default_handlers config (Some v))
                                  message chain)
              = snd (add_block block chain)).
Proof.
  intros Hty. rewrite handle_message_default, Hty. unfold handle_block.
  destruct (Block_init (data message)) as [b | e]; cbn; [| by split; [| left]].
  destruct (validate_block v b) as [[] | e] eqn:Hv; cbn;
    try (by split; [| left]).
  destruct (add_block b chain) as [[[] | e] chain'] eqn:Hadd; cbn.
  - split; [done |]. right. exists b. by rewrite Hadd.
  - split; [done |]. right. exists b. by rewrite Hadd.
Qed.

End DefaultHandlerFacts.

(** A heartbeat leaves the chain [[1]] as it is. *)
Lemma only_blocks_and_transactions_touch_the_store_witness :
  snd (@handle_message RefChain.store NetworkConfig.defaults
         (@default_handlers RefChain.store NetworkConfig.defaults
            (Some sample_validator))
         sample_heartbeat [1%Z])
  = [1%Z].
Proof.
  apply (@only_blocks_and_transactions_touch_the_store RefChain.store
           NetworkConfig.defaults (Some sample_validator) sample_heartbeat [1%Z]);
    discriminate.
Defined.

(** The reply to [sample_heartbeat]. *)
Lemma default_reply_shape_witness :
  sender heartbeat_reply = JString (NetworkConfig.get_node_id NetworkConfig.defaults)
  /\ timestamp heartbeat_reply = timestamp sample_heartbeat
  /\ signature heartbeat_reply = JNull
  /\ ((type sample_heartbeat = HANDSHAKE /\ type heartbeat_reply = HANDSHAKE)
      \/ (type sample_heartbeat = PEER_DISCOVERY /\ type heartbeat_reply = PEER_LIST)
      \/ (type sample_heartbeat = HEARTBEAT /\ type heartbeat_reply = HEARTBEAT)
      \/ (type sample_heartbeat = CHAIN_REQUEST
          /\ type heartbeat_reply = CHAIN_RESPONSE)).
Proof.
  apply (@default_reply_shape RefChain.store NetworkConfig.defaults None
           sample_heartbeat heartbeat_reply []).
  vm_compute. reflexivity.
Defined.

(** Block 1 on the empty chain, with a validator that accepts it. *)
Lemma block_stored_only_if_validated_witness :
  fst (@handle_message RefChain.store NetworkConfig.defaults
         (@default_handlers RefChain.store NetworkConfig.defaults
            (Some sample_validator))
         first_block_message [])
  = None
  /\ (snd (@handle_message RefChain.store NetworkConfig.defaults
             (@default_handlers RefChain.store NetworkConfig.defaults
                (Some sample_validator))
             first_block_message [])
      = []
      \/ exists block,
           @Block_init RefChain.store (data first_block_message) = Ok block
           /\ @validate_block RefChain.store sample_validator block = Ok true
           /\ snd (@handle_message RefChain.store NetworkConfig.defaults
                     (@default_handlers RefChain.store NetworkConfig.defaults
                        (Some sample_validator))
                     first_block_message [])
              = snd (@add_block RefChain.store block [])).
Proof.
  apply (@block_stored_only_if_validated RefChain.store NetworkConfig.defaults
           sample_validator first_block_message []).
  reflexivity.
Defined.

(** ** More on the rate limiter *)

Section ThroughputFacts.
Import rate_limiter.
Local Open Scope Q_scope.

Lemma consume_sequence_cons (now n : Q) (calls : list (Q * Q)) (b : TokenBucket) :
  consume_sequence ((now, n) :: calls) b
  = consume_sequence calls (snd (consume_at now n b)).
Proof. reflexivity. Qed.

Lemma consume_sequence_params (calls : list (Q * Q)) (b : TokenBucket) :
  capacity (consume_sequence calls b) = capacity b
  /\ fill_rate (consume_sequence calls b) = fill_rate b.
Proof.
  revert b. induction calls as [| [now n] calls IH]; intros b; [done |].
  rewrite consume_sequence_cons.
  destruct (IH (snd (consume_at now n b))) as [Hc Hf].
  destruct (consume_at_params now n b) as (Hc' & Hf' & _).
  by rewrite Hc, Hf, Hc', Hf'.
Qed.



End ThroughputFacts.

Section GlobalDenialFacts.
Import rate_limiter.

(** A call denied at the global stage leaves every peer's record (its
    buckets, its history, its block) untouched, and reads the clock at
    most three times; a denial by the global bandwidth bucket still
    keeps the token taken from the global message bucket. *)
Lemma global_denial_leaves_peers_untouched (id ty : string) (size : Z)
  (rl rl' : RateLimiter) (c c' : Clock) (why : reason) :
  is_allowed id ty size rl c = (false, Some why, rl', c') ->
  why = Global_message_rate_limit_exceeded
  \/ why = Global_bandwidth_limit_exceeded ->
  peers rl' = peers rl
  /\ (why = Global_bandwidth_limit_exceeded ->
      consume_at (readings c (S (reads c))) 1 (global_message_bucket rl)
      = (true, global_message_bucket rl')).
Proof.
  intros Hdenied Hwhy. revert Hdenied. unfold is_allowed.
  destruct (peers rl !! id) as [p |];
    [| intros [= <- _ _]; destruct Hwhy; discriminate].
  cbn [time_time].
  destruct (Qlt_bool _ (blocked_until p));
    [intros [= <- _ _]; destruct Hwhy; discriminate |].
  unfold consume. cbn [time_time readings reads].
  destruct (consume_at _ 1 (global_message_bucket rl)) as [ok1 gm1].
  destruct ok1; cbn [negb].
  2:{ intros [= <- <- _]. split; [done | discriminate]. }
  cbn [with_global_message global_bandwidth_bucket].
  destruct (consume_at _ (inject_Z size) (global_bandwidth_bucket rl)) as [ok2 gb1].
  destruct ok2; cbn [negb].
  2:{ intros [= <- <- _]. split; done. }
  destruct (consume_at _ 1 (message_bucket p)) as [ok3 mb].
  destruct ok3; cbn [negb];
    [| intros [= <- _ _]; destruct Hwhy; discriminate].
  cbn [with_message_bucket bandwidth_bucket].
  destruct (consume_at _ (inject_Z size) (bandwidth_bucket p)) as [ok4 bb].
  destruct ok4; cbn [negb];
    [| intros [= <- _ _]; destruct Hwhy; discriminate].
  destruct (_check_request_frequency _ _ _). discriminate.
Qed.

End GlobalDenialFacts.


(** A message of 20 MB exceeds the global bandwidth bucket: the call is
    denied and the peer's record is as before. *)
Lemma global_denial_leaves_peers_untouched_witness :
  let r := rate_limiter.is_allowed "P" "block" 20971520 (fst sample_limiter)
                                   (snd sample_limiter) in
  fst (fst r) = (false, Some rate_limiter.Global_bandwidth_limit_exceeded)
  /\ rate_limiter.peers (snd (fst r)) = rate_limiter.peers (fst sample_limiter).
Proof.
  intros r.
  assert (Hanswer : fst (fst r)
                    = (false, Some rate_limiter.Global_bandwidth_limit_exceeded))
    by (vm_compute; reflexivity).
  split; [exact Hanswer |].
  assert (Hr : r = (false, Some rate_limiter.Global_bandwidth_limit_exceeded,
                    snd (fst r), snd r)).
  { destruct r as [[[ok why] rl'] c']. cbn [fst snd] in *. by injection Hanswer as -> ->. }
  exact (proj1 (global_denial_leaves_peers_untouched "P" "block" 20971520
                  (fst sample_limiter) (snd (fst r)) (snd sample_limiter)
                  (snd r) rate_limiter.Global_bandwidth_limit_exceeded
                  Hr (or_intror eq_refl))).
Defined.

(** ** More on the session layer *)

Section SessionFacts.
Import security.
Context `{!Crypto}.

Lemma remove_padding_of_add_padding (message : list byte) :
  _remove_padding (_add_padding message) = Ok message.
Proof.
  unfold _remove_padding, _add_padding.
  set (n := (16 - length message mod 16)%nat).
  assert (Hn : (1 <= n <= 16)%nat).
  { subst n. pose proof (Nat.mod_upper_bound (length message) 16). lia. }
  destruct (Byte.of_nat n) as [b |] eqn:Hb.
  2:{ exfalso. apply Byte.of_nat_None_iff in Hb. lia. }
  cbn [default from_option]. unfold id.
  destruct n as [| n']; [lia |].
  replace (repeat b (S n')) with (repeat b n' ++ [b])%list
    by (rewrite <- repeat_cons; done).
  rewrite app_assoc, last_snoc.
  apply Byte.to_of_nat in Hb. rewrite Hb.
  f_equal. rewrite <- app_assoc.
  apply slice_to_minus_app; [| done].
  rewrite length_app, repeat_length. cbn. lia.
Qed.

(** Encryption and decryption are inverse on a session: when the cipher
    decrypts what it encrypted, [decrypt_message] gives back the message
    that [encrypt_message] was given, for every message and every
    16-byte IV. *)
Lemma decrypt_encrypt_roundtrip (peer_id : string)
  (iv message key ciphertext : list byte) (sm : SecurityManager) :
  session_keys sm !! peer_id = Some key ->
  length iv = 16%nat ->
  aes_cbc_encrypt key iv (_add_padding message) = Ok ciphertext ->
  aes_cbc_decrypt key iv ciphertext = Ok (_add_padding message) ->
  encrypt_message iv peer_id message sm = Some (iv ++ ciphertext)%list
  /\ decrypt_message peer_id (iv ++ ciphertext)%list sm = Some message.
Proof.
  intros Hkey Hiv Henc Hdec. split.
  - unfold encrypt_message. by rewrite Hkey, Henc.
  - unfold decrypt_message. rewrite Hkey.
    rewrite <- Hiv at 1 2. rewrite take_app_length, drop_app_length, Hdec.
    by rewrite remove_padding_of_add_padding.
Qed.

Lemma forallb_repeat_eqb (b : byte) (n : nat) :
  forallb (Byte.eqb b) (repeat b n) = true.
Proof.
  induction n as [| n IH]; [done |]. cbn. rewrite IH.
  by rewrite (Byte.byte_dec_lb (eq_refl b)).
Qed.

(** [_add_padding] always adds between 1 and 16 bytes, brings the length
    to a multiple of 16, and the padding it writes is well-formed
    PKCS#7. *)
Lemma add_padding_well_formed (message : list byte) :
  (length message < length (_add_padding message) <= length message + 16)%nat
  /\ (length (_add_padding message) mod 16 = 0)%nat
  /\ pkcs7_well_formed (_add_padding message) = true.
Proof.
  unfold _add_padding.
  set (n := (16 - length message mod 16)%nat).
  assert (Hmod : (length message mod 16 < 16)%nat)
    by (apply Nat.mod_upper_bound; lia).
  assert (Hn : (1 <= n <= 16)%nat) by (subst n; lia).
  destruct (Byte.of_nat n) as [b |] eqn:Hb.
  2:{ exfalso. apply Byte.of_nat_None_iff in Hb. lia. }
  cbn [default from_option]. unfold id.
  rewrite length_app, repeat_length.
  split; [lia |]. split.
  - subst n.
    rewrite (Nat.div_mod_eq (length message) 16) at 1.
    replace (16 * (length message / 16) + length message mod 16
             + (16 - length message mod 16))%nat
      with ((1 + length message / 16) * 16)%nat by lia.
    apply Nat.Div0.mod_mul.
  - unfold pkcs7_well_formed.
    destruct n as [| n']; [lia |].
    replace (repeat b (S n')) with (repeat b n' ++ [b])%list
      by (rewrite <- repeat_cons; done).
    rewrite app_assoc, last_snoc.
    apply Byte.to_of_nat in Hb. rewrite Hb.
    rewrite <- app_assoc, length_app, length_app, repeat_length. cbn [length].
    replace (Nat.leb 1 (S n')) with true by done.
    replace (Nat.leb (S n') 16) with true by (symmetry; apply Nat.leb_le; lia).
    replace (Nat.leb (S n') (length message + (n' + 1))) with true
      by (symmetry; apply Nat.leb_le; lia).
    cbn [andb].
    replace (length message + (n' + 1) - S n')%nat with (length message) by lia.
    rewrite drop_app_length.
    replace (repeat b n' ++ [b])%list with (repeat b (S n'))
      by (rewrite <- repeat_cons; done).
    apply forallb_repeat_eqb.
Qed.

(** [end_session] forgets the peer: afterwards nothing can be encrypted
    or decrypted for it and its key cannot be rotated, while every other
    peer's keys are as before. *)
Lemma end_session_forgets (peer_id : string) (sm : SecurityManager) :
  (forall iv message, encrypt_message iv peer_id message (end_session peer_id sm) = None)
  /\ (forall blob, decrypt_message peer_id blob (end_session peer_id sm) = None)
  /\ rotate_session_key peer_id (end_session peer_id sm)
     = (false, end_session peer_id sm)
  /\ (forall other, other <> peer_id ->
        session_keys (end_session peer_id sm) !! other = session_keys sm !! other
        /\ peer_keys (end_session peer_id sm) !! other = peer_keys sm !! other).
Proof.
  unfold end_session, encrypt_message, decrypt_message, rotate_session_key.
  cbn [with_peer_keys with_session_keys session_keys peer_keys private_key].
  rewrite !lookup_delete_eq.
  repeat split; try done; by rewrite lookup_delete_ne.
Qed.

(** Sessions are independent: establishing a session with one peer or
    rotating its key, whether it succeeds or fails, never changes the
    session key or the public key stored for another peer. *)
Lemma sessions_are_independent (peer_id other : string) (pem : list byte)
  (sm : SecurityManager) :
  other <> peer_id ->
  (session_keys (snd (establish_session peer_id pem sm)) !! other
   = session_keys sm !! other
   /\ peer_keys (snd (establish_session peer_id pem sm)) !! other
      = peer_keys sm !! other)
  /\ (session_keys (snd (rotate_session_key peer_id sm)) !! other
      = session_keys sm !! other
      /\ peer_keys (snd (rotate_session_key peer_id sm)) !! other
         = peer_keys sm !! other).
Proof.
  intros Hne. split.
  - unfold establish_session.
    destruct (load_pem_public_key pem) as [pub | e]; [| done].
    destruct (derive_session_key _ pub) as [k | e]; cbn;
      by rewrite ?lookup_insert_ne.
  - unfold rotate_session_key.
    destruct (peer_keys sm !! peer_id) as [pub |]; [| done].
    destruct (derive_session_key sm pub) as [k | e]; cbn;
      by rewrite ?lookup_insert_ne.
Qed.

End SessionFacts.

(** The two bytes [hi] under the reference session. *)
Lemma decrypt_encrypt_roundtrip_witness :
  @security.encrypt_message security.Ref.crypto sample_iv "P" [x68; x69]
     sample_session
  = Some (blob_of (security._add_padding [x68; x69]))
  /\ @security.decrypt_message security.Ref.crypto "P"
       (blob_of (security._add_padding [x68; x69])) sample_session
     = Some [x68; x69].
Proof.
  apply (@decrypt_encrypt_roundtrip security.Ref.crypto "P" sample_iv [x68; x69]
           sample_key
           (security.Ref.cbc_encrypt 1 sample_key sample_iv
              (security._add_padding [x68; x69]))
           sample_session);
    vm_compute; reflexivity.
Defined.

(** The session of [P] and a peer [Q] without one. *)
Lemma sessions_are_independent_witness :
  (@security.session_keys security.Ref.crypto
     (snd (@security.establish_session security.Ref.crypto "P" sample_peer_pem
             sample_session)) !! "Q"
   = @security.session_keys security.Ref.crypto sample_session !! "Q"
   /\ @security.peer_keys security.Ref.crypto
        (snd (@security.establish_session security.Ref.crypto "P" sample_peer_pem
                sample_session)) !! "Q"
      = @security.peer_keys security.Ref.crypto sample_session !! "Q")
  /\ (@security.session_keys security.Ref.crypto
        (snd (@security.rotate_session_key security.Ref.crypto "P"
                sample_session)) !! "Q"
      = @security.session_keys security.Ref.crypto sample_session !! "Q"
      /\ @security.peer_keys security.Ref.crypto
           (snd (@security.rotate_session_key security.Ref.crypto "P"
                   sample_session)) !! "Q"
         = @security.peer_keys security.Ref.crypto sample_session !! "Q").
Proof.
  apply (@sessions_are_independent security.Ref.crypto "P" "Q" sample_peer_pem
           sample_session).
  discriminate.
Defined.

(** ** The handshake *)

Section HandshakeFacts.
Context `{!PyRuntime} (config : NetworkConfig.env).

(** [perform_handshake] is a [send_message] of the node's own handshake
    followed by a [receive_message] with every error turned into [None]:
    it writes exactly the frame [send_message] writes, reads exactly what
    [receive_message] reads, and returns the message [receive_message]
    returns, of whatever type it is. *)
Lemma perform_handshake_is_send_then_receive (r : StreamReader)
  (w : StreamWriter) (c : Clock) :
  (Z.of_nat (length (encode_message
                       (own_handshake config (readings c (reads c)))))
   < 2 ^ 32)%Z ->
  perform_handshake config r w c
  = (match fst (receive_message r) with Ok m => Some m | Raise _ => None end,
     snd (receive_message r),
     snd (send_message (own_handshake config (readings c (reads c))) w),
     mkClock (readings c) (S (reads c))).
Proof.
  intros Hsize.
  unfold perform_handshake, perform_handshake_body, send_message. cbn [time_time].
  unfold int_to_bytes_big.
  replace (_ <? 256 ^ Z.of_nat 4)%Z with true
    by (symmetry; apply Z.ltb_lt; change (256 ^ Z.of_nat 4)%Z with (2 ^ 32)%Z; lia).
  cbn [snd].
  unfold receive_message, receive_message_body.
  destruct (readexactly 4 r) as [[length_bytes | e] r1]; cbn [fst snd].
  2:{ by destruct e. }
  destruct (int_from_bytes_big length_bytes >? NetworkConfig.MAX_MESSAGE_SIZE)%Z;
    cbn [fst snd]; [done |].
  destruct (readexactly _ r1) as [[payload | e] r2]; cbn [fst snd].
  2:{ by destruct e. }
  destruct (decode_message payload) as [m | e]; cbn [fst snd]; [done |].
  by destruct e.
Qed.

End HandshakeFacts.

(** A peer that answers the handshake with a heartbeat: the heartbeat is
    returned as the handshake. *)
Lemma perform_handshake_is_send_then_receive_witness :
  fst (fst (fst (@perform_handshake RefJson.runtime NetworkConfig.defaults
                   (mkReader sample_frame [] 0) (mkWriter [] false)
                   (frozen_clock 1700000000))))
  = Some sample_heartbeat.
Proof.
  rewrite (@perform_handshake_is_send_then_receive RefJson.runtime
             NetworkConfig.defaults (mkReader sample_frame [] 0)
             (mkWriter [] false) (frozen_clock 1700000000)).
  - cbn [fst]. vm_compute. reflexivity.
  - vm_compute. reflexivity.
Defined.

(** ** The metrics *)

Section MetricsFacts.
Import metrics.
Local Open Scope Q_scope.

Lemma record_prometheus_peers (ty dir : string) (size : Z) (latency : Q)
  (nm : NetworkMetrics) :
  peers (snd (record_prometheus ty dir size latency nm)) = peers nm
  /\ connected_peers (snd (record_prometheus ty dir size latency nm))
     = connected_peers nm.
Proof.
  unfold record_prometheus, Counter_inc.
  destruct (Qlt_bool 1 0); [done |]. cbn.
  by destruct (Qlt_bool (inject_Z size) 0).
Qed.

Lemma metrics_ok_update (id : string) (p p' : PeerMetrics) (nm nm' : NetworkMetrics) :
  metrics_ok nm ->
  peers nm !! id = Some p ->
  node_id p' = node_id p ->
  (length (latency_samples p') <= latency_samples_maxlen)%nat ->
  peers nm' = <[id := p']> (peers nm) ->
  connected_peers nm' = connected_peers nm ->
  metrics_ok nm'.
Proof.
  intros [Hg Hp] Hid Hnode Hlen Hpeers Hgauge. split.
  - rewrite Hgauge, Hpeers, Hg.
    rewrite map_size_insert_Some; [reflexivity | by rewrite Hid].
  - intros id' q. rewrite Hpeers. destruct (decide (id' = id)) as [-> | Hne].
    + rewrite lookup_insert_eq. intros [= <-]. split; [| done].
      rewrite Hnode. by apply (Hp id p).
    + rewrite lookup_insert_ne by done. apply Hp.
Qed.

Lemma step_metrics_ok (k : call) (nm : NetworkMetrics) (c : Clock) :
  metrics_ok nm -> metrics_ok (fst (step k nm c)).
Proof.
  intros Hok. destruct k as [id | id | id ty sz lat | id ty sz lat | id ty];
    cbn [step].
  - unfold add_peer. destruct (peers nm !! id) as [p |] eqn:Hid; [done |].
    cbn. destruct Hok as [Hg Hp]. split; cbn.
    + rewrite Hg, map_size_insert_None by done.
      rewrite Nat2Z.inj_succ, <- Z.add_1_r, inject_Z_plus. reflexivity.
    + intros id' q. destruct (decide (id' = id)) as [-> | Hne].
      * rewrite lookup_insert_eq. intros [= <-]. cbn.
        unfold latency_samples_maxlen. split; [done | lia].
      * rewrite lookup_insert_ne by done. apply Hp.
  - unfold remove_peer. destruct (peers nm !! id) as [p |] eqn:Hid; [| done].
    cbn. destruct Hok as [Hg Hp]. split; cbn.
    + rewrite Hg, map_size_delete, Hid.
      assert (Hpos : (0 < size (peers nm))%nat).
      { destruct (size (peers nm)) eqn:Hsz; [| lia].
        apply map_size_empty_inv in Hsz. rewrite Hsz in Hid. done. }
      destruct (size (peers nm)) as [| n]; [lia |]. cbn [pred Init.Nat.pred].
      rewrite Nat2Z.inj_succ, <- Z.add_1_r, inject_Z_plus.
      change (inject_Z 1) with 1. ring.
    + intros id' q Hq. apply lookup_delete_Some in Hq as [_ Hq]. by apply Hp.
  - unfold record_message_sent.
    destruct (peers nm !! id) as [p |] eqn:Hid; [| done]. cbn [time_time].
    match goal with
    | |- context [record_prometheus ?a ?b ?s ?l ?m] =>
        pose proof (record_prometheus_peers a b s l m) as [Hps Hgs];
        destruct (record_prometheus a b s l m) as [r nm']
    end.
    cbn [fst snd] in *.
    eapply (metrics_ok_update id p); [exact Hok | exact Hid | | | exact Hps | exact Hgs].
    + done.
    + cbn. by apply (proj2 Hok id p).
  - unfold record_message_received.
    destruct (peers nm !! id) as [p |] eqn:Hid; [| done]. cbn [time_time].
    match goal with
    | |- context [record_prometheus ?a ?b ?s ?l ?m] =>
        pose proof (record_prometheus_peers a b s l m) as [Hps Hgs];
        destruct (record_prometheus a b s l m) as [r nm']
    end.
    cbn [fst snd] in *.
    eapply (metrics_ok_update id p); [exact Hok | exact Hid | | | exact Hps | exact Hgs].
    + done.
    + cbn. apply length_deque_append. by apply (proj2 Hok id p).
  - unfold record_error.
    destruct (peers nm !! id) as [p |] eqn:Hid; [| done].
    destruct (Counter_inc _ _ _) as [r ctr]. cbn [fst snd].
    eapply (metrics_ok_update id p); [exact Hok | exact Hid | | | reflexivity | reflexivity].
    + done.
    + cbn. by apply (proj2 Hok id p).
Qed.

Lemma run_metrics_ok (calls : list call) (nm : NetworkMetrics) (c : Clock) :
  metrics_ok nm -> metrics_ok (fst (run calls nm c)).
Proof.
  revert nm c. induction calls as [| k calls IH]; intros nm c Hok; [done |].
  cbn [run]. pose proof (step_metrics_ok k nm c Hok) as Hstep.
  destruct (step k nm c) as [nm' c']. by apply IH.
Qed.

(** The gauge never drifts: after any sequence of calls on a new
    [NetworkMetrics] (peers added twice, unknown peers removed, records
    that raise), [connected_peers] is the number of tracked peers, every
    record is filed under its own [node_id], and no latency window holds
    more than 100 samples. *)
Lemma gauge_counts_tracked_peers (calls : list call) (c : Clock) :
  connected_peers (fst (run calls NetworkMetrics_init c))
  == inject_Z (Z.of_nat (size (peers (fst (run calls NetworkMetrics_init c)))))
  /\ forall id p,
       peers (fst (run calls NetworkMetrics_init c)) !! id = Some p ->
       node_id p = id /\ (length (latency_samples p) <= 100)%nat.
Proof.
  apply (run_metrics_ok calls NetworkMetrics_init c). split; [reflexivity |].
  intros id p. cbn. by rewrite lookup_empty.
Qed.

(** A negative [size] is half recorded: on a tracked peer
    [record_message_sent] raises the [ValueError] of the byte counter
    after the peer's record and the message counter have been updated,
    so the peer's [bytes_sent] goes down, the message is counted, and
    neither histogram sees it. *)
Lemma negative_size_half_recorded (id ty : string) (size : Z) (latency : Q)
  (nm : NetworkMetrics) (c : Clock) (p : PeerMetrics) :
  peers nm !! id = Some p ->
  (size < 0)%Z ->
  exists msg nm',
    record_message_sent id ty size latency nm c
    = (Raise (ValueError msg), nm', mkClock (readings c) (S (reads c)))
    /\ (exists p', peers nm' !! id = Some p'
          /\ messages_sent p' = (messages_sent p + 1)%Z
          /\ bytes_sent p' = (bytes_sent p + size)%Z)
    /\ messages_total nm' !! [ty; "sent"%string]
       = Some (default 0 (messages_total nm !! [ty; "sent"%string]) + 1)
    /\ message_size nm' = message_size nm
    /\ message_latency nm' = message_latency nm.
Proof.
  intros Hid Hneg. unfold record_message_sent. rewrite Hid. cbn [time_time].
  unfold record_prometheus, Counter_inc.
  replace (Qlt_bool 1 0) with false by reflexivity.
  cbn [with_peers with_messages_total bytes_total messages_total].
  replace (Qlt_bool (inject_Z size) 0) with true.
  2:{ symmetry. apply Qlt_bool_true. unfold Qlt, inject_Z. cbn. lia. }
  eexists _, _. split; [reflexivity |]. cbn.
  split; [| split; [apply lookup_insert_eq | done]].
  eexists. rewrite lookup_insert_eq. split; [reflexivity |]. done.
Qed.

End MetricsFacts.

Section WindowFacts.
Import metrics.

(** A bounded deque fed one element at a time holds the latest [maxlen]
    elements, oldest first. *)
Lemma deque_append_window {A : Type} (maxlen : nat) (pre : list A) (x : A) :
  rate_limiter.deque_append maxlen x (drop (length pre - maxlen) pre)
  = drop (length (pre ++ [x]) - maxlen) (pre ++ [x])%list.
Proof.
  unfold rate_limiter.deque_append.
  rewrite !length_app, length_drop. cbn [length].
  destruct (Nat.ltb_spec maxlen (length pre - (length pre - maxlen) + 1))
    as [Hfull | Hroom].
  - destruct (decide (maxlen = 0)) as [-> | Hpos].
    + rewrite Nat.sub_0_r, drop_all. cbn.
      rewrite drop_ge by (rewrite length_app; cbn; lia). done.
    + rewrite (drop_app_le (drop _ pre)) by (rewrite length_drop; lia).
      rewrite drop_drop.
      rewrite (drop_app_le pre) by lia.
      by replace (length pre - maxlen + 1) with (length pre + 1 - maxlen) by lia.
  - replace (length pre - maxlen) with 0 by lia.
    by replace (length pre + 1 - maxlen) with 0 by lia.
Qed.

Lemma run_received (id : string) (received : list (string * Z * Q)) :
  forall (pre : list Q) (nm : NetworkMetrics) (c : Clock) (p : PeerMetrics),
    peers nm !! id = Some p ->
    latency_samples p = drop (length pre - latency_samples_maxlen) pre ->
    messages_received p = Z.of_nat (length pre) ->
    exists p',
      peers (fst (run (map (received_call id) received) nm c)) !! id = Some p'
      /\ latency_samples p'
         = drop (length (pre ++ map snd received) - latency_samples_maxlen)
                (pre ++ map snd received)%list
      /\ messages_received p'
         = Z.of_nat (length (pre ++ map snd received)).
Proof.
  induction received as [| [[ty sz] lat] received IH]; intros pre nm c p Hid Hwin Hcount.
  - exists p. cbn. by rewrite app_nil_r.
  - cbn [map run step received_call fst snd].
    unfold record_message_received. rewrite Hid. cbn [time_time].
    match goal with
    | |- context [record_prometheus ?a ?b ?s ?l ?m] =>
        pose proof (record_prometheus_peers a b s l m) as [Hps _];
        destruct (record_prometheus a b s l m) as [r nm']
    end.
    cbn [fst snd with_peers peers] in Hps.
    match type of Hps with
    | _ = <[id := ?q]> _ =>
        destruct (IH (pre ++ [lat])%list nm' (mkClock (readings c) (S (reads c))) q)
          as (p' & Hp' & Hwin' & Hcount')
    end.
    + rewrite Hps. apply lookup_insert_eq.
    + cbn [latency_samples]. rewrite Hwin. apply deque_append_window.
    + cbn [messages_received]. rewrite Hcount, length_app. cbn. lia.
    + exists p'. rewrite <- app_assoc in Hwin', Hcount'. done.
Qed.

(** The latency a peer is reported with is the mean over its latest 100
    received messages: after [add_peer] and any number of
    [record_message_received] calls for the peer (whatever their sizes,
    negative ones included), [get_peer_stats] counts all of them in
    [messages_received] and averages the last 100 latencies. *)
Lemma average_latency_window (id : string) (received : list (string * Z * Q))
  (c : Clock) :
  exists stats,
    fst (get_peer_stats id
           (fst (run (Add_peer id :: map (received_call id) received)
                     NetworkMetrics_init c))
           (snd (run (Add_peer id :: map (received_call id) received)
                     NetworkMetrics_init c)))
    = Some (JObject stats)
    /\ dict_get "messages_received" stats
       = Some (JInt (Z.of_nat (length received)))
    /\ dict_get "average_latency" stats
       = Some (average (drop (length received - 100) (map snd received))).
Proof.
  cbn [run step]. unfold add_peer.
  replace (peers NetworkMetrics_init !! id) with (@None PeerMetrics)
    by (cbn; by rewrite lookup_empty).
  cbn [time_time PeerMetrics_init].
  match goal with
  | |- context [run _ ?nm ?c'] =>
      match nm with
      | context [<[id := ?q]> _] =>
          destruct (run_received id received [] nm c' q) as (p' & Hp' & Hwin & Hcount)
      end
  end.
  - cbn. apply lookup_insert_eq.
  - done.
  - done.
  - cbn [app] in Hwin, Hcount. rewrite length_map in Hwin, Hcount.
    unfold get_peer_stats. rewrite Hp'. cbn [time_time].
    eexists. split; [reflexivity |].
    cbn. rewrite Hcount, Hwin. done.
Qed.

End WindowFacts.

(** A message of size -5 sent to the one tracked peer. *)
Lemma negative_size_half_recorded_witness :
  exists msg nm',
    metrics.record_message_sent "a" "block" (-5) 0 sample_metrics (frozen_clock 0)
    = (Raise (ValueError msg), nm',
       mkClock (readings (frozen_clock 0)) (S (reads (frozen_clock 0))))
    /\ (exists p', metrics.peers nm' !! "a" = Some p'
          /\ metrics.messages_sent p'
             = (metrics.messages_sent sample_peer_metrics + 1)%Z
          /\ metrics.bytes_sent p'
             = (metrics.bytes_sent sample_peer_metrics + -5)%Z)
    /\ metrics.messages_total nm' !! ["block"; "sent"]
       = Some (default 0 (metrics.messages_total sample_metrics
                          !! ["block"; "sent"]) + 1)%Q
    /\ metrics.message_size nm' = metrics.message_size sample_metrics
    /\ metrics.message_latency nm' = metrics.message_latency sample_metrics.
Proof.
  apply (negative_size_half_recorded "a" "block" (-5) 0 sample_metrics
           (frozen_clock 0) sample_peer_metrics).
  - vm_compute. reflexivity.
  - lia.
Defined.

(** ** The error handler *)

Section ErrorHandlerFacts.
Import error_handler.

Lemma ErrorType_eqb_eq (a b : ErrorType) : ErrorType_eqb a b = true <-> a = b.
Proof. by destruct a, b. Qed.

Lemma ErrorType_eqb_refl (a : ErrorType) : ErrorType_eqb a a = true.
Proof. by apply ErrorType_eqb_eq. Qed.

Lemma by_type_get_set {A : Type} (t t' : ErrorType) (v : A)
  (d : list (ErrorType * A)) :
  by_type_get t (by_type_set t' v d)
  = if ErrorType_eqb t t' then Some v else by_type_get t d.
Proof.
  induction d as [| [k w] d IH]; cbn.
  - by destruct (ErrorType_eqb t t').
  - destruct (ErrorType_eqb t' k) eqn:Hk; cbn.
    + apply ErrorType_eqb_eq in Hk as <-. by destruct (ErrorType_eqb t t').
    + destruct (ErrorType_eqb t k) eqn:Htk; [| exact IH].
      apply ErrorType_eqb_eq in Htk as <-.
      destruct (ErrorType_eqb t t') eqn:Htt; [| done].
      apply ErrorType_eqb_eq in Htt as <-. by rewrite ErrorType_eqb_refl in Hk.
Qed.

Lemma fold_left_Zadd (l : list Z) (a : Z) :
  fold_left Z.add l a = (a + fold_left Z.add l 0)%Z.
Proof.
  revert a. induction l as [| x l IH]; intros a; cbn [fold_left]; [lia |].
  rewrite (IH (a + x)%Z), (IH (0 + x)%Z). lia.
Qed.

Lemma sum_by_type_set (t : ErrorType) (n : Z) (d : list (ErrorType * Z)) :
  by_type_get t d = Some n ->
  fold_left Z.add (map snd (by_type_set t (n + 1)%Z d)) 0%Z
  = (fold_left Z.add (map snd d) 0 + 1)%Z.
Proof.
  induction d as [| [k w] d IH]; cbn; [done |].
  destruct (ErrorType_eqb t k) eqn:Hk; cbn.
  - intros [= ->]. rewrite (fold_left_Zadd _ (n + 1)), (fold_left_Zadd _ n). lia.
  - intros Hget. rewrite (fold_left_Zadd _ w), (IH Hget), (fold_left_Zadd _ w). lia.
Qed.

(** What [handle_error] keeps of the handler. *)
Lemma handle_error_frame (error : NetworkError) (peer_id : option string)
  (eh : ErrorHandler) :
  max_history_size (handle_error error peer_id eh) = max_history_size eh
  /\ error_handlers (handle_error error peer_id eh) = error_handlers eh.
Proof.
  unfold handle_error.
  destruct (by_type_get _ (error_counts eh)); [| done].
  destruct (match peer_id_given peer_id with Some _ => _ | None => _ end) as [[] ?];
    done.
Qed.

(** One call on a handler whose table counts the type of the error. *)
Lemma handle_error_counted (error : NetworkError) (peer_id : option string)
  (eh : ErrorHandler) (n : Z) :
  by_type_get (error_type error) (error_counts eh) = Some n ->
  error_counts (handle_error error peer_id eh)
  = by_type_set (error_type error) (n + 1)%Z (error_counts eh)
  /\ error_history (handle_error error peer_id eh)
     = rate_limiter.deque_append (max_history_size eh) error (error_history eh).
Proof.
  intros Hn. unfold handle_error. rewrite Hn.
  destruct (match peer_id_given peer_id with Some _ => _ | None => _ end) as [[] ?];
    done.
Qed.

Lemma ErrorHandler_init_fields (m : metrics.NetworkMetrics) :
  error_counts (ErrorHandler_init m) = map (fun t => (t, 0%Z)) ErrorType_members
  /\ error_history (ErrorHandler_init m) = []
  /\ max_history_size (ErrorHandler_init m) = 1000.
Proof. done. Qed.

(** The state a sequence of calls reaches from a handler that counts
    every type. *)
Lemma handle_errors_state (calls : list (NetworkError * option string)) :
  forall (pre : list NetworkError) (eh : ErrorHandler),
    (forall t, by_type_get t (error_counts eh)
               = Some (Z.of_nat (length (List.filter
                           (fun e => ErrorType_eqb (error_type e) t) pre)))) ->
    fold_left Z.add (map snd (error_counts eh)) 0%Z = Z.of_nat (length pre) ->
    error_history eh = drop (length pre - max_history_size eh) pre ->
    let eh' := handle_errors calls eh in
    let all := (pre ++ map fst calls)%list in
    (forall t, by_type_get t (error_counts eh')
               = Some (Z.of_nat (length (List.filter
                           (fun e => ErrorType_eqb (error_type e) t) all))))
    /\ fold_left Z.add (map snd (error_counts eh')) 0%Z = Z.of_nat (length all)
    /\ error_history eh' = drop (length all - max_history_size eh) all.
Proof.
  induction calls as [| [error peer_id] calls IH]; intros pre eh Hcounts Hsum Hhist.
  - cbn. by rewrite app_nil_r.
  - cbn [handle_errors fold_left map fst].
    destruct (handle_error_counted error peer_id eh _ (Hcounts (error_type error)))
      as [Hc Hh].
    destruct (handle_error_frame error peer_id eh) as [Hmax _].
    specialize (IH (pre ++ [error])%list (handle_error error peer_id eh)).
    rewrite Hmax in IH. rewrite <- app_assoc in IH. apply IH.
    + intros t. rewrite Hc, by_type_get_set, List.filter_app, length_app. cbn.
      rewrite (Hcounts t).
      destruct (ErrorType_eqb t (error_type error)) eqn:Ht.
      * apply ErrorType_eqb_eq in Ht as ->. rewrite ErrorType_eqb_refl. cbn.
        f_equal. lia.
      * replace (ErrorType_eqb (error_type error) t) with false.
        { cbn. by rewrite Nat.add_0_r. }
        symmetry. apply not_true_is_false. intros Heq.
        apply ErrorType_eqb_eq in Heq. rewrite Heq, ErrorType_eqb_refl in Ht. done.
    + rewrite Hc, (sum_by_type_set _ _ _ (Hcounts (error_type error))), Hsum.
      rewrite length_app. cbn. lia.
    + rewrite Hh, Hhist. apply deque_append_window.
Qed.

(** The history is a window: after any sequence of [handle_error] calls
    on a new handler, [error_history] holds the latest 1000 errors in the
    order they were handled, and [get_error_stats] lists the latest ten
    of them, newest first. *)
Lemma error_history_keeps_latest (calls : list (NetworkError * option string))
  (m : metrics.NetworkMetrics) :
  error_history (handle_errors calls (ErrorHandler_init m))
  = drop (length calls - 1000) (map fst calls)
  /\ py_getitem (get_error_stats (handle_errors calls (ErrorHandler_init m)))
                "recent_errors"
     = Ok (JArray (map error_summary
                       (rev (drop (length calls - 10) (map fst calls))))).
Proof.
  destruct (ErrorHandler_init_fields m) as (Hc & Hh & Hmax).
  destruct (handle_errors_state calls [] (ErrorHandler_init m)) as (_ & _ & Hhist).
  - intros t. rewrite Hc. by destruct t.
  - by rewrite Hc.
  - by rewrite Hh.
  - cbn [app] in Hhist. rewrite Hmax, length_map in Hhist.
    split; [exact Hhist |].
    cbn. rewrite Hhist, drop_drop, length_drop, length_map.
    by replace (length calls - 1000 + (length calls - (length calls - 1000) - 10))
      with (length calls - 10) by lia.
Qed.

(** The counters are exact and are not bounded by the history: after any
    sequence of [handle_error] calls on a new handler, the counter of
    each type is the number of errors of that type handled so far, and
    [get_error_stats] reports their total, the number of calls, even
    when the history has dropped the oldest ones. *)
Lemma error_counts_are_exact (calls : list (NetworkError * option string))
  (m : metrics.NetworkMetrics) :
  (forall t,
     by_type_get t (error_counts (handle_errors calls (ErrorHandler_init m)))
     = Some (Z.of_nat (length (List.filter
                 (fun e => ErrorType_eqb (error_type e) t) (map fst calls)))))
  /\ py_getitem (get_error_stats (handle_errors calls (ErrorHandler_init m)))
                "total_errors"
     = Ok (JInt (Z.of_nat (length calls))).
Proof.
  destruct (ErrorHandler_init_fields m) as (Hc & Hh & Hmax).
  destruct (handle_errors_state calls [] (ErrorHandler_init m)) as (Hcounts & Hsum & _).
  - intros t. rewrite Hc. by destruct t.
  - by rewrite Hc.
  - by rewrite Hh.
  - cbn [app] in Hcounts, Hsum. split; [exact Hcounts |].
    cbn. by rewrite Hsum, length_map.
Qed.

(** The severity thresholds of the default handlers are never applied:
    on a new handler, every error whose type is not [RATE_LIMIT_ERROR]
    makes its default handler raise the [TypeError] of an unordered enum,
    whatever the severity, and [handle_error] logs it after the error
    itself. *)
Lemma default_handlers_raise_type_error (error : NetworkError)
  (peer_id : option string) (m : metrics.NetworkMetrics) :
  error_type error <> RATE_LIMIT_ERROR ->
  exists name,
    logger (handle_error error peer_id (ErrorHandler_init m))
    = [Network_error_occurred (ErrorType_name (error_type error))
                              (ErrorSeverity_name (severity error))
                              (message error) (details error) peer_id;
       Error_in_error_handler name
         ("'>=' not supported between instances of "
          ++ "'ErrorSeverity' and 'ErrorSeverity'")].
Proof.
  intros Hty. unfold handle_error.
  destruct (match peer_id_given peer_id with Some _ => _ | None => _ end)
    as [recorded m'] eqn:Hrec.
  assert (Hok : recorded = Ok tt).
  { destruct (peer_id_given peer_id) as [id |]; [| by injection Hrec as <- _].
    unfold metrics.record_error in Hrec.
    destruct (metrics.peers _ !! id); [| by injection Hrec as <- _].
    unfold metrics.Counter_inc in Hrec.
    replace (Qlt_bool 1 0) with false in Hrec by reflexivity.
    by injection Hrec as <- _. }
  subst recorded.
  destruct (error_type error) eqn:Et; try done; cbn; eexists; reflexivity.
Qed.

End ErrorHandlerFacts.

(** A connection error of low severity, reported for a tracked peer. *)
Lemma default_handlers_raise_type_error_witness :
  exists name,
    error_handler.logger
      (error_handler.handle_error sample_error (Some "a")
         (error_handler.ErrorHandler_init sample_metrics))
    = [error_handler.Network_error_occurred
         (error_handler.ErrorType_name (error_handler.error_type sample_error))
         (error_handler.ErrorSeverity_name (error_handler.severity sample_error))
         (error_handler.message sample_error)
         (error_handler.details sample_error) (Some "a");
       error_handler.Error_in_error_handler name
         ("'>=' not supported between instances of "
          ++ "'ErrorSeverity' and 'ErrorSeverity'")].
Proof.
  apply (default_handlers_raise_type_error sample_error (Some "a") sample_metrics).
  discriminate.
Defined.

(** ** The onion address check *)

Section OnionFacts.
Import tor_network.










End OnionFacts.
